(** * xiaozhi-client: connection resilience layer

    A shallow embedding of the three browser-side services of the web
    client and the properties the design document states about them:

    - [HealthChecker]       (web/src/services/HealthChecker.ts)
    - [ConnectionManager]   (web/src/services/ConnectionManager.ts)
    - [RestartStateMachine] (web/src/services/RestartStateMachine.ts)

    Numbers are JavaScript numbers holding integers (ports, counters and
    millisecond timestamps) and are modelled as [Z].  Every call of
    [Date.now()] is an explicit argument.  Console output is dropped. *)

From stdpp Require Import base option list gmap strings pretty.
From Stdlib Require Import ZArith Lia.

Open Scope Z_scope.

(** * JavaScript conventions shared by the three services *)
Module JS.

(** Values that the modelled code throws or rejects with. *)
Inductive Error : Type :=
| TypeError (what : string)
    (* property access on null or undefined *)
| RangeError (what : string)
    (* [new Date(x).toISOString()] on an invalid date *)
| AbortError
    (* a fetch rejected by [AbortController.abort()] *)
| Err (text : string).
    (* [new Error(text)] *)

(** [error instanceof Error ? error.message : String(error)]; every
    thrown value of the model is an [Error] instance. *)
Definition message (e : Error) : string :=
  match e with
  | TypeError what => what
  | RangeError what => what
  | AbortError => "The operation was aborted."
  | Err text => text
  end.

(** The outcome of evaluating a statement: it completes or it throws. *)
Inductive Completion (A : Type) : Type :=
| Normal (a : A)
| Throw (e : Error).
Arguments Normal {A} a.
Arguments Throw {A} e.

(** Code that reads and writes the fields of [this] (a state [S]) and
    may throw.  A throw keeps the writes made before it. *)
Definition Eff (S A : Type) : Type := S -> Completion A * S.

Definition ret {S A} (a : A) : Eff S A := fun s => (Normal a, s).
Definition throw {S A} (e : Error) : Eff S A := fun s => (Throw e, s).
Definition bind {S A B} (c : Eff S A) (k : A -> Eff S B) : Eff S B :=
  fun s =>
    match c s with
    | (Normal a, s') => k a s'
    | (Throw e, s') => (Throw e, s')
    end.
Definition get {S} : Eff S S := fun s => (Normal s, s).
Definition modify {S} (f : S -> S) : Eff S unit := fun s => (Normal tt, f s).

(** [try { body } catch (error) { handler error }] *)
Definition try_catch {S A} (body : Eff S A) (handler : Error -> Eff S A)
  : Eff S A :=
  fun s =>
    match body s with
    | (Normal a, s') => (Normal a, s')
    | (Throw e, s') => handler e s'
    end.

#[global] Instance eff_ret {S} : MRet (Eff S) := fun A => @ret S A.
#[global] Instance eff_bind {S} : MBind (Eff S) := fun A B k c => bind c k.

(** Truthiness of an optional number: [undefined], [0] are falsy. *)
Definition truthy_num (x : option Z) : bool :=
  match x with
  | Some z => negb (z =? 0)
  | None => false
  end.

(** [x || d] on an optional number. *)
Definition or_num (x : option Z) (d : Z) : Z :=
  match x with
  | Some z => if z =? 0 then d else z
  | None => d
  end.

(** [new Date(x).toISOString()] throws a RangeError outside the range
    of ECMAScript time values. *)
Definition max_time_value : Z := 8640000000000000.
Definition toISOString {S} (x : Z) : Eff S unit :=
  if (- max_time_value <=? x) && (x <=? max_time_value)
  then ret tt
  else throw (RangeError "Invalid time value").

(** ** Parsed JSON *)
#[warnings="-register-all"]
Inductive Json : Type :=
| JNull
| JBool (b : bool)
| JNum (z : Z)
| JStr (s : string)
| JArr (items : list Json)
| JObj (members : list (string * Json)).

(** ** [Map] and [Set], in insertion order *)
Section Assoc.
Context {K V : Type} `{EqDecision K}.

(** [map.get(k)] *)
Fixpoint assoc_get (k : K) (m : list (K * V)) : option V :=
  match m with
  | [] => None
  | (k', v) :: rest => if decide (k = k') then Some v else assoc_get k rest
  end.

(** [map.set(k, v)]: an existing key keeps its place. *)
Fixpoint assoc_set (k : K) (v : V) (m : list (K * V)) : list (K * V) :=
  match m with
  | [] => [(k, v)]
  | (k', v') :: rest =>
      if decide (k = k') then (k, v) :: rest
      else (k', v') :: assoc_set k v rest
  end.

(** [map.delete(k)] *)
Fixpoint assoc_delete (k : K) (m : list (K * V)) : list (K * V) :=
  match m with
  | [] => []
  | (k', v) :: rest =>
      if decide (k = k') then assoc_delete k rest
      else (k', v) :: assoc_delete k rest
  end.
End Assoc.

Section SetOps.
Context {A : Type} `{EqDecision A}.

(** [set.add(x)] *)
Definition set_add (x : A) (l : list A) : list A :=
  if decide (x ∈ l) then l else l ++ [x].

(** [set.delete(x)] *)
Fixpoint set_delete (x : A) (l : list A) : list A :=
  match l with
  | [] => []
  | y :: rest =>
      if decide (x = y) then set_delete x rest else y :: set_delete x rest
  end.
End SetOps.

(** The property read [v.name]; [None] is [undefined]. *)
Definition prop (name : string) (v : Json) : Completion (option Json) :=
  match v with
  | JNull => Throw (TypeError "Cannot read properties of null")
  | JObj members => Normal (assoc_get name members)
  | _ => Normal None
  end.

(** The optional chain [v?.name] on a value that may be [undefined]. *)
Definition prop_opt (name : string) (v : option Json) : option Json :=
  match v with
  | Some (JObj members) => assoc_get name members
  | _ => None
  end.

(** Truthiness of a value that may be [undefined]. *)
Definition truthy (v : option Json) : bool :=
  match v with
  | None => false
  | Some JNull => false
  | Some (JBool b) => b
  | Some (JNum z) => negb (z =? 0)
  | Some (JStr s) => negb (bool_decide (s = ""))
  | Some (JArr _) => true
  | Some (JObj _) => true
  end.

(** [v === text] for a string [text]. *)
Definition is_string (v : option Json) (text : string) : bool :=
  match v with
  | Some (JStr s) => bool_decide (s = text)
  | _ => false
  end.

End JS.

(** * HealthChecker.ts *)
Module HealthChecker.
Import JS.

(** The JSON object served by [GET /api/health], as far as
    [getHealthStatus] reads it; an absent property is [None]. *)
Record HealthData : Type := {
  d_status : option string;
  d_timestamp : option Z;
  d_uptime : option Z;
  d_port : option Z;
  d_version : option string;
  d_error : option string
}.

(** [interface HealthCheckResult] *)
Record HealthCheckResult : Type := {
  healthy : bool;
  timestamp : Z;
  uptime : option Z;
  port : option Z;
  version : option string;
  details : option HealthData;
  error : option string
}.

(** [interface HealthCheckConfig] *)
Record HealthCheckConfig : Type := {
  timeout : Z;
  interval : Z;
  maxRetries : Z;
  retryInterval : Z
}.

Definition DEFAULT_CONFIG : HealthCheckConfig :=
  {| timeout := 5000; interval := 1000; maxRetries := 30;
     retryInterval := 1000 |}.

Record CacheEntry : Type := {
  result : HealthCheckResult;
  expiry : Z
}.

(** [class HealthChecker].  The cache key [`health_${port}`] is
    represented by the port itself. *)
Record t : Type := {
  config : HealthCheckConfig;
  checkCache : gmap Z CacheEntry
}.

Definition CACHE_TTL : Z := 2000.

Definition create (c : HealthCheckConfig) : t :=
  {| config := c; checkCache := ∅ |}.

(** ** What the network answers to one probe *)

(** The outcome of [response.json()]. *)
Inductive Body : Type :=
| BodyRejects (e : Error)      (* the body is not JSON *)
| BodyNull                     (* the body is the JSON value null *)
| BodyData (data : HealthData).

Record Response : Type := {
  ok : bool;
  status : Z;
  statusText : string;
  body : Body
}.

(** The outcome of [fetch(url, {signal})]: it rejects (transport
    error, or [AbortError] when the timeout timer aborts it) or it
    resolves with a response. *)
Inductive FetchOutcome : Type :=
| FetchRejects (e : Error)
| FetchResolves (r : Response).

(** One probe: the network's answer and the value of [Date.now()] in
    the block that builds and caches the result. *)
Record Probe : Type := {
  fetched : FetchOutcome;
  completed : Z
}.

Definition fetch (p : Probe) : Eff t Response :=
  match fetched p with
  | FetchRejects e => throw e
  | FetchResolves r => ret r
  end.

(** [await response.json()] followed by the first property read of
    [data], which throws on [null]. *)
Definition json (r : Response) : Eff t HealthData :=
  match body r with
  | BodyRejects e => throw e
  | BodyNull => throw (TypeError "Cannot read properties of null")
  | BodyData data => ret data
  end.

Definition is_healthy (data : HealthData) : bool :=
  bool_decide (d_status data = Some "healthy").

Definition cacheSet (key : Z) (e : CacheEntry) : Eff t unit :=
  modify (fun hc =>
    {| config := config hc; checkCache := <[key := e]> (checkCache hc) |}).

(** The [try { ... } catch (error) { ... }] block of
    [getHealthStatus], lines 91-159: one live probe, whose result is
    written into the cache before it is returned. *)
Definition liveCheck (port0 : Z) (p : Probe) : Eff t HealthCheckResult :=
  try_catch
    (response ← fetch p;
     res ← (if ok response then
              data ← json response;
              ret {| healthy := is_healthy data;
                     timestamp := or_num (d_timestamp data) (completed p);
                     uptime := d_uptime data;
                     port := Some (or_num (d_port data) port0);
                     version := d_version data;
                     details := Some data;
                     error := if is_healthy data then None
                              else d_error data |}
            else
              ret {| healthy := false;
                     timestamp := completed p;
                     uptime := None;
                     port := Some port0;
                     version := None;
                     details := None;
                     error := Some ("HTTP " +:+ pretty (status response)
                                    +:+ ": " +:+ statusText response) |});
     _ ← cacheSet port0
           {| result := res; expiry := completed p + CACHE_TTL |};
     ret res)
    (fun e =>
       let res := {| healthy := false;
                     timestamp := completed p;
                     uptime := None;
                     port := Some port0;
                     version := None;
                     details := None;
                     error := Some (message e) |} in
       _ ← cacheSet port0
             {| result := res; expiry := completed p + 500 |};
       ret res).

(** [async getHealthStatus(port)], lines 81-160.  [now] is the
    [Date.now()] of the cache check. *)
Definition getHealthStatus (port0 : Z) (now : Z) (p : Probe)
  : Eff t HealthCheckResult :=
  hc ← get;
  match checkCache hc !! port0 with
  | Some cached =>
      if now <? expiry cached then ret (result cached)
      else liveCheck port0 p
  | None => liveCheck port0 p
  end.

(** [async checkServiceHealth(port)], lines 68-76. *)
Definition checkServiceHealth (port0 : Z) (now : Z) (p : Probe)
  : Eff t bool :=
  try_catch
    (res ← getHealthStatus port0 now p;
     ret (healthy res))
    (fun _ => ret false).

(** [async verifyServiceRestart(oldTimestamp, port)], lines 213-256.
    [later] is the [Date.now()] of the uptime estimate. *)
Definition verifyServiceRestart (oldTimestamp port0 : Z) (now : Z)
    (p : Probe) (later : Z) : Eff t bool :=
  try_catch
    (_ ← toISOString oldTimestamp;
     healthStatus ← getHealthStatus port0 now p;
     if negb (healthy healthStatus) then ret false
     else if truthy_num (Some (timestamp healthStatus))
             && (timestamp healthStatus >? oldTimestamp)
     then
       _ ← toISOString (timestamp healthStatus);
       ret true
     else
       match uptime healthStatus with
       | Some up =>
           let estimatedStartTime := later - up * 1000 in
           if estimatedStartTime >? oldTimestamp then ret true
           else ret false
       | None => ret false
       end)
    (fun _ => ret false).

(** [clearCache(port?)], lines 298-307; [if (port)] is a truthiness
    test. *)
Definition clearCache (port0 : option Z) : Eff t unit :=
  modify (fun hc =>
    {| config := config hc;
       checkCache := if truthy_num port0
                     then match port0 with
                          | Some k => delete k (checkCache hc)
                          | None => checkCache hc
                          end
                     else ∅ |}).

(** The design document's reading of [verifyRestarted]: the target
    reports data [d]; it has restarted when it is healthy and its
    start time, read from the reported timestamp or derived from the
    reported uptime ([later] minus uptime in seconds), lies strictly
    after [previousTimestamp]. *)
Definition spec_verifyRestarted (previousTimestamp : Z) (d : HealthData)
    (later : Z) : bool :=
  is_healthy d
  && (match d_timestamp d with
      | Some ts => ts >? previousTimestamp
      | None => false
      end
      || match d_uptime d with
         | Some up => later - up * 1000 >? previousTimestamp
         | None => false
         end).

(** The cached result [getHealthStatus] would return at time [now]
    without probing, if any. *)
Definition fresh_cached (hc : t) (port0 now : Z) : option HealthCheckResult :=
  match checkCache hc !! port0 with
  | Some cached => if now <? expiry cached then Some (result cached) else None
  | None => None
  end.

(** The probe delivered a response the code could read: [fetch]
    resolved and, for a 2xx response, the body parsed to an object. *)
Definition responded (p : Probe) : bool :=
  match fetched p with
  | FetchRejects _ => false
  | FetchResolves r =>
      if ok r then
        match body r with BodyData _ => true | _ => false end
      else true
  end.

(** The probe delivered a 2xx response whose body declares the
    status "healthy". *)
Definition answers_healthy (p : Probe) : bool :=
  match fetched p with
  | FetchRejects _ => false
  | FetchResolves r =>
      ok r && match body r with
              | BodyData data => is_healthy data
              | _ => false
              end
  end.

(** [destroy()], lines 351-354 *)
Definition destroy : Eff t unit := clearCache None.

(** One turn of the polling loop of [waitForServiceReady]: the value
    of [Date.now()] in the loop condition, and the time and probe of
    the health check made if the loop goes on. *)
Record Round : Type := {
  tested : Z;
  checked : Z;
  probed : Probe
}.

(** The [while] loop of [waitForServiceReady], lines 175-201, over
    the turns the environment has in store; [None] when they run
    out with the loop still polling. *)
Fixpoint pollUntilReady (port0 actualTimeout startTime : Z)
    (rounds : list Round) : Eff t (option bool) :=
  match rounds with
  | [] => ret None
  | round :: rest =>
      if tested round - startTime <? actualTimeout then
        isHealthy ← try_catch
                      (checkServiceHealth port0 (checked round) (probed round))
                      (fun _ => ret false);
        if (isHealthy : bool) then ret (Some true)
        else pollUntilReady port0 actualTimeout startTime rest
      else ret (Some false)
  end.

(** [async waitForServiceReady(port, timeout?)], lines 165-207;
    [startTime] is the [Date.now()] of line 168. *)
Definition waitForServiceReady (port0 : Z) (timeout0 : option Z)
    (startTime : Z) (rounds : list Round) : Eff t (option bool) :=
  hc ← get;
  let actualTimeout :=
    or_num timeout0 (maxRetries (config hc) * retryInterval (config hc)) in
  pollUntilReady port0 actualTimeout startTime rounds.

(** A service that answers "unhealthy" at first and "healthy" later. *)
Definition answering (status0 : string) (at0 : Z) : Probe :=
  {| fetched := FetchResolves
       {| ok := true; status := 200; statusText := "OK";
          body := BodyData
            {| d_status := Some status0; d_timestamp := Some at0;
               d_uptime := None; d_port := None; d_version := None;
               d_error := None |} |};
     completed := at0 |}.

End HealthChecker.

(** * ConnectionManager.ts *)
Module ConnectionManager.
Import JS.

(** [enum ConnectionState] *)
Inductive ConnectionState : Type :=
| DISCONNECTED | CONNECTING | CONNECTED | RECONNECTING | FAILED.

#[global] Instance ConnectionState_eq_dec : EqDecision ConnectionState.
Proof. solve_decision. Defined.

(** [interface ConnectionConfig] *)
Record ConnectionConfig : Type := {
  connectTimeout : Z;
  messageTimeout : Z;
  reconnectInterval : Z;
  maxReconnectAttempts : Z
}.

Definition DEFAULT_CONFIG : ConnectionConfig :=
  {| connectTimeout := 5000; messageTimeout := 10000;
     reconnectInterval := 2000; maxReconnectAttempts := 5 |}.

(** ** Object identities

    A WebSocket is identified by its position in the list of sockets
    constructed so far; a timer handle and a promise by a number that
    [setTimeout] and [new Promise] never hand out twice. *)
Definition Socket : Type := nat.
Definition Timer : Type := nat.
Definition Promise : Type := nat.

(** [WebSocket.readyState] *)
Inductive ReadyState : Type :=
| WS_CONNECTING | WS_OPEN | WS_CLOSING | WS_CLOSED.

#[global] Instance ReadyState_eq_dec : EqDecision ReadyState.
Proof. solve_decision. Defined.

(** A constructed socket, with what the callbacks that [connect]
    installs on it close over: the port of the url, the connect
    timeout timer and the promise of that [connect] call.
    [listening] is set once [setupMessageHandling] has installed
    [onmessage]; [closeFired] once the close event was delivered. *)
Record WebSocket : Type := {
  readyState : ReadyState;
  ws_port : Z;
  ws_timer : Timer;
  ws_promise : Promise;
  listening : bool;
  closeFired : bool
}.

(** [`${type}_${Date.now()}_${Math.random()}`]: the three components
    of the key.  The last two are printed numbers, so the printed key
    determines the components. *)
Definition MessageId : Type := string * Z * Z.

(** An entry of [pendingMessages]: [resolve] and [reject] belong to
    one promise. *)
Record Pending : Type := {
  promise : Promise;
  timer : Timer
}.

(** [type MessageHandler].  [OneShot] is the closure that
    [waitForMessage] registers (it closes over [type], [messageId]
    and [resolve]); [External] is a callback of a caller, which the
    model treats as not calling back into the manager. *)
Inductive MessageHandler : Type :=
| OneShot (type : string) (messageId : MessageId) (p : Promise)
| External (callback : nat).

#[global] Instance MessageHandler_eq_dec : EqDecision MessageHandler.
Proof. solve_decision. Defined.

(** The errors the manager creates. *)
Inductive Failure : Type :=
| ConnectionClosed
    (* new Error("连接已断开") *)
| MessageTimeout (type : string) (ms : Z)
    (* new Error(`等待消息超时: ${type} (${actualTimeout}ms)`) *)
| ConnectTimeout (port : Z) (ms : Z)
    (* new Error(`连接超时: ${url} (${connectTimeout}ms)`) *)
| ConnectFailure (port : Z)
    (* new Error(`连接失败: ${url}`) *)
| ConstructFailure (port : Z)
    (* new Error(`创建 WebSocket 连接失败: ${error}`) *)
| Unavailable
    (* new Error("WebSocket 连接不可用") *)
| SendFailure.
    (* new Error(`发送消息失败: ...`) *)

(** A call of a promise's [resolve] or [reject]. *)
Inductive Settlement : Type :=
| ResolvedSocket (s : Socket)
| ResolvedMessage (message : Json)
| Rejected (e : Failure).

(** The callbacks passed to [setTimeout]. *)
Inductive TimerAction : Type :=
| ConnectTimeoutFired (p : Promise) (port : Z)
    (* connect(), lines 113-119 *)
| MessageTimeoutFired (messageId : MessageId) (type : string) (ms : Z)
    (p : Promise)
    (* waitForMessage(), lines 223-226 *)
| ReconnectFired.
    (* handleUnexpectedDisconnect(), lines 341-354 *)

(** [class ConnectionManager], its private fields first; then the
    host objects it has created (sockets, running timers, the
    promises the reconnect callback awaits); then a record of what
    has happened, kept for stating properties: every call of a
    [resolve]/[reject], every [waitForMessage] call, every removal of
    a [pendingMessages] entry and every [new WebSocket(url)] with
    whether the constructor returned. *)
Record t : Type := {
  currentConnection : option Socket;
  connectionState : ConnectionState;
  messageHandlers : list (string * list MessageHandler);
  pendingMessages : list (MessageId * Pending);
  config : ConnectionConfig;
  currentPort : option Z;
  reconnectAttempts : Z;
  reconnectTimer : option Timer;
  sockets : list WebSocket;
  timers : list (Timer * TimerAction);
  nextTimer : Timer;
  nextPromise : Promise;
  awaited : list Promise;
  settled : list (Promise * Settlement);
  waits : list (Promise * MessageId);
  removed : list MessageId;
  constructed : list (Z * bool)
}.

(** Field updates. *)
Definition set_currentConnection (v : option Socket) (w : t) : t :=
  {| currentConnection := v; connectionState := connectionState w;
     messageHandlers := messageHandlers w;
     pendingMessages := pendingMessages w; config := config w;
     currentPort := currentPort w;
     reconnectAttempts := reconnectAttempts w;
     reconnectTimer := reconnectTimer w; sockets := sockets w;
     timers := timers w; nextTimer := nextTimer w;
     nextPromise := nextPromise w; awaited := awaited w;
     settled := settled w; waits := waits w; removed := removed w;
     constructed := constructed w |}.
Definition set_connectionState (v : ConnectionState) (w : t) : t :=
  {| currentConnection := currentConnection w; connectionState := v;
     messageHandlers := messageHandlers w;
     pendingMessages := pendingMessages w; config := config w;
     currentPort := currentPort w;
     reconnectAttempts := reconnectAttempts w;
     reconnectTimer := reconnectTimer w; sockets := sockets w;
     timers := timers w; nextTimer := nextTimer w;
     nextPromise := nextPromise w; awaited := awaited w;
     settled := settled w; waits := waits w; removed := removed w;
     constructed := constructed w |}.
Definition set_messageHandlers (v : list (string * list MessageHandler)) (w : t) : t :=
  {| currentConnection := currentConnection w;
     connectionState := connectionState w; messageHandlers := v;
     pendingMessages := pendingMessages w; config := config w;
     currentPort := currentPort w;
     reconnectAttempts := reconnectAttempts w;
     reconnectTimer := reconnectTimer w; sockets := sockets w;
     timers := timers w; nextTimer := nextTimer w;
     nextPromise := nextPromise w; awaited := awaited w;
     settled := settled w; waits := waits w; removed := removed w;
     constructed := constructed w |}.
Definition set_pendingMessages (v : list (MessageId * Pending)) (w : t) : t :=
  {| currentConnection := currentConnection w;
     connectionState := connectionState w;
     messageHandlers := messageHandlers w; pendingMessages := v;
     config := config w; currentPort := currentPort w;
     reconnectAttempts := reconnectAttempts w;
     reconnectTimer := reconnectTimer w; sockets := sockets w;
     timers := timers w; nextTimer := nextTimer w;
     nextPromise := nextPromise w; awaited := awaited w;
     settled := settled w; waits := waits w; removed := removed w;
     constructed := constructed w |}.
Definition set_currentPort (v : option Z) (w : t) : t :=
  {| currentConnection := currentConnection w;
     connectionState := connectionState w;
     messageHandlers := messageHandlers w;
     pendingMessages := pendingMessages w; config := config w;
     currentPort := v; reconnectAttempts := reconnectAttempts w;
     reconnectTimer := reconnectTimer w; sockets := sockets w;
     timers := timers w; nextTimer := nextTimer w;
     nextPromise := nextPromise w; awaited := awaited w;
     settled := settled w; waits := waits w; removed := removed w;
     constructed := constructed w |}.
Definition set_reconnectAttempts (v : Z) (w : t) : t :=
  {| currentConnection := currentConnection w;
     connectionState := connectionState w;
     messageHandlers := messageHandlers w;
     pendingMessages := pendingMessages w; config := config w;
     currentPort := currentPort w; reconnectAttempts := v;
     reconnectTimer := reconnectTimer w; sockets := sockets w;
     timers := timers w; nextTimer := nextTimer w;
     nextPromise := nextPromise w; awaited := awaited w;
     settled := settled w; waits := waits w; removed := removed w;
     constructed := constructed w |}.
Definition set_reconnectTimer (v : option Timer) (w : t) : t :=
  {| currentConnection := currentConnection w;
     connectionState := connectionState w;
     messageHandlers := messageHandlers w;
     pendingMessages := pendingMessages w; config := config w;
     currentPort := currentPort w;
     reconnectAttempts := reconnectAttempts w; reconnectTimer := v;
     sockets := sockets w; timers := timers w; nextTimer := nextTimer w;
     nextPromise := nextPromise w; awaited := awaited w;
     settled := settled w; waits := waits w; removed := removed w;
     constructed := constructed w |}.
Definition set_sockets (v : list WebSocket) (w : t) : t :=
  {| currentConnection := currentConnection w;
     connectionState := connectionState w;
     messageHandlers := messageHandlers w;
     pendingMessages := pendingMessages w; config := config w;
     currentPort := currentPort w;
     reconnectAttempts := reconnectAttempts w;
     reconnectTimer := reconnectTimer w; sockets := v;
     timers := timers w; nextTimer := nextTimer w;
     nextPromise := nextPromise w; awaited := awaited w;
     settled := settled w; waits := waits w; removed := removed w;
     constructed := constructed w |}.
Definition set_timers (v : list (Timer * TimerAction)) (w : t) : t :=
  {| currentConnection := currentConnection w;
     connectionState := connectionState w;
     messageHandlers := messageHandlers w;
     pendingMessages := pendingMessages w; config := config w;
     currentPort := currentPort w;
     reconnectAttempts := reconnectAttempts w;
     reconnectTimer := reconnectTimer w; sockets := sockets w;
     timers := v; nextTimer := nextTimer w; nextPromise := nextPromise w;
     awaited := awaited w; settled := settled w; waits := waits w;
     removed := removed w; constructed := constructed w |}.
Definition set_nextTimer (v : Timer) (w : t) : t :=
  {| currentConnection := currentConnection w;
     connectionState := connectionState w;
     messageHandlers := messageHandlers w;
     pendingMessages := pendingMessages w; config := config w;
     currentPort := currentPort w;
     reconnectAttempts := reconnectAttempts w;
     reconnectTimer := reconnectTimer w; sockets := sockets w;
     timers := timers w; nextTimer := v; nextPromise := nextPromise w;
     awaited := awaited w; settled := settled w; waits := waits w;
     removed := removed w; constructed := constructed w |}.
Definition set_nextPromise (v : Promise) (w : t) : t :=
  {| currentConnection := currentConnection w;
     connectionState := connectionState w;
     messageHandlers := messageHandlers w;
     pendingMessages := pendingMessages w; config := config w;
     currentPort := currentPort w;
     reconnectAttempts := reconnectAttempts w;
     reconnectTimer := reconnectTimer w; sockets := sockets w;
     timers := timers w; nextTimer := nextTimer w; nextPromise := v;
     awaited := awaited w; settled := settled w; waits := waits w;
     removed := removed w; constructed := constructed w |}.
Definition set_awaited (v : list Promise) (w : t) : t :=
  {| currentConnection := currentConnection w;
     connectionState := connectionState w;
     messageHandlers := messageHandlers w;
     pendingMessages := pendingMessages w; config := config w;
     currentPort := currentPort w;
     reconnectAttempts := reconnectAttempts w;
     reconnectTimer := reconnectTimer w; sockets := sockets w;
     timers := timers w; nextTimer := nextTimer w;
     nextPromise := nextPromise w; awaited := v; settled := settled w;
     waits := waits w; removed := removed w;
     constructed := constructed w |}.
Definition set_settled (v : list (Promise * Settlement)) (w : t) : t :=
  {| currentConnection := currentConnection w;
     connectionState := connectionState w;
     messageHandlers := messageHandlers w;
     pendingMessages := pendingMessages w; config := config w;
     currentPort := currentPort w;
     reconnectAttempts := reconnectAttempts w;
     reconnectTimer := reconnectTimer w; sockets := sockets w;
     timers := timers w; nextTimer := nextTimer w;
     nextPromise := nextPromise w; awaited := awaited w; settled := v;
     waits := waits w; removed := removed w;
     constructed := constructed w |}.
Definition set_waits (v : list (Promise * MessageId)) (w : t) : t :=
  {| currentConnection := currentConnection w;
     connectionState := connectionState w;
     messageHandlers := messageHandlers w;
     pendingMessages := pendingMessages w; config := config w;
     currentPort := currentPort w;
     reconnectAttempts := reconnectAttempts w;
     reconnectTimer := reconnectTimer w; sockets := sockets w;
     timers := timers w; nextTimer := nextTimer w;
     nextPromise := nextPromise w; awaited := awaited w;
     settled := settled w; waits := v; removed := removed w;
     constructed := constructed w |}.
Definition set_removed (v : list MessageId) (w : t) : t :=
  {| currentConnection := currentConnection w;
     connectionState := connectionState w;
     messageHandlers := messageHandlers w;
     pendingMessages := pendingMessages w; config := config w;
     currentPort := currentPort w;
     reconnectAttempts := reconnectAttempts w;
     reconnectTimer := reconnectTimer w; sockets := sockets w;
     timers := timers w; nextTimer := nextTimer w;
     nextPromise := nextPromise w; awaited := awaited w;
     settled := settled w; waits := waits w; removed := v;
     constructed := constructed w |}.
Definition set_constructed (v : list (Z * bool)) (w : t) : t :=
  {| currentConnection := currentConnection w;
     connectionState := connectionState w;
     messageHandlers := messageHandlers w;
     pendingMessages := pendingMessages w; config := config w;
     currentPort := currentPort w;
     reconnectAttempts := reconnectAttempts w;
     reconnectTimer := reconnectTimer w; sockets := sockets w;
     timers := timers w; nextTimer := nextTimer w;
     nextPromise := nextPromise w; awaited := awaited w;
     settled := settled w; waits := waits w; removed := removed w;
     constructed := v |}.

(** [new ConnectionManager(config)] *)
Definition create (c : ConnectionConfig) : t :=
  {| currentConnection := None; connectionState := DISCONNECTED;
     messageHandlers := []; pendingMessages := []; config := c;
     currentPort := None; reconnectAttempts := 0; reconnectTimer := None;
     sockets := []; timers := []; nextTimer := 0%nat; nextPromise := 0%nat;
     awaited := []; settled := []; waits := []; removed := [];
     constructed := [] |}.

(** ** Host operations *)

(** [setTimeout(action, ms)]: a new running timer and its handle. *)
Definition setTimeout (action : TimerAction) (w : t) : Timer * t :=
  (nextTimer w,
   set_nextTimer (S (nextTimer w))
     (set_timers (timers w ++ [(nextTimer w, action)]) w)).

(** [clearTimeout(handle)] *)
Definition clearTimeout (handle : Timer) (w : t) : t :=
  set_timers (assoc_delete handle (timers w)) w.

(** [new Promise(...)]: a promise nobody has settled. *)
Definition newPromise (w : t) : Promise * t :=
  (nextPromise w, set_nextPromise (S (nextPromise w)) w).

Definition isSettled (p : Promise) (w : t) : bool :=
  bool_decide (p ∈ (settled w).*1).

(** [resolve(value)] *)
Definition resolve (p : Promise) (v : Settlement) (w : t) : t :=
  set_settled (settled w ++ [(p, v)]) w.

Definition updateSocket (s : Socket) (f : WebSocket -> WebSocket) (w : t) : t :=
  match sockets w !! s with
  | Some ws => set_sockets (<[s := f ws]> (sockets w)) w
  | None => w
  end.

Definition set_readyState (r : ReadyState) (ws : WebSocket) : WebSocket :=
  {| readyState := r; ws_port := ws_port ws; ws_timer := ws_timer ws;
     ws_promise := ws_promise ws; listening := listening ws;
     closeFired := closeFired ws |}.

Definition set_listening (b : bool) (ws : WebSocket) : WebSocket :=
  {| readyState := readyState ws; ws_port := ws_port ws;
     ws_timer := ws_timer ws; ws_promise := ws_promise ws;
     listening := b; closeFired := closeFired ws |}.

Definition set_closeFired (b : bool) (ws : WebSocket) : WebSocket :=
  {| readyState := readyState ws; ws_port := ws_port ws;
     ws_timer := ws_timer ws; ws_promise := ws_promise ws;
     listening := listening ws; closeFired := b |}.

(** [ws.close()]: an open or connecting socket starts closing; the
    close event is delivered later. *)
Definition close (s : Socket) (w : t) : t :=
  updateSocket s
    (fun ws => match readyState ws with
               | WS_CLOSED => ws
               | _ => set_readyState WS_CLOSING ws
               end) w.

Definition readyStateOf (s : Socket) (w : t) : option ReadyState :=
  readyState <$> sockets w !! s.

(** ** The methods *)

(** [isConnected()], lines 80-85 *)
Definition isConnected (w : t) : bool :=
  bool_decide (connectionState w = CONNECTED)
  && match currentConnection w with
     | Some s => bool_decide (readyStateOf s w = Some WS_OPEN)
     | None => false
     end.

(** [handleUnexpectedDisconnect()], lines 327-355; the timer callback
    is [reconnectCallback] below. *)
Definition handleUnexpectedDisconnect (w : t) : t :=
  if reconnectAttempts w >=? maxReconnectAttempts (config w) then
    set_connectionState FAILED w
  else
    let w := set_connectionState RECONNECTING w in
    let w := set_reconnectAttempts (reconnectAttempts w + 1) w in
    let '(handle, w) := setTimeout ReconnectFired w in
    set_reconnectTimer (Some handle) w.

(** [reject(error)].  Only the first settlement of a promise runs its
    reactions; the one reaction the manager itself attaches is the
    [catch] block of the reconnect callback (line 351), which runs
    as a microtask directly after the rejecting callback, whose last
    statement the [reject] always is. *)
Definition reject (p : Promise) (e : Failure) (w : t) : t :=
  let first := negb (isSettled p w) in
  let w' := set_settled (settled w ++ [(p, Rejected e)]) w in
  if first && bool_decide (p ∈ awaited w)
  then handleUnexpectedDisconnect w'
  else w'.

(** The loop of [disconnect()], lines 174-177. *)
Fixpoint rejectAll (entries : list (MessageId * Pending)) (w : t) : t :=
  match entries with
  | [] => w
  | (_, entry) :: rest =>
      let w := clearTimeout (timer entry) w in
      let w := reject (promise entry) ConnectionClosed w in
      rejectAll rest w
  end.

(** [disconnect()], lines 166-193 *)
Definition disconnect (w : t) : t :=
  let w := match reconnectTimer w with
           | Some handle => set_reconnectTimer None (clearTimeout handle w)
           | None => w
           end in
  let w := rejectAll (pendingMessages w) w in
  let w := set_removed (removed w ++ (pendingMessages w).*1) w in
  let w := set_pendingMessages [] w in
  let w := match currentConnection w with
           | Some s =>
               let w := if bool_decide (readyStateOf s w = Some WS_OPEN)
                        then close s w else w in
               set_currentConnection None w
           | None => w
           end in
  let w := set_connectionState DISCONNECTED w in
  let w := set_currentPort None w in
  set_reconnectAttempts 0 w.

(** What [connect] returns: the live handle (an already resolved
    promise) or the promise of a connection attempt. *)
Inductive Connecting : Type :=
| Live (s : Socket)
| Attempt (p : Promise).

(** [connect(port)], lines 97-161.  [constructs] tells whether
    [new WebSocket(url)] returns ([true]) or throws. *)
Definition connect (port : Z) (constructs : bool) (w : t) : Connecting * t :=
  match (if isConnected w && bool_decide (currentPort w = Some port)
         then currentConnection w else None) with
  | Some s => (Live s, w)
  | None =>
      let w := disconnect w in
      let w := set_currentPort (Some port) w in
      let w := set_connectionState CONNECTING w in
      let '(p, w) := newPromise w in
      let '(connectTimeout, w) := setTimeout (ConnectTimeoutFired p port) w in
      let w := set_constructed (constructed w ++ [(port, constructs)]) w in
      if constructs then
        let s := length (sockets w) in
        let w := set_sockets
                   (sockets w ++ [{| readyState := WS_CONNECTING;
                                     ws_port := port;
                                     ws_timer := connectTimeout;
                                     ws_promise := p;
                                     listening := false;
                                     closeFired := false |}]) w in
        let w := set_currentConnection (Some s) w in
        (Attempt p, w)
      else
        let w := clearTimeout connectTimeout w in
        let w := set_connectionState FAILED w in
        let w := reject p (ConstructFailure port) w in
        (Attempt p, w)
  end.

(** [sendMessage(message)], lines 198-212.  [sends] tells whether
    [JSON.stringify] and [ws.send] return ([true]) or throw. *)
Definition sendMessage (message : Json) (sends : bool) (w : t)
  : option Failure :=
  if negb (isConnected w) then Some Unavailable
  else if sends then None else Some SendFailure.

(** [addMessageHandler(type, handler)], lines 250-255 *)
Definition addMessageHandler (type : string) (handler : MessageHandler)
    (w : t) : t :=
  let handlers := default [] (assoc_get type (messageHandlers w)) in
  set_messageHandlers
    (assoc_set type (set_add handler handlers) (messageHandlers w)) w.

(** [removeMessageHandler(type, handler)], lines 260-268 *)
Definition removeMessageHandler (type : string) (handler : MessageHandler)
    (w : t) : t :=
  match assoc_get type (messageHandlers w) with
  | Some handlers =>
      let handlers := set_delete handler handlers in
      if bool_decide (handlers = [])
      then set_messageHandlers (assoc_delete type (messageHandlers w)) w
      else set_messageHandlers
             (assoc_set type handlers (messageHandlers w)) w
  | None => w
  end.

(** [removeAllMessageHandlers(type?)], lines 273-279; [if (type)] is
    a truthiness test, so the empty string clears everything. *)
Definition removeAllMessageHandlers (type : option string) (w : t) : t :=
  match type with
  | Some ty =>
      if bool_decide (ty = "") then set_messageHandlers [] w
      else set_messageHandlers (assoc_delete ty (messageHandlers w)) w
  | None => set_messageHandlers [] w
  end.

(** [waitForMessage(type, timeout)], lines 217-245.  [now] and
    [random] are the values of [Date.now()] and [Math.random()]. *)
Definition waitForMessage (type : string) (timeout : option Z)
    (now random : Z) (w : t) : Promise * t :=
  let actualTimeout := or_num timeout (messageTimeout (config w)) in
  let '(p, w) := newPromise w in
  let messageId : MessageId := (type, now, random) in
  let '(handle, w) :=
    setTimeout (MessageTimeoutFired messageId type actualTimeout p) w in
  let w := set_pendingMessages
             (assoc_set messageId {| promise := p; timer := handle |}
                (pendingMessages w)) w in
  let w := set_waits (waits w ++ [(p, messageId)]) w in
  let w := addMessageHandler type (OneShot type messageId p) w in
  (p, w).

(** [message.type === type] *)
Definition type_is (message : Json) (type : string) : bool :=
  match prop "type" message with
  | Normal v => is_string v type
  | Throw _ => false
  end.

(** One call [handler(message)] from the loop of [handleMessage];
    for a [OneShot] handler this is the closure of lines 231-241. *)
Definition invoke (message : Json) (handler : MessageHandler) (w : t) : t :=
  match handler with
  | External _ => w
  | OneShot type messageId p =>
      if type_is message type then
        match assoc_get messageId (pendingMessages w) with
        | Some pending =>
            let w := clearTimeout (timer pending) w in
            let w := set_pendingMessages
                       (assoc_delete messageId (pendingMessages w)) w in
            let w := set_removed (removed w ++ [messageId]) w in
            let w := removeMessageHandler type handler w in
            resolve p (ResolvedMessage message) w
        | None => w
        end
      else w
  end.

(** [handleMessage(message)], lines 298-322.  The loop visits the
    handlers registered when it starts; a handler only ever deletes
    itself from the set, so this is the order of the live iteration. *)
Definition handleMessage (message : Json) (w : t) : t :=
  match prop "type" message with
  | Normal messageType =>
      if truthy messageType then
        match messageType with
        | Some (JStr ty) =>
            match assoc_get ty (messageHandlers w) with
            | Some handlers => foldl (fun w h => invoke message h w) w handlers
            | None => w
            end
        | _ => w
        end
      else w
  | Throw _ => w
  end.

(** The timer callback of [handleUnexpectedDisconnect], lines
    341-354: [await this.connect(this.currentPort)] with its [catch]. *)
Definition reconnectCallback (constructs : bool) (w : t) : t :=
  if truthy_num (currentPort w)
     && bool_decide (connectionState w = RECONNECTING)
  then
    match currentPort w with
    | Some port =>
        let '(r, w) := connect port constructs w in
        match r with
        | Live _ => w
        | Attempt p =>
            if isSettled p w then handleUnexpectedDisconnect w
            else set_awaited (p :: awaited w) w
        end
    | None => w
    end
  else w.

(** [destroy()], lines 399-403 *)
Definition destroy (w : t) : t :=
  removeAllMessageHandlers None (disconnect w).

(** [getConnectionStats()], lines 377-394 *)
Record ConnectionStats : Type := {
  stats_state : ConnectionState;
  stats_port : option Z;
  stats_reconnectAttempts : Z;
  messageHandlerCount : nat;
  pendingMessageCount : nat
}.

Definition getConnectionStats (w : t) : ConnectionStats :=
  {| stats_state := connectionState w;
     stats_port := currentPort w;
     stats_reconnectAttempts := reconnectAttempts w;
     messageHandlerCount :=
       foldl (fun sum handlers => (sum + length handlers.2)%nat) 0%nat
         (messageHandlers w);
     pendingMessageCount := length (pendingMessages w) |}.

(** ** Callbacks run by the host *)

(** [ws.onopen], lines 125-133 *)
Definition onopen (s : Socket) (ws : WebSocket) (w : t) : t :=
  let w := clearTimeout (ws_timer ws) w in
  let w := set_connectionState CONNECTED w in
  let w := set_reconnectAttempts 0 w in
  let w := updateSocket s (set_listening true) w in
  resolve (ws_promise ws) (ResolvedSocket s) w.

(** [ws.onerror], lines 135-140 *)
Definition onerror (ws : WebSocket) (w : t) : t :=
  let w := clearTimeout (ws_timer ws) w in
  let w := set_connectionState FAILED w in
  reject (ws_promise ws) (ConnectFailure (ws_port ws)) w.

(** [ws.onclose], lines 142-154 *)
Definition onclose (ws : WebSocket) (w : t) : t :=
  let w := clearTimeout (ws_timer ws) w in
  if bool_decide (connectionState w = CONNECTED)
  then handleUnexpectedDisconnect w
  else set_connectionState DISCONNECTED w.

(** [ws.onmessage], lines 285-292: [data] is [None] when
    [JSON.parse(event.data)] throws. *)
Definition onmessage (data : option Json) (w : t) : t :=
  match data with
  | Some message => handleMessage message w
  | None => w
  end.

(** A timer callback. *)
Definition fire (action : TimerAction) (constructs : bool) (w : t) : t :=
  match action with
  | ConnectTimeoutFired p port =>
      let w := match currentConnection w with
               | Some s => close s w
               | None => w
               end in
      let w := set_connectionState FAILED w in
      reject p (ConnectTimeout port (connectTimeout (config w))) w
  | MessageTimeoutFired messageId type ms p =>
      let w := match assoc_get messageId (pendingMessages w) with
               | Some _ =>
                   set_removed (removed w ++ [messageId])
                     (set_pendingMessages
                        (assoc_delete messageId (pendingMessages w)) w)
               | None => w
               end in
      reject p (MessageTimeout type ms) w
  | ReconnectFired => reconnectCallback constructs w
  end.

(** ** Everything that can happen to one manager

    Calls of the public methods by the owner, and callbacks run by
    the host: a running timer fires, a socket delivers an event.  The
    host delivers [open] only to a connecting socket, [message] only
    to an open one, and no event after [close]; an event that the
    host cannot deliver leaves the manager as it is. *)
Inductive Event : Type :=
| Connect (port : Z) (constructs : bool)
| Disconnect
| WaitForMessage (type : string) (timeout : option Z) (now random : Z)
| AddMessageHandler (type : string) (callback : nat)
| RemoveMessageHandler (type : string) (callback : nat)
| RemoveAllMessageHandlers (type : option string)
| Destroy
| TimerFires (handle : Timer) (constructs : bool)
| SocketOpens (s : Socket)
| SocketErrors (s : Socket)
| SocketCloses (s : Socket)
| SocketMessage (s : Socket) (data : option Json).

Definition step (w : t) (ev : Event) : t :=
  match ev with
  | Connect port constructs => (connect port constructs w).2
  | Disconnect => disconnect w
  | WaitForMessage type timeout now random =>
      (waitForMessage type timeout now random w).2
  | AddMessageHandler type callback =>
      addMessageHandler type (External callback) w
  | RemoveMessageHandler type callback =>
      removeMessageHandler type (External callback) w
  | RemoveAllMessageHandlers type => removeAllMessageHandlers type w
  | Destroy => destroy w
  | TimerFires handle constructs =>
      match assoc_get handle (timers w) with
      | Some action => fire action constructs (clearTimeout handle w)
      | None => w
      end
  | SocketOpens s =>
      match sockets w !! s with
      | Some ws =>
          if bool_decide (readyState ws = WS_CONNECTING) then
            let w := updateSocket s (set_readyState WS_OPEN) w in
            onopen s ws w
          else w
      | None => w
      end
  | SocketErrors s =>
      match sockets w !! s with
      | Some ws =>
          if closeFired ws then w
          else
            let w := updateSocket s (set_readyState WS_CLOSED) w in
            onerror ws w
      | None => w
      end
  | SocketCloses s =>
      match sockets w !! s with
      | Some ws =>
          if closeFired ws then w
          else
            let w := updateSocket s
                       (fun ws => set_closeFired true
                                    (set_readyState WS_CLOSED ws)) w in
            onclose ws w
      | None => w
      end
  | SocketMessage s data =>
      match sockets w !! s with
      | Some ws =>
          if bool_decide (readyState ws = WS_OPEN) && listening ws
          then onmessage data w
          else w
      | None => w
      end
  end.

Definition run (w : t) (evs : list Event) : t := foldl step w evs.

(** The worlds a manager can be in. *)
Definition reachable (w : t) : Prop :=
  exists c evs, w = run (create c) evs.

(** The keys that the [waitForMessage] calls of a history generate. *)
Definition messageIds (evs : list Event) : list MessageId :=
  omap (fun ev => match ev with
                  | WaitForMessage type _ now random => Some (type, now, random)
                  | _ => None
                  end) evs.

(** ** Vocabulary for the properties *)

(** A manager with the reconnect ceiling of the unit test
    "应该在达到最大重连次数后停止重连". *)
Definition ceilingTwo : ConnectionConfig :=
  {| connectTimeout := 5000; messageTimeout := 10000;
     reconnectInterval := 100; maxReconnectAttempts := 2 |}.

(** It connects to port 9999, the socket opens, and the socket then
    closes unexpectedly. *)
Definition afterUnexpectedClose : t :=
  run (create ceilingTwo)
    [Connect 9999 true; SocketOpens 0%nat; SocketCloses 0%nat].

(** The scheduled reconnect timer fires and [new WebSocket(url)]
    throws. *)
Definition retryFails (w : t) : t :=
  match reconnectTimer w with
  | Some handle => step w (TimerFires handle false)
  | None => w
  end.

(** The manager between two failed reconnects of that episode. *)
Definition retrying (w : t) : Prop :=
  connectionState w = RECONNECTING
  /\ currentPort w = Some 9999
  /\ reconnectAttempts w = 1
  /\ maxReconnectAttempts (config w) = 2
  /\ pendingMessages w = []
  /\ awaited w = []
  /\ (exists h, reconnectTimer w = Some h /\ timers w = [(h, ReconnectFired)])
  /\ (forall p, p ∈ (settled w).*1 -> (p < nextPromise w)%nat)
  /\ match currentConnection w with
     | Some s => readyStateOf s w <> Some WS_OPEN
     | None => True
     end.

(** ** The bookkeeping of [waitForMessage] *)

(** The promises of the constructed sockets. *)
Definition socketPromises (w : t) : list Promise := ws_promise <$> sockets w.

(** The number of calls of the [resolve] and [reject] of promise [p]. *)
Definition calls (p : Promise) (w : t) : nat :=
  length (filter (fun x => x.1 = p) (settled w)).

(** The number of removals of an entry with key [id] from
    [pendingMessages]. *)
Definition removals (id : MessageId) (w : t) : nat :=
  length (filter (fun x => x = id) (removed w)).

(** A [waitForMessage] call with promise [p] and key [id] is either
    still pending, its entry never removed and its promise never
    settled, or over, its entry removed once and its promise settled
    by one call. *)
Definition once (p : Promise) (id : MessageId) (w : t) : Prop :=
  (id ∈ (pendingMessages w).*1 /\ removals id w = 0%nat /\ calls p w = 0%nat)
  \/ ((id ∉ (pendingMessages w).*1)
      /\ removals id w = 1%nat /\ calls p w = 1%nat).

(** What holds of every manager as long as [Math.random()] never
    repeats a key: the bookkeeping of [waitForMessage]. *)
Record consistent (w : t) : Prop := {
  pending_nodup : NoDup (pendingMessages w).*1;
  pending_waits :
    forall id e, (id, e) ∈ pendingMessages w -> (promise e, id) ∈ waits w;
  timer_pending :
    forall h id ty ms p,
      (h, MessageTimeoutFired id ty ms p) ∈ timers w ->
      (id, {| promise := p; timer := h |}) ∈ pendingMessages w;
  waits_allocated :
    forall p id, (p, id) ∈ waits w -> (p < nextPromise w)%nat;
  settled_allocated :
    forall p x, (p, x) ∈ settled w -> (p < nextPromise w)%nat;
  waits_promises_nodup : NoDup (waits w).*1;
  waits_ids_nodup : NoDup (waits w).*2;
  handlers_waits :
    forall ty hs ty' id p,
      (ty, hs) ∈ messageHandlers w -> OneShot ty' id p ∈ hs ->
      (p, id) ∈ waits w;
  sockets_promises :
    forall p, p ∈ socketPromises w ->
      (p < nextPromise w)%nat /\ p ∉ (waits w).*1;
  connect_timers :
    forall h p port, (h, ConnectTimeoutFired p port) ∈ timers w ->
      (p < nextPromise w)%nat /\ p ∉ (waits w).*1;
  removed_waits : forall id, id ∈ removed w -> id ∈ (waits w).*2;
  waits_once : forall p id, (p, id) ∈ waits w -> once p id w
}.

(** A step that leaves the bookkeeping of [waitForMessage] alone. *)
Record quiet (w w' : t) : Prop := {
  q_pending : pendingMessages w' = pendingMessages w;
  q_waits : waits w' = waits w;
  q_removed : removed w' = removed w;
  q_next : (nextPromise w <= nextPromise w')%nat;
  q_settled :
    exists extra,
      settled w' = settled w ++ extra
      /\ forall p x, (p, x) ∈ extra ->
           (p < nextPromise w')%nat /\ p ∉ (waits w).*1;
  q_timers :
    forall h a, (h, a) ∈ timers w' ->
      (h, a) ∈ timers w
      \/ a = ReconnectFired
      \/ exists p port,
           a = ConnectTimeoutFired p port
           /\ (p < nextPromise w')%nat /\ p ∉ (waits w).*1;
  q_sockets :
    forall p, p ∈ socketPromises w' ->
      p ∈ socketPromises w
      \/ ((p < nextPromise w')%nat /\ p ∉ (waits w).*1);
  q_handlers :
    forall ty hs ty' id p,
      (ty, hs) ∈ messageHandlers w' -> OneShot ty' id p ∈ hs ->
      exists ty0 hs0,
        (ty0, hs0) ∈ messageHandlers w /\ OneShot ty' id p ∈ hs0
}.

(** The fields of the bookkeeping that [w'] shares with [w]; timers
    may have been cleared, and reconnect timers started. *)
Record unchanged (w w' : t) : Prop := {
  u_pending : pendingMessages w' = pendingMessages w;
  u_waits : waits w' = waits w;
  u_removed : removed w' = removed w;
  u_handlers : messageHandlers w' = messageHandlers w;
  u_next : nextPromise w' = nextPromise w;
  u_sockets : socketPromises w' = socketPromises w;
  u_timers :
    forall h a, (h, a) ∈ timers w' -> a = ReconnectFired \/ (h, a) ∈ timers w
}.

(** The bookkeeping of [w'] is that of [w], timers included. *)
Record same (w w' : t) : Prop := {
  s_pending : pendingMessages w' = pendingMessages w;
  s_waits : waits w' = waits w;
  s_removed : removed w' = removed w;
  s_handlers : messageHandlers w' = messageHandlers w;
  s_next : nextPromise w' = nextPromise w;
  s_sockets : socketPromises w' = socketPromises w;
  s_settled : settled w' = settled w;
  s_timers : timers w' = timers w
}.

(** The settlements that the loop of [disconnect()] adds. *)
Definition rejections (entries : list (MessageId * Pending))
  : list (Promise * Settlement) :=
  (fun x => (promise x.2, Rejected ConnectionClosed)) <$> entries.

(** A session with three [waitForMessage] calls: the second times
    out, the first gets its message, the third is still pending. *)
Definition threeWaits : list Event :=
  [Connect 9999 true; SocketOpens 0%nat;
   WaitForMessage "pong" None 1000 1;
   WaitForMessage "ack" (Some 50) 1000 2;
   WaitForMessage "status" None 1001 3;
   TimerFires 2%nat true;
   SocketMessage 0%nat (Some (JObj [("type", JStr "pong")]))].

(** ** Vocabulary for the invariants of the control fields *)

(** The reconnect counter is within its ceiling. *)
Definition bounded (w : t) : Prop :=
  0 <= reconnectAttempts w <= Z.max 0 (maxReconnectAttempts (config w)).

(** A handler registry as [Map<string, Set<MessageHandler>>] keeps
    it: one entry per type, and no type with an empty set. *)
Definition tidy (handlers : list (string * list MessageHandler)) : Prop :=
  NoDup handlers.*1
  /\ forall ty hs, (ty, hs) ∈ handlers -> hs <> [] /\ NoDup hs.

(** A connected manager has its reconnect counter at 0. *)
Definition fresh (w : t) : Prop :=
  connectionState w = CONNECTED -> reconnectAttempts w = 0.

(** A step that keeps the configuration, the bound of the reconnect
    counter, the shape of the handler registry and the counter of a
    connected manager. *)
Record gentle (w w' : t) : Prop := {
  g_config : config w' = config w;
  g_bounded : bounded w -> bounded w';
  g_tidy : tidy (messageHandlers w) -> tidy (messageHandlers w');
  g_fresh : fresh w -> fresh w'
}.

(** A port switch: connected on 9999, then [connect(8888)], whose
    socket opens while socket 0 is still closing. *)
Definition portSwitch : list Event :=
  [Connect 9999 true; SocketOpens 0%nat; Connect 8888 true; SocketOpens 1%nat].

(** A second [connect] while the first attempt is still connecting;
    the second socket opens. *)
Definition overlappingConnects : list Event :=
  [Connect 9999 true; Connect 8888 true; SocketOpens 1%nat].

(** ** [buildWebSocketUrl(port)], lines 360-372 *)

(** [s.includes(sub)] *)
Definition includes (sub s : string) : bool :=
  match String.index 0 sub s with
  | Some _ => true
  | None => false
  end.

(** [savedUrl] is the item ["xiaozhi-ws-url"] of [localStorage];
    [pageProtocol] and [hostname] are those of [window.location]. *)
Definition buildWebSocketUrl (savedUrl : option string)
    (pageProtocol hostname : string) (port : Z) : string :=
  let built :=
    (if bool_decide (pageProtocol = "https:") then "wss:" else "ws:")
    +:+ "//"
    +:+ (if bool_decide (hostname = "") then "localhost" else hostname)
    +:+ ":" +:+ pretty port in
  match savedUrl with
  | Some url => if includes (":" +:+ pretty port) url then url else built
  | None => built
  end.

End ConnectionManager.

(** * RestartStateMachine.ts *)
Module RestartStateMachine.
Import JS.

(** [enum RestartState] *)
Inductive RestartState : Type :=
| IDLE | INITIATING | RESTARTING | RECONNECTING | VERIFYING
| COMPLETED | FAILED.

#[global] Instance RestartState_eq_dec : EqDecision RestartState.
Proof. solve_decision. Defined.

(** The string value of an enum member, as [`${this.state}`] prints it. *)
Definition stateName (s : RestartState) : string :=
  match s with
  | IDLE => "idle"
  | INITIATING => "initiating"
  | RESTARTING => "restarting"
  | RECONNECTING => "reconnecting"
  | VERIFYING => "verifying"
  | COMPLETED => "completed"
  | FAILED => "failed"
  end.

(** [interface RestartContext] *)
Record RestartContext : Type := {
  currentPort : Z;
  targetPort : option Z;
  startTime : Z;
  attempts : Z;
  maxAttempts : Z;
  timeout : Z;
  error : option Error;
  restartId : option string
}.

Definition ctx_set_attempts (v : Z) (ctx : RestartContext) : RestartContext :=
  {| currentPort := currentPort ctx; targetPort := targetPort ctx;
     startTime := startTime ctx; attempts := v;
     maxAttempts := maxAttempts ctx; timeout := timeout ctx;
     error := error ctx; restartId := restartId ctx |}.

Definition ctx_set_error (v : option Error) (ctx : RestartContext)
  : RestartContext :=
  {| currentPort := currentPort ctx; targetPort := targetPort ctx;
     startTime := startTime ctx; attempts := attempts ctx;
     maxAttempts := maxAttempts ctx; timeout := timeout ctx; error := v;
     restartId := restartId ctx |}.

Definition Promise : Type := nat.

(** The item ["restart-state-machine"] of [localStorage]: a blob
    written by [persistState], or text that [restoreState] cannot
    read ([JSON.parse] throws, or the value has no [context]). *)
Inductive Stored : Type :=
| Unreadable
| Blob (state : RestartState) (context : RestartContext).

(** [JSON.stringify] writes an [Error] as [{}]: the context comes
    back with an error that has lost its text. *)
Definition serialized (ctx : RestartContext) : RestartContext :=
  ctx_set_error (match error ctx with
                 | Some _ => Some (Err "")
                 | None => None
                 end) ctx.

(** The callbacks passed to [setTimeout]. *)
Inductive TimerAction : Type :=
| ResetTimer
    (* () => this.reset() *)
| TransitionTimer (s : RestartState).
    (* async () => await this.transition(s) *)

(** The messages the machine sends. *)
Inductive Outbound : Type :=
| RestartService (targetPort : option Z) (timestamp : Z)
    (restartId : option string)
| RestartVerification (timestamp : Z) (restartId : option string).

(** [class RestartStateMachine]: its fields; the two [localStorage]
    items it uses; the timers it has started, with their delay; and,
    for stating properties, every [(state, context)] pair that
    [notifyListeners] has passed to the registered listeners. *)
Record t : Type := {
  state : RestartState;
  context : option RestartContext;
  transitionPromise : option Promise;
  storedMachine : option Stored;
  storedUrl : option string;
  timers : list (Z * TimerAction);
  nextPromise : Promise;
  notified : list (RestartState * RestartContext)
}.

(** Field updates. *)
Definition set_state (v : RestartState) (m : t) : t :=
  {| state := v; context := context m;
     transitionPromise := transitionPromise m;
     storedMachine := storedMachine m; storedUrl := storedUrl m;
     timers := timers m; nextPromise := nextPromise m;
     notified := notified m |}.
Definition set_context (v : option RestartContext) (m : t) : t :=
  {| state := state m; context := v;
     transitionPromise := transitionPromise m;
     storedMachine := storedMachine m; storedUrl := storedUrl m;
     timers := timers m; nextPromise := nextPromise m;
     notified := notified m |}.
Definition set_transitionPromise (v : option Promise) (m : t) : t :=
  {| state := state m; context := context m; transitionPromise := v;
     storedMachine := storedMachine m; storedUrl := storedUrl m;
     timers := timers m; nextPromise := nextPromise m;
     notified := notified m |}.
Definition set_storedMachine (v : option Stored) (m : t) : t :=
  {| state := state m; context := context m;
     transitionPromise := transitionPromise m; storedMachine := v;
     storedUrl := storedUrl m; timers := timers m;
     nextPromise := nextPromise m; notified := notified m |}.
Definition set_storedUrl (v : option string) (m : t) : t :=
  {| state := state m; context := context m;
     transitionPromise := transitionPromise m;
     storedMachine := storedMachine m; storedUrl := v;
     timers := timers m; nextPromise := nextPromise m;
     notified := notified m |}.
Definition set_timers (v : list (Z * TimerAction)) (m : t) : t :=
  {| state := state m; context := context m;
     transitionPromise := transitionPromise m;
     storedMachine := storedMachine m; storedUrl := storedUrl m;
     timers := v; nextPromise := nextPromise m; notified := notified m |}.
Definition set_nextPromise (v : Promise) (m : t) : t :=
  {| state := state m; context := context m;
     transitionPromise := transitionPromise m;
     storedMachine := storedMachine m; storedUrl := storedUrl m;
     timers := timers m; nextPromise := v; notified := notified m |}.
Definition set_notified (v : list (RestartState * RestartContext)) (m : t) : t :=
  {| state := state m; context := context m;
     transitionPromise := transitionPromise m;
     storedMachine := storedMachine m; storedUrl := storedUrl m;
     timers := timers m; nextPromise := nextPromise m; notified := v |}.

(** [new RestartStateMachine(connectionManager, healthChecker)] on
    a given [localStorage]. *)
Definition create (item : option Stored) (url : option string) : t :=
  {| state := IDLE; context := None; transitionPromise := None;
     storedMachine := item; storedUrl := url; timers := [];
     nextPromise := 0%nat; notified := [] |}.

(** ** Asynchronous code

    The two collaborators are constructor arguments (an interface,
    mocked in the unit tests), so a call to them is a request to the
    environment.  [Call] are the requests answered at once, [Wait]
    the operands of [await]. *)
Inductive Call : Type -> Type :=
| IsConnected : Call bool
    (* this.connectionManager.isConnected() *)
| DisconnectNow : Call (Completion unit)
    (* this.connectionManager.disconnect() *)
| DateNow : Call Z
    (* Date.now() *)
| RandomSuffix : Call string.
    (* Math.random().toString(36).substr(2, 9) *)

Inductive Wait : Type -> Type :=
| WSendMessage (message : Outbound) : Wait (Completion unit)
    (* this.connectionManager.sendMessage(message) *)
| WConnect (port : Z) : Wait (Completion unit)
    (* this.connectionManager.connect(port) *)
| WWaitForMessage (type : string) (ms : Z) : Wait (Completion (option Json))
    (* this.connectionManager.waitForMessage(type, ms) *)
| WCheckServiceHealth (port : Z) : Wait (Completion bool)
    (* this.healthChecker.checkServiceHealth(port) *)
| WDelay (ms : Z) : Wait unit
    (* this.delay(ms) *)
| WPromise (p : Promise) : Wait unit
    (* this.transitionPromise, the promise of a running doTransition *)
| WTransition (s : RestartState) : Wait (Completion unit)
    (* this.transition(s), called from inside a phase handler *)
| Tick : Wait unit.
    (* a promise that is already settled: the code after the await
       runs as a microtask, after the current caller has returned *)

(** A running asynchronous function: finished, asking the
    environment, or suspended at an [await] with the fields as they
    are at that moment; the continuation takes the fields as they
    are when it is resumed. *)
Inductive Res (A : Type) : Type :=
| Done (c : Completion A) (m : t)
| Ask {X : Type} (c : Call X) (k : X -> Res A)
| Await {X : Type} (w : Wait X) (k : X -> t -> Res A) (m : t).
Arguments Done {A} c m.
Arguments Ask {A X} c k.
Arguments Await {A X} w k m.

Definition Prog (A : Type) : Type := t -> Res A.

Fixpoint bindRes {A B} (r : Res A) (f : A -> Prog B) : Res B :=
  match r with
  | Done (Normal a) m => f a m
  | Done (Throw e) m => Done (Throw e) m
  | Ask c k => Ask c (fun x => bindRes (k x) f)
  | Await w k m => Await w (fun x m' => bindRes (k x m') f) m
  end.

(** [try { r } catch (e) { handler e }] *)
Fixpoint catchRes {A} (r : Res A) (handler : Error -> Prog A) : Res A :=
  match r with
  | Done (Normal a) m => Done (Normal a) m
  | Done (Throw e) m => handler e m
  | Ask c k => Ask c (fun x => catchRes (k x) handler)
  | Await w k m => Await w (fun x m' => catchRes (k x m') handler) m
  end.

(** [try { r } finally { f }], for an [f] that only writes fields. *)
Fixpoint finallyRes {A} (r : Res A) (f : t -> t) : Res A :=
  match r with
  | Done c m => Done c (f m)
  | Ask c k => Ask c (fun x => finallyRes (k x) f)
  | Await w k m => Await w (fun x m' => finallyRes (k x m') f) m
  end.

(** A write that the caller of an asynchronous function makes when
    the call returns, that is when the callee first suspends or, if
    it never does, when it finishes. *)
Fixpoint atReturn {A} (r : Res A) (f : t -> t) : Res A :=
  match r with
  | Done c m => Done c (f m)
  | Ask c k => Ask c (fun x => atReturn (k x) f)
  | Await w k m => Await w k (f m)
  end.

(** [await] of the promise of an own asynchronous method: when the
    callee finished without suspending, the caller still suspends
    until the next microtask. *)
Fixpoint tick {A} (r : Res A) : Res A :=
  match r with
  | Done c m => Await Tick (fun _ m' => Done c m') m
  | Ask c k => Ask c (fun x => tick (k x))
  | Await w k m => Await w k m
  end.

Definition retP {A} (a : A) : Prog A := fun m => Done (Normal a) m.
Definition throwP {A} (e : Error) : Prog A := fun m => Done (Throw e) m.
Definition bindP {A B} (c : Prog A) (f : A -> Prog B) : Prog B :=
  fun m => bindRes (c m) f.
Definition tryP {A} (body : Prog A) (handler : Error -> Prog A) : Prog A :=
  fun m => catchRes (body m) handler.
Definition this : Prog t := fun m => Done (Normal m) m.
Definition update (f : t -> t) : Prog unit := fun m => Done (Normal tt) (f m).
Definition ask {X} (c : Call X) : Prog X :=
  fun m => Ask c (fun x => Done (Normal x) m).
Definition await {X} (w : Wait X) : Prog X :=
  fun m => Await w (fun x m' => Done (Normal x) m') m.
Definition settle {A} (c : Completion A) : Prog A :=
  match c with
  | Normal a => retP a
  | Throw e => throwP e
  end.
Definition awaitCall {A} (w : Wait (Completion A)) : Prog A :=
  bindP (await w) settle.
Definition awaitOwn {A} (callee : Prog A) : Prog A :=
  fun m => tick (callee m).

#[global] Instance prog_ret : MRet Prog := fun A => @retP A.
#[global] Instance prog_bind : MBind Prog := fun A B f c => bindP c f.

(** ** The methods *)

Definition setTimeout (action : TimerAction) (ms : Z) : Prog unit :=
  update (fun m => set_timers (timers m ++ [(ms, action)]) m).

(** [if (!this.context) throw new Error("上下文未初始化")] *)
Definition requireContext : Prog RestartContext :=
  m ← this;
  match context m with
  | Some ctx => retP ctx
  | None => throwP (Err "上下文未初始化")
  end.

(** A read of a property of [this.context]. *)
Definition readContext : Prog RestartContext :=
  m ← this;
  match context m with
  | Some ctx => retP ctx
  | None => throwP (TypeError "Cannot read properties of null")
  end.

(** [notifyListeners()], lines 968-978; a listener that throws is
    caught. *)
Definition notifyListeners : Prog unit :=
  update (fun m =>
    match context m with
    | Some ctx => set_notified (notified m ++ [(state m, ctx)]) m
    | None => m
    end).

(** [persistState()], lines 983-995 *)
Definition persistState : Prog unit :=
  update (fun m =>
    match context m with
    | Some ctx => set_storedMachine (Some (Blob (state m) (serialized ctx))) m
    | None => m
    end).

(** [clearPersistedState()], lines 1000-1006 *)
Definition clearPersistedState : Prog unit :=
  update (set_storedMachine None).

(** [generateRestartId()], lines 1011-1013 *)
Definition generateRestartId : Prog string :=
  now ← ask DateNow;
  suffix ← ask RandomSuffix;
  retP ("restart_" +:+ pretty now +:+ "_" +:+ suffix).

(** [reset()], lines 651-656 *)
Definition reset : Prog unit :=
  _ ← update (set_state IDLE);
  _ ← update (set_context None);
  _ ← update (set_transitionPromise None);
  clearPersistedState.

(** [handleInitiating()], lines 773-804 *)
Definition handleInitiating : Prog unit :=
  _ ← requireContext;
  tryP
    (isConnected ← ask IsConnected;
     if negb isConnected then throwP (Err "WebSocket 连接不可用")
     else
       ctx ← readContext;
       now ← ask DateNow;
       _ ← awaitCall
             (WSendMessage
                (RestartService (targetPort ctx) now (restartId ctx)));
       _ ← readContext;
       setTimeout (TransitionTimer RESTARTING) 10)
    (fun e => throwP (Err ("发送重启请求失败: " +:+ message e))).

(** [handleRestarting()], lines 809-822 *)
Definition handleRestarting : Prog unit :=
  _ ← requireContext;
  disconnected ← ask DisconnectNow;
  _ ← settle disconnected;
  _ ← await (WDelay 2000);
  awaitCall (WTransition RECONNECTING).

(** The [for] loop of [handleReconnecting()], lines 837-872, with
    [remaining] iterations to go; the body yields [true] when it
    executes [return]. *)
Fixpoint reconnectLoop (remaining : nat) (attempt targetPort0 maxAttempts0 : Z)
  : Prog unit :=
  match remaining with
  | O => throwP (Err ("重连失败，已尝试 " +:+ pretty maxAttempts0 +:+ " 次"))
  | S remaining' =>
      ctx ← readContext;
      _ ← update (set_context (Some (ctx_set_attempts attempt ctx)));
      _ ← notifyListeners;
      returned ←
        @tryP bool
          (_ ← awaitCall (WConnect targetPort0);
           isConnected ← ask IsConnected;
           if (isConnected : bool) then
             ctx ← readContext;
             _ ← awaitCall
                   (WSendMessage
                      (RestartVerification (startTime ctx) (restartId ctx)));
             _ ← awaitCall (WTransition VERIFYING);
             retP true
           else retP false)
          (fun _ =>
             _ ← (if attempt <? maxAttempts0 then await (WDelay 2000)
                  else retP tt);
             retP false : Prog bool);
      if (returned : bool) then retP tt
      else reconnectLoop remaining' (attempt + 1) targetPort0 maxAttempts0
  end.

(** [handleReconnecting()], lines 827-876 *)
Definition handleReconnecting : Prog unit :=
  ctx ← requireContext;
  let targetPort0 := or_num (targetPort ctx) (currentPort ctx) in
  let maxAttempts0 := maxAttempts ctx in
  reconnectLoop (Z.to_nat maxAttempts0) 1 targetPort0 maxAttempts0.

(** [handleVerifying()], lines 881-930 *)
Definition handleVerifying : Prog unit :=
  ctx ← requireContext;
  let targetPort0 := or_num (targetPort ctx) (currentPort ctx) in
  tryP
    (response ← awaitCall (WWaitForMessage "restartVerificationResponse" 10000);
     if negb (truthy response) then throwP (Err "未收到服务端验证响应")
     else
       isHealthy ← awaitCall (WCheckServiceHealth targetPort0);
       if isHealthy
          && truthy (prop_opt "restarted" (prop_opt "data" response))
       then
         ctx ← readContext;
         _ ← match targetPort ctx with
             | Some port =>
                 if negb (port =? 0) && negb (port =? currentPort ctx)
                 then update (set_storedUrl
                                (Some ("ws://localhost:" +:+ pretty port)))
                 else retP tt
             | None => retP tt
             end;
         awaitCall (WTransition COMPLETED)
       else throwP (Err "服务健康检查失败或服务未重启"))
    (fun e => throwP (Err ("服务验证失败: " +:+ message e))).

(** [handleCompleted()], lines 935-945 *)
Definition handleCompleted : Prog unit :=
  _ ← notifyListeners;
  setTimeout ResetTimer 1000.

(** [handleFailed()], lines 950-963 *)
Definition handleFailed : Prog unit :=
  _ ← notifyListeners;
  setTimeout ResetTimer 3000.

(** [doTransition(newState)], lines 714-768 *)
Definition doTransition (newState : RestartState) : Prog unit :=
  _ ← update (set_state newState);
  _ ← notifyListeners;
  _ ← persistState;
  tryP
    (match newState with
     | IDLE => retP tt
     | INITIATING => awaitOwn handleInitiating
     | RESTARTING => awaitOwn handleRestarting
     | RECONNECTING => awaitOwn handleReconnecting
     | VERIFYING => awaitOwn handleVerifying
     | COMPLETED => awaitOwn handleCompleted
     | FAILED => awaitOwn handleFailed
     end)
    (fun e =>
       _ ← update (fun m =>
             match context m with
             | Some ctx => set_context (Some (ctx_set_error (Some e) ctx)) m
             | None => m
             end);
       if bool_decide (newState ≠ FAILED) then
         _ ← update (set_state FAILED);
         _ ← notifyListeners;
         _ ← persistState;
         setTimeout ResetTimer 3000
       else retP tt).

(** Lines 703-708 of [transition]: the promise of the [doTransition]
    call is stored when that call returns, and cleared when the
    awaited promise has settled. *)
Definition startTransition (newState : RestartState) : Prog unit :=
  fun m =>
    let p := nextPromise m in
    finallyRes
      (tick (atReturn (doTransition newState (set_nextPromise (S p) m))
               (set_transitionPromise (Some p))))
      (set_transitionPromise None).

(** [transition(newState)], lines 697-709 *)
Definition transition (newState : RestartState) : Prog unit :=
  m ← this;
  _ ← match transitionPromise m with
      | Some running => await (WPromise running)
      | None => retP tt
      end;
  startTransition newState.

(** [restart(currentPort, targetPort?)], lines 625-646 *)
Definition restart (currentPort0 : Z) (targetPort0 : option Z) : Prog unit :=
  m ← this;
  if bool_decide (state m ≠ IDLE) then
    throwP (Err ("重启已在进行中，当前状态: " +:+ stateName (state m)))
  else
    now ← ask DateNow;
    id ← generateRestartId;
    _ ← update (set_context
                  (Some {| currentPort := currentPort0;
                           targetPort := targetPort0;
                           startTime := now;
                           attempts := 0;
                           maxAttempts := 30;
                           timeout := 60000;
                           error := None;
                           restartId := Some id |}));
    _ ← persistState;
    awaitOwn (transition INITIATING).

(** A timer callback. *)
Definition timerCallback (action : TimerAction) : Prog unit :=
  match action with
  | ResetTimer => reset
  | TransitionTimer s => awaitOwn (transition s)
  end.

(** ** Running a function

    [Host] answers the immediate requests of one synchronous run. *)
Definition Host : Type := forall X, Call X -> X.

(** The run up to the first [await]. *)
Fixpoint sync {A} (host : Host) (r : Res A) : Res A :=
  match r with
  | Ask c k => sync host (k (host _ c))
  | _ => r
  end.

(** The fields as a suspended or finished function leaves them. *)
Definition fieldsOf {A} (r : Res A) (otherwise : t) : t :=
  match r with
  | Done _ m => m
  | Await _ _ m => m
  | Ask _ _ => otherwise
  end.

(** [restoreState()], lines 661-692: the result, the fields when it
    returns, and the transition it has started without awaiting it. *)
Definition restoreState (host : Host) (m : t)
  : bool * t * option (Res unit) :=
  match storedMachine m with
  | None => (false, m, None)
  | Some Unreadable => (false, set_storedMachine None m, None)
  | Some (Blob state0 context0) =>
      if host _ DateNow - startTime context0 >? 5 * 60 * 1000 then
        (false, set_storedMachine None m, None)
      else
        let m := set_state state0 m in
        let m := set_context (Some context0) m in
        if bool_decide (state0 ≠ IDLE) && bool_decide (state0 ≠ COMPLETED)
           && bool_decide (state0 ≠ FAILED)
        then
          let started := sync host (transition state0 m) in
          (true, fieldsOf started m, Some started)
        else (true, m, None)
  end.

(** What a suspended function is waiting for. *)
Inductive Request : Type :=
| Waiting {X : Type} (w : Wait X).

Definition pending {A} (r : Res A) : option Request :=
  match r with
  | Await w _ _ => Some (Waiting w)
  | _ => None
  end.

(** The run of one function to its end, the environment answering
    the [n]-th await with [answers n] and resuming the function on
    the fields it left.  The run stops where the function waits for
    another transition of the machine. *)
Inductive Outcome (A : Type) : Type :=
| Finished (c : Completion A) (m : t)
| CallsTransition (s : RestartState) (m : t)
| AwaitsPromise (p : Promise) (m : t).
Arguments Finished {A} c m.
Arguments CallsTransition {A} s m.
Arguments AwaitsPromise {A} p m.

Definition Answers : Type := nat -> forall X, Wait X -> X.

Definition stops {A X} (w : Wait X) (m : t) : option (Outcome A) :=
  match w with
  | WTransition s => Some (CallsTransition s m)
  | WPromise p => Some (AwaitsPromise p m)
  | _ => None
  end.

Definition answer (answers : Answers) (n : nat) {X} (w : Wait X) : X * nat :=
  match w in Wait X return X * nat with
  | WSendMessage message => (answers n _ (WSendMessage message), S n)
  | WConnect port => (answers n _ (WConnect port), S n)
  | WWaitForMessage type ms => (answers n _ (WWaitForMessage type ms), S n)
  | WCheckServiceHealth port => (answers n _ (WCheckServiceHealth port), S n)
  | WDelay ms => (tt, n)
  | WPromise p => (tt, n)
  | WTransition s => (answers n _ (WTransition s), S n)
  | Tick => (tt, n)
  end.

Fixpoint drive {A} (host : Host) (answers : Answers) (n : nat) (r : Res A)
  : Outcome A :=
  match r with
  | Done c m => Finished c m
  | Ask c k => drive host answers n (k (host _ c))
  | Await w k m =>
      match stops w m with
      | Some outcome => outcome
      | None =>
          drive host answers (answer answers n w).2
            (k (answer answers n w).1 m)
      end
  end.

(** ** Vocabulary for the properties *)

(** The verification response confirms the restart: it is there and
    its [data.restarted] is truthy. *)
Definition remoteConfirms (response : Completion (option Json)) : bool :=
  match response with
  | Normal v => truthy v && truthy (prop_opt "restarted" (prop_opt "data" v))
  | Throw _ => false
  end.

(** The health probe reports the port healthy. *)
Definition probeHealthy (isHealthy : Completion bool) : bool :=
  match isHealthy with
  | Normal b => b
  | Throw _ => false
  end.

(** The phases in which a restart is under way. *)
Definition nonTerminal (s : RestartState) : bool :=
  bool_decide (s ≠ IDLE) && bool_decide (s ≠ COMPLETED)
  && bool_decide (s ≠ FAILED).

(** The context as the handler of phase [s] leaves it at its first
    [await]: the loop of [handleReconnecting] has started its first
    attempt. *)
Definition entered (s : RestartState) (ctx : RestartContext) : RestartContext :=
  match s with
  | RECONNECTING =>
      if 0 <? maxAttempts ctx then ctx_set_attempts 1 ctx else ctx
  | _ => ctx
  end.

(** The first [await] of the handler of phase [s]; [Tick] where the
    handler throws before it awaits anything. *)
Definition firstRequest (host : Host) (s : RestartState) (ctx : RestartContext)
  : Request :=
  match s with
  | INITIATING =>
      if host _ IsConnected
      then Waiting (WSendMessage
                      (RestartService (targetPort ctx) (host _ DateNow)
                         (restartId ctx)))
      else Waiting Tick
  | RESTARTING =>
      match host _ DisconnectNow with
      | Normal _ => Waiting (WDelay 2000)
      | Throw _ => Waiting Tick
      end
  | RECONNECTING =>
      if 0 <? maxAttempts ctx
      then Waiting (WConnect (or_num (targetPort ctx) (currentPort ctx)))
      else Waiting Tick
  | VERIFYING => Waiting (WWaitForMessage "restartVerificationResponse" 10000)
  | _ => Waiting Tick
  end.

(** ** Example environments, for the concrete cases below *)

Definition exampleHost (connected : bool) (now : Z) : Host :=
  fun X c =>
    match c in Call X return X with
    | IsConnected => connected
    | DisconnectNow => Normal tt
    | DateNow => now
    | RandomSuffix => "k3j9x0a1b"
    end.

(** Every send and connect succeeds; the verification response and
    the health probe are as given. *)
Definition exampleAnswers (response : Completion (option Json))
    (isHealthy : Completion bool) : Answers :=
  fun n X w =>
    match w in Wait X return X with
    | WSendMessage _ => Normal tt
    | WConnect _ => Normal tt
    | WWaitForMessage _ _ => response
    | WCheckServiceHealth _ => isHealthy
    | WDelay _ => tt
    | WPromise _ => tt
    | WTransition _ => Normal tt
    | Tick => tt
    end.

(** The context of the unit test "应该能够从 localStorage 恢复状态",
    started at time 1000. *)
Definition exampleContext : RestartContext :=
  {| currentPort := 9999; targetPort := None; startTime := 1000;
     attempts := 2; maxAttempts := 30; timeout := 60000; error := None;
     restartId := Some "test-restart-id" |}.

(** The response [WebServer.ts] sends: [restarted] inside [data]. *)
Definition nestedResponse : Json :=
  JObj [("type", JStr "restartVerificationResponse");
        ("data", JObj [("restarted", JBool true); ("healthy", JBool true)])].

(** A response with [restarted] as a top-level field. *)
Definition flatResponse : Json :=
  JObj [("type", JStr "restartVerificationResponse");
        ("restarted", JBool true); ("healthy", JBool true)].

(** The phase that the handler of phase [s] goes on to by calling
    [transition] itself. *)
Definition nextPhase (s : RestartState) : RestartState :=
  match s with
  | RESTARTING => RECONNECTING
  | RECONNECTING => VERIFYING
  | VERIFYING => COMPLETED
  | _ => s
  end.

(** The environment lets the handler of phase [s] get as far as
    that call: [disconnect()] returns; the first [connect] succeeds,
    the manager is connected and the verification message is sent;
    both confirmations of the Verifying phase are there. *)
Definition cooperative (host : Host) (answers : Answers) (s : RestartState)
    (ctx : RestartContext) : Prop :=
  match s with
  | RESTARTING => host _ DisconnectNow = Normal tt
  | RECONNECTING =>
      0 < maxAttempts ctx
      /\ answers 0%nat _ (WConnect (or_num (targetPort ctx) (currentPort ctx)))
         = Normal tt
      /\ host _ IsConnected = true
      /\ answers 1%nat _
           (WSendMessage (RestartVerification (startTime ctx) (restartId ctx)))
         = Normal tt
  | VERIFYING =>
      remoteConfirms
        (answers 0%nat _ (WWaitForMessage "restartVerificationResponse" 10000))
      = true
      /\ probeHealthy
           (answers 1%nat _
              (WCheckServiceHealth (or_num (targetPort ctx) (currentPort ctx))))
         = true
  | _ => False
  end.

(** An environment in which no connection can be made: every
    [connect] rejects. *)
Definition refusing (why : Error) : Answers :=
  fun n X w =>
    match w in Wait X return X with
    | WSendMessage _ => Normal tt
    | WConnect _ => Throw why
    | WWaitForMessage _ _ => Normal None
    | WCheckServiceHealth _ => Normal false
    | WDelay _ => tt
    | WPromise _ => tt
    | WTransition _ => Normal tt
    | Tick => tt
    end.

(** A running function that cannot end by throwing, whatever the
    environment answers and whatever the fields are when it is
    resumed. *)
Inductive neverThrows {A : Type} : Res A -> Prop :=
| returns_normally (a : A) (m : t) : neverThrows (Done (Normal a) m)
| asks_then {X : Type} (c : Call X) (k : X -> Res A) :
    (forall x, neverThrows (k x)) -> neverThrows (Ask c k)
| awaits_then {X : Type} (w : Wait X) (k : X -> t -> Res A) (m : t) :
    (forall x m', neverThrows (k x m')) -> neverThrows (Await w k m).

End RestartStateMachine.

(** * ConnectionManagerSingleton.ts *)
Module ConnectionManagerSingleton.
Import JS.

(** [Partial<ConnectionConfig>]: an absent property is [None]. *)
Record PartialConfig : Type := {
  p_connectTimeout : option Z;
  p_messageTimeout : option Z;
  p_reconnectInterval : option Z;
  p_maxReconnectAttempts : option Z
}.

Definition DEFAULT_SINGLETON_CONFIG : ConnectionManager.ConnectionConfig :=
  {| ConnectionManager.connectTimeout := 10000;
     ConnectionManager.messageTimeout := 10000;
     ConnectionManager.reconnectInterval := 2000;
     ConnectionManager.maxReconnectAttempts := 5 |}.

(** [{ ...defaults, ...config }] *)
Definition spread (defaults : ConnectionManager.ConnectionConfig)
    (config : option PartialConfig) : ConnectionManager.ConnectionConfig :=
  match config with
  | None => defaults
  | Some c =>
      {| ConnectionManager.connectTimeout :=
           default (ConnectionManager.connectTimeout defaults)
             (p_connectTimeout c);
         ConnectionManager.messageTimeout :=
           default (ConnectionManager.messageTimeout defaults)
             (p_messageTimeout c);
         ConnectionManager.reconnectInterval :=
           default (ConnectionManager.reconnectInterval defaults)
             (p_reconnectInterval c);
         ConnectionManager.maxReconnectAttempts :=
           default (ConnectionManager.maxReconnectAttempts defaults)
             (p_maxReconnectAttempts c) |}
  end.

(** The static fields of [class ConnectionManagerSingleton]. *)
Record t : Type := {
  instance : option ConnectionManager.t;
  isInitialized : bool
}.

Definition initial : t := {| instance := None; isInitialized := false |}.

(** [getInstance(config?)], lines 28-45: the manager returned and
    the static fields afterwards. *)
Definition getInstance (config : option PartialConfig) (s : t)
  : ConnectionManager.t * t :=
  match instance s with
  | None =>
      let finalConfig := spread DEFAULT_SINGLETON_CONFIG config in
      let manager :=
        ConnectionManager.create
          (spread ConnectionManager.DEFAULT_CONFIG
             (Some {| p_connectTimeout :=
                        Some (ConnectionManager.connectTimeout finalConfig);
                      p_messageTimeout :=
                        Some (ConnectionManager.messageTimeout finalConfig);
                      p_reconnectInterval :=
                        Some (ConnectionManager.reconnectInterval finalConfig);
                      p_maxReconnectAttempts :=
                        Some (ConnectionManager.maxReconnectAttempts
                                finalConfig) |})) in
      (manager, {| instance := Some manager; isInitialized := true |})
  | Some manager => (manager, s)
  end.

(** [hasInstance()], lines 50-52 *)
Definition hasInstance (s : t) : bool :=
  match instance s with
  | Some _ => true
  | None => false
  end.

(** [getConnectionState()], lines 57-62 *)
Definition getConnectionState (s : t)
  : option ConnectionManager.ConnectionState :=
  ConnectionManager.connectionState <$> instance s.

(** [isConnected()], lines 67-72 *)
Definition isConnected (s : t) : bool :=
  match instance s with
  | Some manager => ConnectionManager.isConnected manager
  | None => false
  end.

(** [getConnectionStats()], lines 77-82 *)
Definition getConnectionStats (s : t)
  : option ConnectionManager.ConnectionStats :=
  ConnectionManager.getConnectionStats <$> instance s.

(** [reset()], lines 87-94, and [destroy()], lines 99-106, which
    have the same body: the static fields afterwards, and the manager
    that was destroyed, as those who still hold it see it. *)
Definition destroy (s : t) : option ConnectionManager.t * t :=
  match instance s with
  | Some manager =>
      (Some (ConnectionManager.destroy manager),
       {| instance := None; isInitialized := false |})
  | None => (None, s)
  end.

Definition reset (s : t) : option ConnectionManager.t * t := destroy s.

(** What the application does with the singleton: it asks for the
    instance, resets or destroys it, or something happens to the
    manager it holds. *)
Inductive Op : Type :=
| GetInstance (config : option PartialConfig)
| Reset
| Destroy
| Manager (ev : ConnectionManager.Event).

Definition step (s : t) (op : Op) : t :=
  match op with
  | GetInstance config => (getInstance config s).2
  | Reset => (reset s).2
  | Destroy => (destroy s).2
  | Manager ev =>
      {| instance := (fun m => ConnectionManager.step m ev) <$> instance s;
         isInitialized := isInitialized s |}
  end.

Definition run (ops : list Op) : t := foldl step initial ops.

End ConnectionManagerSingleton.

(** * WebServer.ts: the two handlers that the services talk to *)
Module WebServer.
Import JS.

(** What [getServiceHealth()] returns, lines 710-744, as far as the
    two handlers read it; its [services] object, which they pass on
    unread and no client reads, is left out, also of the message
    below. *)
Record ServiceHealth : Type := {
  webServer : bool;
  websocket : bool;
  mcpConnection : bool
}.

(** The process as a handler sees it: [Date.now()],
    [process.uptime()] in whole seconds, [this.port], the package
    version, and [this.serverStartTime]. *)
Record Server : Type := {
  clock : Z;
  uptimeSeconds : Z;
  listenPort : Z;
  packageVersion : string;
  serverStartTime : Z
}.

(** [GET /api/health], lines 361-386: the response as
    [HealthChecker] receives it. *)
Definition healthEndpoint (server : Server)
    (health : Completion ServiceHealth) : HealthChecker.Response :=
  match health with
  | Normal _ =>
      {| HealthChecker.ok := true;
         HealthChecker.status := 200;
         HealthChecker.statusText := "OK";
         HealthChecker.body :=
           HealthChecker.BodyData
             {| HealthChecker.d_status := Some "healthy";
                HealthChecker.d_timestamp := Some (clock server);
                HealthChecker.d_uptime := Some (uptimeSeconds server);
                HealthChecker.d_port := Some (listenPort server);
                HealthChecker.d_version := Some (packageVersion server);
                HealthChecker.d_error := None |} |}
  | Throw e =>
      {| HealthChecker.ok := false;
         HealthChecker.status := 503;
         HealthChecker.statusText := "Service Unavailable";
         HealthChecker.body :=
           HealthChecker.BodyData
             {| HealthChecker.d_status := Some "unhealthy";
                HealthChecker.d_timestamp := Some (clock server);
                HealthChecker.d_uptime := None;
                HealthChecker.d_port := Some (listenPort server);
                HealthChecker.d_version := None;
                HealthChecker.d_error := Some (message e) |} |}
  end.

(** The case ["restartVerification"] of [handleWebSocketMessage],
    lines 622-657: the message sent back.  [timestamp] is the
    [timestamp] property of the request, [None] when it has none. *)
Definition restartVerificationResponse (server : Server)
    (timestamp : option Z) (health : Completion ServiceHealth) : Json :=
  match health with
  | Normal h =>
      JObj [("type", JStr "restartVerificationResponse");
            ("data",
             JObj [("restarted",
                    JBool match timestamp with
                          | Some ts => serverStartTime server >? ts
                          | None => false
                          end);
                   ("healthy", JBool (webServer h && websocket h));
                   ("timestamp", JNum (clock server));
                   ("serverStartTime", JNum (serverStartTime server));
                   ("healthStatus",
                    JObj [("webServer", JBool (webServer h));
                          ("websocket", JBool (websocket h));
                          ("mcpConnection", JBool (mcpConnection h))])])]
  | Throw e =>
      JObj [("type", JStr "restartVerificationResponse");
            ("data",
             JObj [("restarted", JBool false);
                   ("healthy", JBool false);
                   ("error", JStr (message e));
                   ("timestamp", JNum (clock server));
                   ("serverStartTime", JNum (serverStartTime server))])]
  end.

(** A server that has been up for an hour. *)
Definition upForAnHour : Server :=
  {| clock := 1700003600000; uptimeSeconds := 3600; listenPort := 9999;
     packageVersion := "1.0.0"; serverStartTime := 1700000000000 |}.

End WebServer.

(** * Properties *)

Module HealthCheckerProofs.
Import JS HealthChecker.

Ltac run_eff :=
  unfold mbind, eff_bind, mret, eff_ret, bind, ret, throw, try_catch,
    get, modify in *; simpl in *.

Lemma liveCheck_completes port0 p hc :
  exists res,
    liveCheck port0 p hc
    = (Normal res,
       {| config := config hc;
          checkCache :=
            <[port0 := {| result := res;
                          expiry := completed p
                                    + (if responded p then CACHE_TTL else 500) |}]>
              (checkCache hc) |})
    /\ healthy res = answers_healthy p.
Proof.
  unfold liveCheck, fetch, json, cacheSet, responded, answers_healthy.
  destruct (fetched p) as [e | r]; run_eff; [eauto |].
  destruct (ok r); run_eff; [| eauto].
  destruct (body r); run_eff; eauto.
Qed.

Lemma getHealthStatus_hit port0 now p hc res :
  fresh_cached hc port0 now = Some res ->
  getHealthStatus port0 now p hc = (Normal res, hc).
Proof.
  unfold fresh_cached, getHealthStatus. run_eff.
  destruct (checkCache hc !! port0) as [c |]; [| discriminate].
  destruct (now <? expiry c); [| discriminate].
  intros [= <-]. reflexivity.
Qed.

Lemma getHealthStatus_miss port0 now p hc :
  fresh_cached hc port0 now = None ->
  getHealthStatus port0 now p hc = liveCheck port0 p hc.
Proof.
  unfold fresh_cached, getHealthStatus. run_eff.
  destruct (checkCache hc !! port0) as [c |]; [| reflexivity].
  destruct (now <? expiry c); [discriminate | reflexivity].
Qed.

Lemma answers_healthy_responded p :
  answers_healthy p = true -> responded p = true.
Proof.
  unfold answers_healthy, responded.
  destruct (fetched p) as [e | r]; [discriminate |].
  destruct (ok r); [| reflexivity].
  destruct (body r); simpl; congruence.
Qed.

(** C10: [checkServiceHealth] never throws.  For every port, cache
    state and probe outcome it completes normally with a boolean: the
    [healthy] flag of the fresh cache entry when there is one, and
    otherwise [true] exactly when the probe got a 2xx response whose
    body declares the status "healthy"; a rejected fetch (transport
    error, timeout), an unreadable body and a non-2xx response all
    give [false]. *)
Theorem checkServiceHealth_never_throws port0 now p hc :
  exists b hc',
    checkServiceHealth port0 now p hc = (Normal b, hc')
    /\ b = match fresh_cached hc port0 now with
           | Some res => healthy res
           | None => answers_healthy p
           end.
Proof.
  unfold checkServiceHealth.
  destruct (fresh_cached hc port0 now) as [res |] eqn:Hc.
  - exists (healthy res), hc. run_eff.
    rewrite (getHealthStatus_hit _ _ _ _ _ Hc). auto.
  - destruct (liveCheck_completes port0 p hc) as (res & Hlive & Hh).
    eexists (healthy res), _. run_eff.
    rewrite (getHealthStatus_miss _ _ _ _ Hc), Hlive. auto.
Qed.

(** C6 (counterexample): a 503 response and a 200 response that
    declares the status "unhealthy" both give a result with
    [healthy = false] that is cached for 2000 ms, not 500 ms. *)
Lemma getHealthStatus_unhealthy_response_cached_2s :
  let hc := create DEFAULT_CONFIG in
  let http503 :=
    {| fetched := FetchResolves
         {| ok := false; status := 503;
            statusText := "Service Unavailable";
            body := BodyRejects (Err "no body") |};
       completed := 1000 |} in
  let unhealthy200 :=
    {| fetched := FetchResolves
         {| ok := true; status := 200; statusText := "OK";
            body := BodyData
              {| d_status := Some "unhealthy"; d_timestamp := Some 990;
                 d_uptime := None; d_port := Some 9999;
                 d_version := None;
                 d_error := Some "Database connection failed" |} |};
       completed := 1000 |} in
  (exists res hc',
     getHealthStatus 9999 1000 http503 hc = (Normal res, hc')
     /\ healthy res = false
     /\ expiry <$> checkCache hc' !! 9999 = Some 3000
     /\ expiry <$> checkCache hc' !! 9999 <> Some (1000 + 500))
  /\ (exists res hc',
     getHealthStatus 9999 1000 unhealthy200 hc = (Normal res, hc')
     /\ healthy res = false
     /\ expiry <$> checkCache hc' !! 9999 = Some 3000
     /\ expiry <$> checkCache hc' !! 9999 <> Some (1000 + 500)).
Proof.
  cbv zeta. split.
  - eexists _, _. split; [vm_compute; reflexivity |].
    repeat split; vm_compute; congruence.
  - eexists _, _. split; [vm_compute; reflexivity |].
    repeat split; vm_compute; congruence.
Qed.

(** C6 (amended): on a cache miss [getHealthStatus] completes and
    caches what it returns under the port; the entry expires 2000 ms
    after completion when the result was built from a response (a
    2xx response with a readable body, healthy or not, or a non-2xx
    response) and 500 ms after completion when it was built from a
    thrown error (rejected fetch, timeout abort, unreadable body).
    Every healthy result is of the first kind. *)
Theorem getHealthStatus_ttl_by_path port0 now p hc :
  fresh_cached hc port0 now = None ->
  exists res hc',
    getHealthStatus port0 now p hc = (Normal res, hc')
    /\ checkCache hc' !! port0
       = Some {| result := res;
                 expiry := completed p
                           + (if responded p then 2000 else 500) |}
    /\ healthy res = answers_healthy p
    /\ healthy res && negb (responded p) = false.
Proof.
  intros Hmiss.
  destruct (liveCheck_completes port0 p hc) as (res & Hlive & Hh).
  exists res. eexists. rewrite (getHealthStatus_miss _ _ _ _ Hmiss), Hlive.
  split; [reflexivity |]. simpl. rewrite lookup_insert_eq.
  split; [reflexivity |]. split; [exact Hh |].
  rewrite Hh. destruct (answers_healthy p) eqn:Ha; [| reflexivity].
  rewrite (answers_healthy_responded _ Ha). reflexivity.
Qed.

Lemma getHealthStatus_ttl_by_path_witness :
  exists res hc',
    getHealthStatus 9999 1000
      {| fetched := FetchRejects (Err "Network error"); completed := 1200 |}
      (create DEFAULT_CONFIG) = (Normal res, hc')
    /\ checkCache hc' !! 9999 = Some {| result := res; expiry := 1200 + 500 |}
    /\ healthy res = false
    /\ healthy res && negb false = false.
Proof.
  apply (getHealthStatus_ttl_by_path 9999 1000
           {| fetched := FetchRejects (Err "Network error");
              completed := 1200 |}
           (create DEFAULT_CONFIG)).
  reflexivity.
Defined.

(** C7 (the code at the failing input): the target answers
    [{status: "healthy", uptime: 3600}] without a timestamp; it has
    been up for an hour, so its start time lies before
    [previousTimestamp] (ten seconds ago) and it has not restarted,
    yet [verifyServiceRestart] returns [true], because
    [getHealthStatus] fills the missing timestamp with [Date.now()]. *)
Theorem verifyServiceRestart_uptime_ignored :
  let now := 1700000000000 in
  let data :=
    {| d_status := Some "healthy"; d_timestamp := None;
       d_uptime := Some 3600; d_port := None; d_version := None;
       d_error := None |} in
  let p :=
    {| fetched := FetchResolves
         {| ok := true; status := 200; statusText := "OK";
            body := BodyData data |};
       completed := now |} in
  fst (verifyServiceRestart (now - 10000) 9999 now p now
         (create DEFAULT_CONFIG)) = Normal true
  /\ spec_verifyRestarted (now - 10000) data now = false.
Proof. split; vm_compute; reflexivity. Qed.

(** X19: Where the target does report a timestamp and all dates are valid
    time values, the code and the design document's reading agree. *)
Lemma verifyServiceRestart_with_timestamp prev port0 now later hc r data ts :
  fresh_cached hc port0 now = None ->
  ok r = true -> body r = BodyData data ->
  d_timestamp data = Some ts -> ts <> 0 ->
  - max_time_value <= prev <= max_time_value ->
  - max_time_value <= ts <= max_time_value ->
  fst (verifyServiceRestart prev port0 now
         {| fetched := FetchResolves r; completed := later |} later hc)
  = Normal (spec_verifyRestarted prev data later).
Proof.
  intros Hmiss Hok Hbody Hts Hnz Hprev Hvalid.
  unfold verifyServiceRestart, spec_verifyRestarted, toISOString.
  assert (Hp : (- max_time_value <=? prev) && (prev <=? max_time_value) = true)
    by (apply andb_true_iff; split; apply Z.leb_le; lia).
  assert (Ht : (- max_time_value <=? ts) && (ts <=? max_time_value) = true)
    by (apply andb_true_iff; split; apply Z.leb_le; lia).
  assert (Hz : (ts =? 0) = false) by (apply Z.eqb_neq; exact Hnz).
  rewrite Hp. run_eff.
  rewrite (getHealthStatus_miss _ _ _ _ Hmiss).
  unfold liveCheck, fetch, json, cacheSet, truthy_num, or_num. run_eff.
  rewrite Hok, Hbody. simpl. rewrite Hts, Hz. simpl.
  destruct (is_healthy data); simpl; [| reflexivity].
  rewrite Hz. simpl.
  destruct (ts >? prev); simpl.
  - rewrite Ht. reflexivity.
  - destruct (d_uptime data) as [up |]; simpl; [| reflexivity].
    destruct (later - up * 1000 >? prev); reflexivity.
Qed.

(** ** The cache *)



(** X16: [clearCache(port)] with a non-zero port forgets that port only:
    its next check goes to the network, while the entries of the
    other ports stay.  [clearCache()], [clearCache(0)] and
    [destroy()] forget every port. *)
Theorem clearCache_forgets port0 hc :
  (forall k, port0 = Some k -> k <> 0 ->
     forall now p,
       (clearCache port0 hc).1 = Normal tt
       /\ getHealthStatus k now p (clearCache port0 hc).2
          = liveCheck k p (clearCache port0 hc).2
       /\ forall k', k' <> k ->
            fresh_cached (clearCache port0 hc).2 k' now
            = fresh_cached hc k' now)
  /\ (port0 = None \/ port0 = Some 0 ->
        checkCache (clearCache port0 hc).2 = ∅)
  /\ checkCache (destroy hc).2 = ∅.
Proof.
  split; [| split].
  - intros k -> Hk now p. unfold clearCache, truthy_num. run_eff.
    apply Z.eqb_neq in Hk. rewrite Hk. simpl.
    split; [reflexivity |]. split.
    + apply getHealthStatus_miss. unfold fresh_cached. simpl.
      rewrite lookup_delete_eq. reflexivity.
    + intros k' Hne. unfold fresh_cached. simpl.
      rewrite lookup_delete_ne by congruence. reflexivity.
  - intros [-> | ->]; reflexivity.
  - reflexivity.
Qed.

(** ** [verifyServiceRestart] *)

(** X17: With a baseline outside the range of ECMAScript time values
    (beyond 8.64e15 ms either way, a timestamp in nanoseconds for
    instance) [verifyServiceRestart] returns false whatever the
    service answers: the log line at its start throws a RangeError,
    which the [catch] turns into false before any check is made. *)
Theorem verifyServiceRestart_invalid_baseline oldTimestamp port0 now p later hc :
  oldTimestamp < - max_time_value \/ max_time_value < oldTimestamp ->
  verifyServiceRestart oldTimestamp port0 now p later hc = (Normal false, hc).
Proof.
  intros Hout. unfold verifyServiceRestart, toISOString.
  assert (Hr : (- max_time_value <=? oldTimestamp)
               && (oldTimestamp <=? max_time_value) = false).
  { apply andb_false_iff. destruct Hout as [Hlt | Hgt].
    - left. apply Z.leb_gt. exact Hlt.
    - right. apply Z.leb_gt. exact Hgt. }
  rewrite Hr. reflexivity.
Qed.

Lemma verifyServiceRestart_invalid_baseline_witness :
  verifyServiceRestart 1700000000000000000 9999 1700000000000
    (answering "healthy" 1700000000000) 1700000000000 (create DEFAULT_CONFIG)
  = (Normal false, create DEFAULT_CONFIG).
Proof.
  apply (verifyServiceRestart_invalid_baseline 1700000000000000000 9999
           1700000000000 (answering "healthy" 1700000000000) 1700000000000
           (create DEFAULT_CONFIG)).
  right. reflexivity.
Defined.

(** X18: [verifyServiceRestart] never throws, and it returns true only
    for a service whose status, cached or just probed, is healthy. *)
Theorem verifyServiceRestart_never_throws oldTimestamp port0 now p later hc :
  exists b hc',
    verifyServiceRestart oldTimestamp port0 now p later hc = (Normal b, hc')
    /\ (b = true ->
        match fresh_cached hc port0 now with
        | Some res => healthy res
        | None => answers_healthy p
        end = true).
Proof.
  unfold verifyServiceRestart, toISOString.
  destruct ((- max_time_value <=? oldTimestamp)
            && (oldTimestamp <=? max_time_value));
    [| eexists _, _; split; [reflexivity | discriminate]].
  assert (Hstatus : exists res hc1,
            getHealthStatus port0 now p hc = (Normal res, hc1)
            /\ healthy res = match fresh_cached hc port0 now with
                             | Some res => healthy res
                             | None => answers_healthy p
                             end).
  { destruct (fresh_cached hc port0 now) as [res |] eqn:Hc.
    - exists res, hc. rewrite (getHealthStatus_hit _ _ _ _ _ Hc). auto.
    - destruct (liveCheck_completes port0 p hc) as (res & Hlive & Hh).
      eexists res, _. rewrite (getHealthStatus_miss _ _ _ _ Hc), Hlive. auto. }
  destruct Hstatus as (res & hc1 & Hget & Hh). rewrite <- Hh.
  run_eff. rewrite Hget.
  destruct (healthy res); simpl;
    [| eexists _, _; split; [reflexivity | discriminate]].
  destruct (negb (timestamp res =? 0) && (timestamp res >? oldTimestamp));
    simpl.
  - destruct ((- max_time_value <=? timestamp res)
              && (timestamp res <=? max_time_value)); simpl;
      eexists _, _; split; try reflexivity; auto.
  - destruct (uptime res) as [up |]; simpl.
    + destruct (later - up * 1000 >? oldTimestamp);
        eexists _, _; split; try reflexivity; auto.
    + eexists _, _; split; [reflexivity | auto].
Qed.

Lemma verifyServiceRestart_with_timestamp_witness :
  fst (verifyServiceRestart 1000 9999 5000
         {| fetched := FetchResolves
              {| ok := true; status := 200; statusText := "OK";
                 body := BodyData
                   {| d_status := Some "healthy"; d_timestamp := Some 4000;
                      d_uptime := Some 1; d_port := Some 9999;
                      d_version := None; d_error := None |} |};
            completed := 5000 |} 5000 (create DEFAULT_CONFIG))
  = Normal true.
Proof.
  apply (verifyServiceRestart_with_timestamp 1000 9999 5000 5000
           (create DEFAULT_CONFIG)
           {| ok := true; status := 200; statusText := "OK";
              body := BodyData
                {| d_status := Some "healthy"; d_timestamp := Some 4000;
                   d_uptime := Some 1; d_port := Some 9999;
                   d_version := None; d_error := None |} |}
           {| d_status := Some "healthy"; d_timestamp := Some 4000;
              d_uptime := Some 1; d_port := Some 9999;
              d_version := None; d_error := None |} 4000);
    try reflexivity; try discriminate; unfold max_time_value; lia.
Defined.

(** ** [waitForServiceReady] *)

Lemma checkServiceHealth_result port0 now p hc :
  exists b hc',
    checkServiceHealth port0 now p hc = (Normal b, hc')
    /\ config hc' = config hc
    /\ (b = true ->
        exists e, checkCache hc' !! port0 = Some e /\ healthy (result e) = true).
Proof.
  unfold checkServiceHealth.
  destruct (fresh_cached hc port0 now) as [res |] eqn:Hc.
  - exists (healthy res), hc. run_eff.
    rewrite (getHealthStatus_hit _ _ _ _ _ Hc).
    split; [reflexivity |]. split; [reflexivity |].
    intros Hh. unfold fresh_cached in Hc.
    destruct (checkCache hc !! port0) as [e |]; [| discriminate].
    destruct (now <? expiry e); [| discriminate].
    injection Hc as <-. eauto.
  - destruct (liveCheck_completes port0 p hc) as (res & Hlive & Hh).
    eexists (healthy res), _. run_eff.
    rewrite (getHealthStatus_miss _ _ _ _ Hc), Hlive.
    split; [reflexivity |]. split; [reflexivity |].
    intros Hres. eexists. cbn [checkCache]. rewrite lookup_insert_eq.
    split; [reflexivity |]. exact Hres.
Qed.

Lemma pollUntilReady_outcome port0 actualTimeout startTime rounds :
  forall hc,
  exists r hc',
    pollUntilReady port0 actualTimeout startTime rounds hc = (Normal r, hc')
    /\ config hc' = config hc
    /\ (r = Some true ->
        exists e, checkCache hc' !! port0 = Some e /\ healthy (result e) = true)
    /\ (r = Some false ->
        exists round,
          round ∈ rounds /\ actualTimeout <= tested round - startTime)
    /\ ((exists round,
           round ∈ rounds /\ actualTimeout <= tested round - startTime) ->
        r <> None).
Proof.
  induction rounds as [| round rest IH]; intros hc.
  - exists None, hc. repeat split; try discriminate.
    intros (round & Hin & _). inversion Hin.
  - cbn [pollUntilReady].
    destruct (Z.ltb_spec (tested round - startTime) actualTimeout)
      as [Hlt | Hge].
    + destruct (checkServiceHealth_result port0 (checked round) (probed round)
                  hc) as (b & hc1 & Hcheck & Hcfg & Hcache).
      unfold mbind, eff_bind, bind, try_catch. rewrite Hcheck.
      destruct b.
      * exists (Some true), hc1. unfold ret.
        repeat split; try discriminate; auto.
      * destruct (IH hc1) as (r & hc' & Hrun & Hcfg' & Ht & Hf & Hfuel).
        exists r, hc'. rewrite Hrun.
        split; [reflexivity |]. split; [congruence |]. split; [exact Ht |].
        split.
        -- intros Hr. destruct (Hf Hr) as (round' & Hin & Hle).
           exists round'. split; [right; exact Hin | exact Hle].
        -- intros (round' & Hin & Hle). apply Hfuel.
           apply elem_of_cons in Hin as [-> | Hin]; [lia |]. eauto.
    + exists (Some false), hc. unfold ret.
      repeat split; try discriminate.
      intros _. exists round. split; [left | exact Hge].
Qed.

(** X20: [waitForServiceReady] never throws.  It returns true only with
    a healthy result for the port in the cache, and false only after
    a loop test found the timeout elapsed; the timeout is the
    argument, or [maxRetries * retryInterval] when the argument is
    absent or 0.  Once the clock has reached the timeout at a loop
    test, the function has returned. *)
Theorem waitForServiceReady_outcome port0 timeout0 startTime rounds hc :
  let actualTimeout :=
    or_num timeout0 (maxRetries (config hc) * retryInterval (config hc)) in
  exists r hc',
    waitForServiceReady port0 timeout0 startTime rounds hc = (Normal r, hc')
    /\ config hc' = config hc
    /\ (r = Some true ->
        exists e, checkCache hc' !! port0 = Some e /\ healthy (result e) = true)
    /\ (r = Some false ->
        exists round,
          round ∈ rounds /\ actualTimeout <= tested round - startTime)
    /\ ((exists round,
           round ∈ rounds /\ actualTimeout <= tested round - startTime) ->
        r <> None).
Proof.
  cbv zeta. unfold waitForServiceReady, mbind, eff_bind, bind, get.
  apply pollUntilReady_outcome.
Qed.

End HealthCheckerProofs.

Module RestartStateMachineProofs.
Import JS RestartStateMachine.

Ltac run_prog :=
  unfold mbind, prog_bind, mret, prog_ret, bindP, tryP, retP, throwP, this,
    update, ask, await, awaitCall, awaitOwn, settle in *.

(** C1: in every state other than IDLE, [restart] rejects at once
    with the error "重启已在进行中，当前状态: <state>", before it asks the
    environment for anything, and leaves every field of the machine,
    the context and the state among them, as it was. *)
Theorem restart_rejected_when_busy currentPort0 targetPort0 m :
  state m <> IDLE ->
  restart currentPort0 targetPort0 m
  = Done (Throw (Err ("重启已在进行中，当前状态: " +:+ stateName (state m)))) m.
Proof.
  intros Hbusy. unfold restart. run_prog. simpl.
  rewrite bool_decide_eq_true_2 by exact Hbusy. reflexivity.
Qed.

Lemma restart_rejected_when_busy_witness :
  let m := set_state RECONNECTING (create None None) in
  restart 9999 (Some 8888) m
  = Done (Throw (Err "重启已在进行中，当前状态: reconnecting")) m.
Proof.
  apply (restart_rejected_when_busy 9999 (Some 8888)
           (set_state RECONNECTING (create None None))).
  simpl. discriminate.
Defined.

(** C3 (counterexample): with a healthy probe, a response that has
    no top-level [restarted] field but carries [data.restarted]
    lets the Verifying phase go on to COMPLETED instead of throwing;
    and a response that does carry a top-level [restarted: true]
    makes the phase throw, and the machine fail. *)
Lemma verifying_reads_data_restarted :
  let m := set_context (Some exampleContext) (create None None) in
  let host := exampleHost true 2000 in
  prop_opt "restarted" (Some nestedResponse) = None
  /\ (exists m',
        drive host (exampleAnswers (Normal (Some nestedResponse)) (Normal true))
          0 (doTransition VERIFYING m)
        = CallsTransition COMPLETED m')
  /\ prop_opt "restarted" (Some flatResponse) = Some (JBool true)
  /\ (exists m',
        drive host (exampleAnswers (Normal (Some flatResponse)) (Normal true))
          0 (doTransition VERIFYING m)
        = Finished (Normal tt) m'
        /\ state m' = FAILED).
Proof.
  cbv zeta. split; [reflexivity |]. split.
  - eexists. vm_compute. reflexivity.
  - split; [reflexivity |]. eexists. split; vm_compute; reflexivity.
Qed.

(** C3 (amended): the Verifying phase, run by [doTransition], calls
    [transition(COMPLETED)] exactly when both confirmations are
    there: the awaited restartVerificationResponse message is truthy
    and its field [restarted], nested under [data], is truthy, and
    the health probe of the target port (or of the current port
    when there is none) returns true.  In every other case (no
    message, a rejected wait, [data.restarted] missing or falsy, an
    unhealthy or failing probe) the phase throws an error
    "服务验证失败: ...", which [doTransition] records in the context
    while it puts the machine in FAILED. *)
Theorem verifying_completes_only_when_confirmed (host : Host)
    (answers : Answers) m ctx :
  context m = Some ctx ->
  let response :=
    answers 0%nat _ (WWaitForMessage "restartVerificationResponse" 10000) in
  let isHealthy :=
    answers 1%nat _
      (WCheckServiceHealth (or_num (targetPort ctx) (currentPort ctx))) in
  match drive host answers 0 (doTransition VERIFYING m) with
  | CallsTransition s m' =>
      s = COMPLETED
      /\ remoteConfirms response = true /\ probeHealthy isHealthy = true
  | Finished c m' =>
      remoteConfirms response && probeHealthy isHealthy = false
      /\ c = Normal tt
      /\ state m' = FAILED
      /\ exists why,
           error <$> context m' = Some (Some (Err ("服务验证失败: " +:+ why)))
  | AwaitsPromise _ _ => False
  end.
Proof.
  intros Hctx response isHealthy. subst response isHealthy.
  destruct m as [st c tp sm su tm np nf]; simpl in Hctx; subst c.
  unfold doTransition, handleVerifying, requireContext, readContext,
    notifyListeners, persistState, setTimeout.
  run_prog. cbn.
  destruct (answers 0%nat _ (WWaitForMessage "restartVerificationResponse" 10000))
    as [v | e] eqn:Hresp; cbn.
  2: { repeat split; eauto. }
  destruct (truthy v) eqn:Hv; cbn.
  2: { repeat split; eauto. }
  destruct (answers 1%nat _ (WCheckServiceHealth
             (or_num (targetPort ctx) (currentPort ctx)))) as [h | e] eqn:Hh; cbn.
  2: { rewrite andb_false_r. repeat split; eauto. }
  destruct h; cbn.
  2: { rewrite andb_false_r. repeat split; eauto. }
  destruct (truthy (prop_opt "restarted" (prop_opt "data" v))) eqn:Hr; cbn.
  2: { repeat split; eauto. }
  destruct (targetPort ctx) as [port |] eqn:Hport; cbn.
  - destruct (negb (port =? 0) && negb (port =? currentPort ctx)); cbn; auto.
  - auto.
Qed.

Lemma verifying_completes_only_when_confirmed_witness :
  match
    drive (exampleHost true 2000)
      (exampleAnswers (Normal (Some nestedResponse)) (Normal false)) 0
      (doTransition VERIFYING
         (set_context (Some exampleContext) (create None None)))
  with
  | CallsTransition s m' => s = COMPLETED /\ true = true /\ false = true
  | Finished c m' =>
      false = false
      /\ c = Normal tt
      /\ state m' = FAILED
      /\ exists why,
           error <$> context m' = Some (Some (Err ("服务验证失败: " +:+ why)))
  | AwaitsPromise _ _ => False
  end.
Proof.
  apply (verifying_completes_only_when_confirmed (exampleHost true 2000)
           (exampleAnswers (Normal (Some nestedResponse)) (Normal false))
           (set_context (Some exampleContext) (create None None))
           exampleContext).
  reflexivity.
Defined.

(** C5: [restoreState] on a persisted [{state, context}].  When
    [context.startTime] lies more than 5 minutes before now it
    returns false and removes the persisted item, leaving the fields
    alone.  Otherwise it returns true with the persisted state and
    context restored; for a state other than IDLE, COMPLETED and
    FAILED it has, on a machine with no transition in flight,
    entered [transition(state)] and through it the handler of that
    phase: the listeners were notified of the restored pair, the
    blob was written again, and the started transition is suspended
    at the first [await] of the handler (the context being as the
    handler leaves it there).  With a transition in flight the
    started one waits for it. *)
Theorem restoreState_stale_or_resumed (host : Host) m state0 context0 :
  storedMachine m = Some (Blob state0 context0) ->
  if host _ DateNow - startTime context0 >? 5 * 60 * 1000 then
    restoreState host m = (false, set_storedMachine None m, None)
  else if nonTerminal state0 then
    exists started m',
      restoreState host m = (true, m', Some started)
      /\ state m' = state0
      /\ match transitionPromise m with
         | None =>
             context m' = Some (entered state0 context0)
             /\ storedMachine m' = Some (Blob state0 (serialized context0))
             /\ transitionPromise m' = Some (nextPromise m)
             /\ (state0, context0) ∈ notified m'
             /\ pending started = Some (firstRequest host state0 context0)
         | Some running =>
             context m' = Some context0
             /\ pending started = Some (Waiting (WPromise running))
         end
  else
    restoreState host m
    = (true, set_context (Some context0) (set_state state0 m), None).
Proof.
  intros Hstored. unfold restoreState. rewrite Hstored.
  destruct (host _ DateNow - startTime context0 >? 5 * 60 * 1000);
    [reflexivity |].
  unfold nonTerminal.
  destruct (bool_decide (state0 ≠ IDLE) && bool_decide (state0 ≠ COMPLETED)
            && bool_decide (state0 ≠ FAILED)) eqn:Hnt; [| reflexivity].
  destruct m as [st c tp sm su tm np nf]; simpl in *.
  eexists _, _. split; [reflexivity |].
  destruct tp as [running |].
  { unfold transition. run_prog. cbn. auto. }
  destruct state0; try discriminate Hnt.
  - (* INITIATING *)
    unfold transition, startTransition, doTransition, handleInitiating,
      requireContext, readContext, notifyListeners, persistState, setTimeout.
    run_prog. cbn. unfold firstRequest.
    destruct (host _ IsConnected); cbn;
      repeat split; try reflexivity; set_solver.
  - (* RESTARTING *)
    unfold transition, startTransition, doTransition, handleRestarting,
      requireContext, readContext, notifyListeners, persistState, setTimeout.
    run_prog. cbn. unfold firstRequest.
    destruct (host _ DisconnectNow); cbn;
      repeat split; try reflexivity; set_solver.
  - (* RECONNECTING *)
    unfold transition, startTransition, doTransition, handleReconnecting,
      requireContext, readContext, notifyListeners, persistState, setTimeout.
    run_prog. cbn. unfold firstRequest, entered.
    destruct (Z.ltb_spec 0 (maxAttempts context0)) as [Hpos | Hneg].
    + destruct (Z.to_nat (maxAttempts context0)) as [| k] eqn:Hk; [lia |].
      cbn. run_prog. cbn. repeat split; try reflexivity; set_solver.
    + replace (Z.to_nat (maxAttempts context0)) with 0%nat by lia.
      cbn. repeat split; try reflexivity; set_solver.
  - (* VERIFYING *)
    unfold transition, startTransition, doTransition, handleVerifying,
      requireContext, readContext, notifyListeners, persistState, setTimeout.
    run_prog. cbn. unfold firstRequest.
    repeat split; try reflexivity; set_solver.
Qed.

Lemma restoreState_stale_or_resumed_witness :
  (let m := create (Some (Blob RECONNECTING exampleContext)) None in
   restoreState (exampleHost false (1000 + 6 * 60 * 1000)) m
   = (false, set_storedMachine None m, None))
  /\ (let m := create (Some (Blob RECONNECTING exampleContext)) None in
      exists started m',
        restoreState (exampleHost false 2000) m = (true, m', Some started)
        /\ state m' = RECONNECTING
        /\ context m' = Some (ctx_set_attempts 1 exampleContext)
           /\ storedMachine m' = Some (Blob RECONNECTING exampleContext)
           /\ transitionPromise m' = Some 0%nat
           /\ (RECONNECTING, exampleContext) ∈ notified m'
           /\ pending started = Some (Waiting (WConnect 9999))).
Proof.
  split.
  - apply (restoreState_stale_or_resumed
             (exampleHost false (1000 + 6 * 60 * 1000))
             (create (Some (Blob RECONNECTING exampleContext)) None)
             RECONNECTING exampleContext).
    reflexivity.
  - apply (restoreState_stale_or_resumed (exampleHost false 2000)
             (create (Some (Blob RECONNECTING exampleContext)) None)
             RECONNECTING exampleContext).
    reflexivity.
Defined.

(** A remark on the phase handlers that call [transition] themselves
    ([handleRestarting], [handleReconnecting], [handleVerifying]):
    when the handler run by [transition(RESTARTING)] reaches its call
    of [transition(RECONNECTING)], [transitionPromise] holds the
    promise of the [doTransition] call that is running the handler,
    and the first thing the called [transition] does is to await
    that promise. *)
Remark nested_transition_awaits_its_caller (host : Host) (answers : Answers)
    m ctx :
  context m = Some ctx ->
  transitionPromise m = None ->
  host _ DisconnectNow = Normal tt ->
  exists m',
    drive host answers 0 (transition RESTARTING m)
    = CallsTransition RECONNECTING m'
    /\ transitionPromise m' = Some (nextPromise m)
    /\ pending (sync host (transition RECONNECTING m'))
       = Some (Waiting (WPromise (nextPromise m))).
Proof.
  intros Hctx Hidle Hdisc.
  destruct m as [st c tp sm su tm np nf]; simpl in *; subst c tp.
  unfold transition, startTransition, doTransition, handleRestarting,
    requireContext, readContext, notifyListeners, persistState, setTimeout.
  run_prog. cbn. rewrite Hdisc. cbn.
  eexists. split; [reflexivity |]. cbn. auto.
Qed.

(** ** Transitions called from inside a phase handler *)

Lemma transition_waits_for_running s m running (host : Host) :
  transitionPromise m = Some running ->
  pending (sync host (transition s m)) = Some (Waiting (WPromise running)).
Proof.
  intros Hrun. destruct m as [st c tp sm su tm np nf]; simpl in Hrun; subst tp.
  unfold transition. run_prog. reflexivity.
Qed.

(** X23: The handlers of RESTARTING, RECONNECTING and VERIFYING go on to
    the next phase by calling [transition] themselves.  When the
    environment lets such a handler, run by [transition(s)], get that
    far, [transitionPromise] still holds the promise of the
    [doTransition] call that is running the handler, and the first
    thing the called [transition] does is to await that promise: the
    machine is still in phase [s], the handler waits for the new
    transition, and the new transition waits for the handler. *)
Theorem phase_handler_awaits_itself (host : Host) (answers : Answers) s m ctx :
  context m = Some ctx ->
  transitionPromise m = None ->
  cooperative host answers s ctx ->
  exists m',
    drive host answers 0 (transition s m) = CallsTransition (nextPhase s) m'
    /\ state m' = s
    /\ transitionPromise m' = Some (nextPromise m)
    /\ pending (sync host (transition (nextPhase s) m'))
       = Some (Waiting (WPromise (nextPromise m))).
Proof.
  intros Hctx Hidle Hcoop.
  assert (Hgoal : exists m',
            drive host answers 0 (transition s m)
            = CallsTransition (nextPhase s) m'
            /\ state m' = s
            /\ transitionPromise m' = Some (nextPromise m)).
  { destruct m as [st c tp sm su tm np nf]; simpl in *; subst c tp.
    destruct s; try contradiction; cbn [cooperative nextPhase] in *.
    - (* RESTARTING *)
      unfold transition, startTransition, doTransition, handleRestarting,
        requireContext, readContext, notifyListeners, persistState, setTimeout.
      run_prog. cbn. rewrite Hcoop. cbn. eexists. repeat split.
    - (* RECONNECTING *)
      destruct Hcoop as (Hpos & Hconn & Hlive & Hsend).
      unfold transition, startTransition, doTransition, handleReconnecting,
        requireContext, readContext, notifyListeners, persistState, setTimeout.
      run_prog. cbn.
      destruct (Z.to_nat (maxAttempts ctx)) as [| k] eqn:Hk; [lia |].
      cbn. unfold readContext, notifyListeners. run_prog. cbn.
      rewrite Hconn. cbn. rewrite Hlive. cbn.
      rewrite Hsend. cbn. eexists. repeat split.
    - (* VERIFYING *)
      destruct Hcoop as (Hresp & Hprobe).
      unfold transition, startTransition, doTransition, handleVerifying,
        requireContext, readContext, notifyListeners, persistState, setTimeout.
      run_prog. cbn.
      unfold remoteConfirms in Hresp. unfold probeHealthy in Hprobe.
      destruct (answers 0%nat _
                  (WWaitForMessage "restartVerificationResponse" 10000))
        as [v | e]; [| discriminate].
      apply andb_true_iff in Hresp as [Hv Hr]. cbn. rewrite Hv. cbn.
      destruct (answers 1%nat _
                  (WCheckServiceHealth
                     (or_num (targetPort ctx) (currentPort ctx))))
        as [h | e]; [| discriminate].
      subst h. cbn. rewrite Hr. cbn.
      destruct (targetPort ctx) as [port |]; cbn.
      + destruct (negb (port =? 0) && negb (port =? currentPort ctx)); cbn;
          eexists; repeat split.
      + eexists. repeat split. }
  destruct Hgoal as (m' & Hdrive & Hst & Htp).
  exists m'. split; [exact Hdrive |]. split; [exact Hst |].
  split; [exact Htp |].
  apply transition_waits_for_running. exact Htp.
Qed.

Lemma phase_handler_awaits_itself_witness :
  let m := set_context (Some exampleContext) (create None None) in
  exists m',
    drive (exampleHost true 2000)
      (exampleAnswers (Normal (Some nestedResponse)) (Normal true)) 0
      (transition RESTARTING m)
    = CallsTransition RECONNECTING m'
    /\ state m' = RESTARTING
    /\ transitionPromise m' = Some (nextPromise m)
    /\ pending (sync (exampleHost true 2000) (transition RECONNECTING m'))
       = Some (Waiting (WPromise (nextPromise m))).
Proof.
  apply (phase_handler_awaits_itself (exampleHost true 2000)
           (exampleAnswers (Normal (Some nestedResponse)) (Normal true))
           RESTARTING
           (set_context (Some exampleContext) (create None None))
           exampleContext); reflexivity.
Defined.

(** ** [restart] *)

(** X24: [restart] on an idle machine whose connection is not available:
    the promise it returns is fulfilled, not rejected; the failure
    shows in the fields.  The machine is FAILED, the context holds
    the error "发送重启请求失败: WebSocket 连接不可用", the listeners have
    seen INITIATING and then FAILED, the FAILED state is persisted
    (the error as [{}]), no transition is left in flight, and the
    timer that resets the machine after 3 seconds is started. *)
Theorem restart_fails_when_disconnected (host : Host) (answers : Answers)
    currentPort0 targetPort0 m :
  state m = IDLE ->
  transitionPromise m = None ->
  host _ IsConnected = false ->
  let now := host _ DateNow in
  let ctx0 :=
    {| currentPort := currentPort0; targetPort := targetPort0;
       startTime := now; attempts := 0; maxAttempts := 30; timeout := 60000;
       error := None;
       restartId := Some ("restart_" +:+ pretty now +:+ "_"
                          +:+ host _ RandomSuffix) |} in
  let failed :=
    ctx_set_error (Some (Err "发送重启请求失败: WebSocket 连接不可用")) ctx0 in
  drive host answers 0 (restart currentPort0 targetPort0 m)
  = Finished (Normal tt)
      {| state := FAILED;
         context := Some failed;
         transitionPromise := None;
         storedMachine := Some (Blob FAILED (serialized failed));
         storedUrl := storedUrl m;
         timers := timers m ++ [(3000, ResetTimer)];
         nextPromise := S (nextPromise m);
         notified := notified m ++ [(INITIATING, ctx0)] ++ [(FAILED, failed)] |}.
Proof.
  intros Hidle Hfree Hdown. cbv zeta.
  destruct m as [st c tp sm su tm np nf]; simpl in *; subst st tp.
  unfold restart, generateRestartId, transition, startTransition,
    doTransition, handleInitiating, requireContext, readContext,
    notifyListeners, persistState, setTimeout.
  run_prog. cbn.
  rewrite bool_decide_eq_false_2 by (intros Hn; apply Hn; reflexivity).
  cbn. rewrite Hdown. cbn.
  rewrite bool_decide_eq_true_2 by discriminate. cbn.
  rewrite <- app_assoc. reflexivity.
Qed.

Lemma restart_fails_when_disconnected_witness :
  exists m',
    drive (exampleHost false 2000)
      (exampleAnswers (Normal None) (Normal false)) 0
      (restart 9999 None (create None None))
    = Finished (Normal tt) m'
    /\ state m' = FAILED
    /\ timers m' = [(3000, ResetTimer)].
Proof.
  eexists. split.
  - apply (restart_fails_when_disconnected (exampleHost false 2000)
             (exampleAnswers (Normal None) (Normal false)) 9999 None
             (create None None)); reflexivity.
  - split; reflexivity.
Defined.

(** X25: [restart] on an idle machine whose connection is available.  It
    runs, before it first suspends, as far as the sending of the
    restartService message: the machine is INITIATING with a fresh
    context (no attempts yet, at most 30, a timeout of 60 s), which
    is persisted.  When the send succeeds the promise of [restart]
    is fulfilled with the machine still INITIATING, no transition in
    flight and the timer that starts RESTARTING after 10 ms running;
    when the send fails the promise is fulfilled as well, the machine
    is FAILED with the error "发送重启请求失败: <reason>". *)
Theorem restart_initiates (host : Host) (answers : Answers)
    currentPort0 targetPort0 m :
  state m = IDLE ->
  transitionPromise m = None ->
  host _ IsConnected = true ->
  let now := host _ DateNow in
  let ctx0 :=
    {| currentPort := currentPort0; targetPort := targetPort0;
       startTime := now; attempts := 0; maxAttempts := 30; timeout := 60000;
       error := None;
       restartId := Some ("restart_" +:+ pretty now +:+ "_"
                          +:+ host _ RandomSuffix) |} in
  let request := WSendMessage (RestartService targetPort0 now (restartId ctx0)) in
  let started := sync host (restart currentPort0 targetPort0 m) in
  pending started = Some (Waiting request)
  /\ state (fieldsOf started m) = INITIATING
  /\ context (fieldsOf started m) = Some ctx0
  /\ storedMachine (fieldsOf started m) = Some (Blob INITIATING ctx0)
  /\ exists m',
       drive host answers 0 (restart currentPort0 targetPort0 m)
       = Finished (Normal tt) m'
       /\ transitionPromise m' = None
       /\ match answers 0%nat _ request with
          | Normal _ =>
              state m' = INITIATING
              /\ context m' = Some ctx0
              /\ timers m' = timers m ++ [(10, TransitionTimer RESTARTING)]
          | Throw e =>
              state m' = FAILED
              /\ context m'
                 = Some (ctx_set_error
                           (Some (Err ("发送重启请求失败: " +:+ message e))) ctx0)
              /\ timers m' = timers m ++ [(3000, ResetTimer)]
          end.
Proof.
  intros Hidle Hfree Hup. cbv zeta.
  destruct m as [st c tp sm su tm np nf]; simpl in *; subst st tp.
  unfold restart, generateRestartId, transition, startTransition,
    doTransition, handleInitiating, requireContext, readContext,
    notifyListeners, persistState, setTimeout.
  run_prog. cbn.
  rewrite bool_decide_eq_false_2 by (intros Hn; apply Hn; reflexivity).
  cbn. rewrite Hup. cbn.
  split; [reflexivity |]. split; [reflexivity |]. split; [reflexivity |].
  split; [reflexivity |].
  destruct (answers 0%nat _
              (WSendMessage
                 (RestartService targetPort0 (host _ DateNow)
                    (Some ("restart_" +:+ pretty (host _ DateNow) +:+ "_"
                           +:+ host _ RandomSuffix))))) as [[] | e];
    cbn; [| rewrite bool_decide_eq_true_2 by discriminate; cbn];
    eexists; repeat split.
Qed.

Lemma restart_initiates_witness :
  let host := exampleHost true 2000 in
  let answers := exampleAnswers (Normal None) (Normal false) in
  let started := sync host (restart 9999 (Some 8888) (create None None)) in
  pending started
  = Some (Waiting (WSendMessage
                     (RestartService (Some 8888) 2000
                        (Some "restart_2000_k3j9x0a1b"))))
  /\ state (fieldsOf started (create None None)) = INITIATING
  /\ exists m',
       drive host answers 0 (restart 9999 (Some 8888) (create None None))
       = Finished (Normal tt) m'
       /\ state m' = INITIATING
       /\ timers m' = [(10, TransitionTimer RESTARTING)].
Proof.
  destruct (restart_initiates (exampleHost true 2000)
              (exampleAnswers (Normal None) (Normal false)) 9999 (Some 8888)
              (create None None) eq_refl eq_refl eq_refl)
    as (Hreq & Hst & _ & _ & m' & Hrun & _ & Hm' & _ & Htm).
  split; [exact Hreq |]. split; [exact Hst |].
  exists m'. split; [exact Hrun |]. split; [exact Hm' | exact Htm].
Defined.

(** ** The Reconnecting phase without a server *)

Lemma reconnectLoop_suspends k attempt port0 max0 m ctx :
  context m = Some ctx ->
  tick (reconnectLoop (S k) attempt port0 max0 m)
  = reconnectLoop (S k) attempt port0 max0 m.
Proof.
  intros Hctx. destruct m as [st c tp sm su tm np nf]; simpl in Hctx; subst c.
  cbn [reconnectLoop]. unfold readContext, notifyListeners. run_prog.
  reflexivity.
Qed.

Lemma reconnectLoop_refused (host : Host) (answers : Answers) why port0 max0
    (handler : Error -> Prog unit) :
  (forall n, answers n _ (WConnect port0) = Throw why) ->
  forall k attempt m ctx n,
    context m = Some ctx ->
    exists n' m',
      drive host answers n
        (catchRes (reconnectLoop (S k) attempt port0 max0 m) handler)
      = drive host answers n'
          (handler (Err ("重连失败，已尝试 " +:+ pretty max0 +:+ " 次")) m')
      /\ state m' = state m
      /\ context m' = Some (ctx_set_attempts (attempt + Z.of_nat k) ctx)
      /\ timers m' = timers m
      /\ storedMachine m' = storedMachine m
      /\ storedUrl m' = storedUrl m
      /\ transitionPromise m' = transitionPromise m
      /\ nextPromise m' = nextPromise m
      /\ length (notified m') = (length (notified m) + S k)%nat.
Proof.
  intros Hrefuse. induction k as [| k IH]; intros attempt m ctx n Hctx.
  - destruct m as [st c tp sm su tm np nf]; simpl in Hctx; subst c.
    cbn [reconnectLoop]. unfold readContext, notifyListeners. run_prog. cbn.
    rewrite Hrefuse. cbn.
    destruct (attempt <? max0); cbn;
      (eexists _, _; split; [reflexivity |]; cbn;
       rewrite Z.add_0_r, length_app; cbn; repeat split; lia).
  - destruct m as [st c tp sm su tm np nf]; simpl in Hctx; subst c.
    cbn [reconnectLoop]. unfold readContext, notifyListeners. run_prog. cbn.
    rewrite Hrefuse. cbn.
    set (m1 := {| state := st;
                  context := Some (ctx_set_attempts attempt ctx);
                  transitionPromise := tp; storedMachine := sm;
                  storedUrl := su; timers := tm; nextPromise := np;
                  notified := nf ++ [(st, ctx_set_attempts attempt ctx)] |}).
    assert (Hnext : exists n' m',
              drive host answers (S n)
                (catchRes (reconnectLoop (S k) (attempt + 1) port0 max0 m1)
                   handler)
              = drive host answers n'
                  (handler (Err ("重连失败，已尝试 " +:+ pretty max0 +:+ " 次")) m')
              /\ state m' = st
              /\ context m'
                 = Some (ctx_set_attempts (attempt + Z.of_nat (S k)) ctx)
              /\ timers m' = tm
              /\ storedMachine m' = sm
              /\ storedUrl m' = su
              /\ transitionPromise m' = tp
              /\ nextPromise m' = np
              /\ length (notified m') = (length nf + S (S k))%nat).
    { destruct (IH (attempt + 1) m1 (ctx_set_attempts attempt ctx) (S n)
                  eq_refl)
        as (n' & m' & Hrun & Hs & Hc & Ht & Hsm & Hsu & Htp & Hnp & Hlen).
      exists n', m'. split; [exact Hrun |].
      repeat split; try assumption.
      - rewrite Hc. f_equal.
        replace (attempt + 1 + Z.of_nat k) with (attempt + Z.of_nat (S k))
          by lia.
        reflexivity.
      - rewrite Hlen. subst m1. cbn. rewrite length_app. cbn. lia. }
    destruct (attempt <? max0); cbn; exact Hnext.
Qed.

(** X26: The Reconnecting phase when every [connect] is refused.  After
    [maxAttempts] attempts, each announced to the listeners, the
    handler gives up with the error "重连失败，已尝试 <maxAttempts> 次";
    [doTransition] puts the machine in FAILED with that error in the
    context, whose [attempts] is [maxAttempts], and starts the timer
    that resets the machine after 3 seconds. *)
Theorem reconnecting_gives_up (host : Host) (answers : Answers) why m ctx :
  context m = Some ctx ->
  0 < maxAttempts ctx ->
  (forall n,
     answers n _ (WConnect (or_num (targetPort ctx) (currentPort ctx)))
     = Throw why) ->
  exists m',
    drive host answers 0 (doTransition RECONNECTING m) = Finished (Normal tt) m'
    /\ state m' = FAILED
    /\ context m'
       = Some (ctx_set_error
                 (Some (Err ("重连失败，已尝试 " +:+ pretty (maxAttempts ctx)
                             +:+ " 次")))
                 (ctx_set_attempts (maxAttempts ctx) ctx))
    /\ timers m' = timers m ++ [(3000, ResetTimer)]
    /\ length (notified m')
       = (length (notified m) + Z.to_nat (maxAttempts ctx) + 2)%nat.
Proof.
  intros Hctx Hpos Hrefuse.
  destruct (Z.to_nat (maxAttempts ctx)) as [| k] eqn:Hk; [lia |].
  destruct m as [st c tp sm su tm np nf]; simpl in Hctx; subst c.
  unfold doTransition, handleReconnecting, requireContext, notifyListeners,
    persistState.
  run_prog. cbn. rewrite Hk.
  match goal with
  | |- context [tick (reconnectLoop (S k) 1 ?port ?max ?m0)] =>
      rewrite (reconnectLoop_suspends k 1 port max m0 ctx eq_refl)
  end.
  match goal with
  | |- context [catchRes (reconnectLoop (S k) 1 ?port ?max ?m0) ?h] =>
      destruct (reconnectLoop_refused host answers why port max h Hrefuse
                  k 1 m0 ctx 0%nat eq_refl)
        as (n' & m' & Hrun & Hs & Hc & Ht & Hsm & Hsu & Htp & Hnp & Hlen)
  end.
  rewrite Hrun. cbn in Hs, Hc, Ht, Hsm, Hsu, Htp, Hnp, Hlen.
  destruct m' as [st' c' tp' sm' su' tm' np' nf']; simpl in *.
  subst st' c' tm' sm' su' tp' np'.
  cbn. eexists. split; [reflexivity |]. cbn.
  split; [reflexivity |].
  split; [f_equal; f_equal; f_equal; lia |].
  split; [reflexivity |].
  rewrite length_app, Hlen, length_app. cbn. lia.
Qed.

Lemma reconnecting_gives_up_witness :
  exists m',
    drive (exampleHost false 2000) (refusing (Err "连接失败")) 0
      (doTransition RECONNECTING
         (set_context (Some exampleContext) (create None None)))
    = Finished (Normal tt) m'
    /\ state m' = FAILED
    /\ context m'
       = Some (ctx_set_error (Some (Err "重连失败，已尝试 30 次"))
                 (ctx_set_attempts 30 exampleContext))
    /\ timers m' = [(3000, ResetTimer)]
    /\ length (notified m') = 32%nat.
Proof.
  apply (reconnecting_gives_up (exampleHost false 2000)
           (refusing (Err "连接失败")) (Err "连接失败")
           (set_context (Some exampleContext) (create None None))
           exampleContext).
  - reflexivity.
  - reflexivity.
  - intros n. reflexivity.
Defined.

(** ** The terminal phases and the persisted state *)



(** X28: What [persistState] writes, [restoreState] reads back within 5
    minutes of the start of the restart: the same state, and the
    same context but for the text of its error, which
    [JSON.stringify] does not keep.  A machine restored in COMPLETED
    or FAILED has no reset timer: it stays in that state, and
    [restart] rejects, until [reset()] is called. *)
Theorem persisted_state_restored (host : Host) m ctx url currentPort0 targetPort0 :
  context m = Some ctx ->
  host _ DateNow - startTime ctx <= 5 * 60 * 1000 ->
  nonTerminal (state m) = false ->
  let stored := storedMachine (fieldsOf (persistState m) m) in
  let restored :=
    set_context (Some (serialized ctx)) (set_state (state m) (create stored url)) in
  stored = Some (Blob (state m) (serialized ctx))
  /\ error (serialized ctx)
     = match error ctx with Some _ => Some (Err "") | None => None end
  /\ restoreState host (create stored url) = (true, restored, None)
  /\ timers restored = []
  /\ (state m <> IDLE ->
      restart currentPort0 targetPort0 restored
      = Done (Throw (Err ("重启已在进行中，当前状态: " +:+ stateName (state m))))
          restored).
Proof.
  intros Hctx Hfresh Hterm. cbv zeta.
  destruct m as [st c tp sm su tm np nf]; simpl in *; subst c.
  unfold persistState. run_prog. cbn.
  split; [reflexivity |]. split; [reflexivity |].
  split.
  - unfold restoreState. cbn.
    assert (Hf : (host _ DateNow - startTime ctx >? 5 * 60 * 1000) = false)
      by (rewrite Z.gtb_ltb; apply Z.ltb_ge; lia).
    rewrite Hf.
    unfold nonTerminal in Hterm. rewrite Hterm. reflexivity.
  - split; [reflexivity |]. intros Hbusy.
    unfold restart. run_prog. cbn.
    rewrite bool_decide_eq_true_2 by exact Hbusy. reflexivity.
Qed.

Lemma persisted_state_restored_witness :
  let failed :=
    ctx_set_error (Some (Err "重连失败，已尝试 30 次")) exampleContext in
  let m := set_state FAILED (set_context (Some failed) (create None None)) in
  let stored := storedMachine (fieldsOf (persistState m) m) in
  let restored :=
    set_context (Some (serialized failed)) (set_state FAILED (create stored None)) in
  stored = Some (Blob FAILED (serialized failed))
  /\ error (serialized failed) = Some (Err "")
  /\ restoreState (exampleHost true 2000) (create stored None)
     = (true, restored, None)
  /\ timers restored = []
  /\ restart 9999 None restored
     = Done (Throw (Err "重启已在进行中，当前状态: failed")) restored.
Proof.
  destruct (persisted_state_restored (exampleHost true 2000)
              (set_state FAILED
                 (set_context
                    (Some (ctx_set_error (Some (Err "重连失败，已尝试 30 次"))
                             exampleContext))
                    (create None None)))
              (ctx_set_error (Some (Err "重连失败，已尝试 30 次")) exampleContext)
              None 9999 None eq_refl)
    as (H1 & H2 & H3 & H4 & H5).
  - vm_compute. discriminate.
  - reflexivity.
  - split; [exact H1 |]. split; [exact H2 |]. split; [exact H3 |].
    split; [exact H4 |]. apply H5. discriminate.
Defined.

(** ** Failures are recorded, not thrown *)

Lemma neverThrows_bind {A B} (r : Res A) (f : A -> Prog B) :
  neverThrows r -> (forall a m, neverThrows (f a m)) ->
  neverThrows (bindRes r f).
Proof.
  intros Hr Hf. induction Hr as [a m | X c k _ IH | X w k m _ IH]; cbn.
  - apply Hf.
  - constructor. exact IH.
  - constructor. exact IH.
Qed.

Lemma neverThrows_catch {A} (r : Res A) (handler : Error -> Prog A) :
  (forall e m, neverThrows (handler e m)) -> neverThrows (catchRes r handler).
Proof.
  intros Hh. induction r as [[a | e] m | X c k IH | X w k IH m]; cbn.
  - constructor.
  - apply Hh.
  - constructor. exact IH.
  - constructor. exact IH.
Qed.

Lemma neverThrows_finally {A} (r : Res A) (f : t -> t) :
  neverThrows r -> neverThrows (finallyRes r f).
Proof.
  intros Hr. induction Hr as [a m | X c k _ IH | X w k m _ IH]; cbn;
    constructor; exact IH.
Qed.

Lemma neverThrows_atReturn {A} (r : Res A) (f : t -> t) :
  neverThrows r -> neverThrows (atReturn r f).
Proof.
  intros Hr. induction Hr as [a m | X c k _ IH | X w k m Hk _]; cbn;
    constructor; assumption.
Qed.

Lemma neverThrows_tick {A} (r : Res A) : neverThrows r -> neverThrows (tick r).
Proof.
  intros Hr. induction Hr as [a m | X c k _ IH | X w k m Hk _]; cbn.
  - constructor. intros _ m'. constructor.
  - constructor. exact IH.
  - constructor. exact Hk.
Qed.

Lemma neverThrows_drive {A} (host : Host) (answers : Answers) (r : Res A) :
  neverThrows r ->
  forall n e m', drive host answers n r <> Finished (Throw e) m'.
Proof.
  intros Hr. induction Hr as [a m | X c k _ IH | X w k m _ IH];
    intros n e m'; cbn.
  - discriminate.
  - apply IH.
  - destruct w; cbn; try apply IH; discriminate.
Qed.

Lemma doTransition_neverThrows s m : neverThrows (doTransition s m).
Proof.
  unfold doTransition, notifyListeners, persistState, setTimeout.
  run_prog. apply neverThrows_catch. intros e m0.
  destruct (bool_decide (s ≠ FAILED)); cbn; constructor.
Qed.

Lemma transition_neverThrows s m : neverThrows (transition s m).
Proof.
  assert (Hstart : forall m0, neverThrows (startTransition s m0)).
  { intros m0. unfold startTransition. cbv zeta.
    apply neverThrows_finally, neverThrows_tick, neverThrows_atReturn.
    apply doTransition_neverThrows. }
  unfold transition. run_prog. cbn.
  destruct (transitionPromise m) as [running |]; cbn.
  - constructor. intros _ m'. apply Hstart.
  - apply Hstart.
Qed.

(** X29: No failure of a restart comes out as a rejected promise.
    [transition] and the timer callbacks never throw, and [restart]
    on an idle machine never throws either, whatever the connection
    manager and the health checker do: [doTransition] catches what a
    phase handler throws and records it in the state and the
    context.  The one rejection of [restart] is that of its guard, on
    a machine that is not idle. *)
Theorem failures_are_not_thrown (host : Host) (answers : Answers) n m e m' :
  (forall s, drive host answers n (transition s m) <> Finished (Throw e) m')
  /\ (forall action,
        drive host answers n (timerCallback action m) <> Finished (Throw e) m')
  /\ (forall currentPort0 targetPort0,
        drive host answers n
          (restart currentPort0 targetPort0 (set_state IDLE m))
        <> Finished (Throw e) m').
Proof.
  split; [| split].
  - intros s. apply neverThrows_drive, transition_neverThrows.
  - intros [| s]; apply neverThrows_drive.
    + unfold timerCallback, reset, clearPersistedState. run_prog. constructor.
    + unfold timerCallback. run_prog. apply neverThrows_tick.
      apply transition_neverThrows.
  - intros currentPort0 targetPort0. apply neverThrows_drive.
    destruct m as [st c tp sm su tm np nf].
    unfold restart, generateRestartId, persistState. run_prog.
    cbn -[transition].
    rewrite bool_decide_eq_false_2 by (intros Hn; apply Hn; reflexivity).
    constructor. intros now. constructor. intros now'. constructor.
    intros suffix. apply neverThrows_tick, transition_neverThrows.
Qed.

End RestartStateMachineProofs.

Module ConnectionManagerProofs.
Import JS ConnectionManager.

(** Normalisation of field reads and writes. *)
Ltac fields :=
  cbv [currentConnection connectionState messageHandlers pendingMessages
       config currentPort reconnectAttempts reconnectTimer sockets timers
       nextTimer nextPromise awaited settled waits removed constructed
       set_currentConnection set_connectionState set_messageHandlers
       set_pendingMessages set_currentPort set_reconnectAttempts
       set_reconnectTimer set_sockets set_timers set_nextTimer
       set_nextPromise set_awaited set_settled set_waits set_removed
       set_constructed fst snd andb negb].

Ltac dec_refl :=
  repeat match goal with
  | |- context [@decide (?x = ?x) ?i] =>
      let e := fresh in
      let n := fresh in
      destruct (@decide (x = x) i) as [e | n]; [clear e | contradiction]
  end.

(** C9: when the manager is connected (state CONNECTED, current
    socket open) to port [port0], [connect(port0)] returns that
    socket as the live handle and changes nothing: no socket is
    constructed, the state and the reconnect counter stay as they
    are, as does every other field. *)
Theorem connect_idempotent_when_connected w port0 constructs :
  isConnected w = true ->
  currentPort w = Some port0 ->
  exists s,
    currentConnection w = Some s
    /\ readyStateOf s w = Some WS_OPEN
    /\ connect port0 constructs w = (Live s, w).
Proof.
  intros Hconn Hport. unfold connect. rewrite Hconn, Hport.
  rewrite bool_decide_eq_true_2 by reflexivity. cbv beta iota.
  unfold isConnected in Hconn. apply andb_true_iff in Hconn as [_ Hopen].
  destruct (currentConnection w) as [s |]; [| discriminate].
  exists s. apply bool_decide_eq_true_1 in Hopen. auto.
Qed.

Lemma connect_idempotent_when_connected_witness :
  let w := run (create DEFAULT_CONFIG) [Connect 9999 true; SocketOpens 0%nat] in
  exists s,
    currentConnection w = Some s
    /\ readyStateOf s w = Some WS_OPEN
    /\ connect 9999 true w = (Live s, w).
Proof.
  apply (connect_idempotent_when_connected
           (run (create DEFAULT_CONFIG) [Connect 9999 true; SocketOpens 0%nat])
           9999 true); vm_compute; reflexivity.
Defined.

(** C2 (the code at the failing input): [waitForMessage("nonexistent",
    100)] on a connected manager, no message arriving, the timeout
    timer (handle 1) firing.  The promise is rejected with the
    timeout error, the pending entry and the timer are gone, but the
    one-shot handler is still registered for "nonexistent" and is
    counted by [getConnectionStats]. *)
Theorem waitForMessage_timeout_keeps_handler :
  let w := run (create DEFAULT_CONFIG)
             [Connect 9999 true; SocketOpens 0%nat;
              WaitForMessage "nonexistent" (Some 100) 1000 42;
              TimerFires 1%nat true] in
  (1%nat, Rejected (MessageTimeout "nonexistent" 100)) ∈ settled w
  /\ pendingMessages w = []
  /\ timers w = []
  /\ messageHandlers w
     = [("nonexistent",
         [OneShot "nonexistent" ("nonexistent", 1000, 42) 1%nat])]
  /\ messageHandlerCount (getConnectionStats w) = 1%nat.
Proof.
  cbv zeta. split.
  - vm_compute. apply list_elem_of_In. right. left. reflexivity.
  - repeat split; vm_compute; reflexivity.
Qed.

Lemma retrying_initially : retrying afterUnexpectedClose.
Proof.
  unfold retrying.
  repeat split; try (vm_compute; reflexivity).
  - vm_compute. eauto.
  - intros p. vm_compute. intros Hp.
    apply list_elem_of_singleton in Hp. subst. lia.
  - vm_compute. discriminate.
Qed.

Lemma disconnect_idle cc cs mh cfg cp ra h so tm nt np aw se wa re co :
  match cc with
  | Some s => readyState <$> so !! s <> Some WS_OPEN
  | None => True
  end ->
  disconnect
    {| currentConnection := cc; connectionState := cs; messageHandlers := mh;
       pendingMessages := []; config := cfg; currentPort := cp;
       reconnectAttempts := ra; reconnectTimer := Some h; sockets := so;
       timers := tm; nextTimer := nt; nextPromise := np;
       awaited := aw; settled := se; waits := wa; removed := re;
       constructed := co |}
  = {| currentConnection := None; connectionState := DISCONNECTED;
       messageHandlers := mh;
       pendingMessages := []; config := cfg; currentPort := None;
       reconnectAttempts := 0; reconnectTimer := None; sockets := so;
       timers := assoc_delete h tm; nextTimer := nt; nextPromise := np;
       awaited := aw; settled := se; waits := wa; removed := re ++ [];
       constructed := co |}.
Proof.
  intros Hcur. unfold disconnect, clearTimeout. fields. cbn [rejectAll].
  fields. destruct cc as [s |]; [| reflexivity].
  unfold readyStateOf. fields.
  rewrite bool_decide_eq_false_2 by exact Hcur. reflexivity.
Qed.

Lemma connect_construct_fails port0 cc mh cfg cp ra h so nt np se wa re co :
  match cc with
  | Some s => readyState <$> so !! s <> Some WS_OPEN
  | None => True
  end ->
  np ∉ se.*1 ->
  connect port0 false
    {| currentConnection := cc; connectionState := RECONNECTING;
       messageHandlers := mh;
       pendingMessages := []; config := cfg; currentPort := cp;
       reconnectAttempts := ra; reconnectTimer := Some h; sockets := so;
       timers := []; nextTimer := nt; nextPromise := np;
       awaited := []; settled := se; waits := wa; removed := re;
       constructed := co |}
  = (Attempt np,
     {| currentConnection := None; connectionState := FAILED;
        messageHandlers := mh;
        pendingMessages := []; config := cfg; currentPort := Some port0;
        reconnectAttempts := 0; reconnectTimer := None; sockets := so;
        timers := []; nextTimer := S nt; nextPromise := S np;
        awaited := [];
        settled := se ++ [(np, Rejected (ConstructFailure port0))];
        waits := wa; removed := re ++ [];
        constructed := co ++ [(port0, false)] |}).
Proof.
  intros Hcur Hfresh. unfold connect, isConnected. fields.
  rewrite bool_decide_eq_false_2 by discriminate. fields.
  rewrite (disconnect_idle _ _ _ _ _ _ _ _ _ _ _ _ _ _ _ _ Hcur). fields.
  unfold newPromise. fields. unfold setTimeout. fields.
  unfold clearTimeout. fields. cbn [app assoc_delete]. dec_refl.
  unfold reject, isSettled. fields.
  rewrite (bool_decide_eq_false_2 _ Hfresh). fields.
  reflexivity.
Qed.

Lemma handleUnexpectedDisconnect_below cc cs mh pm cfg cp ra rt so tm nt np
    aw se wa re co :
  ra < maxReconnectAttempts cfg ->
  handleUnexpectedDisconnect
    {| currentConnection := cc; connectionState := cs;
       messageHandlers := mh;
       pendingMessages := pm; config := cfg; currentPort := cp;
       reconnectAttempts := ra; reconnectTimer := rt; sockets := so;
       timers := tm; nextTimer := nt; nextPromise := np;
       awaited := aw; settled := se; waits := wa; removed := re;
       constructed := co |}
  = {| currentConnection := cc; connectionState := RECONNECTING;
       messageHandlers := mh;
       pendingMessages := pm; config := cfg; currentPort := cp;
       reconnectAttempts := ra + 1; reconnectTimer := Some nt; sockets := so;
       timers := tm ++ [(nt, ReconnectFired)]; nextTimer := S nt;
       nextPromise := np;
       awaited := aw; settled := se; waits := wa; removed := re;
       constructed := co |}.
Proof.
  intros Hlt. unfold handleUnexpectedDisconnect. 
  cbn [reconnectAttempts config].
  destruct (Z.geb_spec ra (maxReconnectAttempts cfg)) as [Hge | _]; [lia |].
  unfold setTimeout. fields. reflexivity.
Qed.

Lemma retryFails_retrying w :
  retrying w ->
  retrying (retryFails w)
  /\ constructed (retryFails w) = constructed w ++ [(9999, false)].
Proof.
  intros (Hst & Hport & Hatt & Hmax & Hpend & Haw & (h & Hrt & Htm)
          & Hset & Hcur).
  destruct w as [cc cs mh pm cfg cp ra rt so tm nt np aw se wa re co].
  cbn [currentConnection connectionState pendingMessages config currentPort
       reconnectAttempts reconnectTimer timers nextPromise awaited settled]
    in *.
  subst.
  assert (Hfresh : np ∉ se.*1).
  { intros Hin. apply Hset in Hin. lia. }
  unfold readyStateOf in Hcur. cbn [sockets] in Hcur.
  unfold retryFails. cbn [reconnectTimer]. unfold step. cbn [timers assoc_get].
  dec_refl. unfold fire, clearTimeout. cbn [timers assoc_delete set_timers].
  dec_refl. fields.
  unfold reconnectCallback. cbn [currentPort connectionState truthy_num].
  rewrite bool_decide_eq_true_2 by reflexivity. cbn [negb Z.eqb andb]. fields.
  rewrite (connect_construct_fails _ _ _ _ _ _ _ _ _ _ _ _ _ _ Hcur Hfresh).
  unfold isSettled. cbn [settled].
  rewrite bool_decide_eq_true_2 by (rewrite fmap_app; set_solver).
  rewrite handleUnexpectedDisconnect_below by lia.
  unfold retrying. fields. repeat split; eauto.
  intros p. rewrite fmap_app, elem_of_app. intros [Hp | Hp].
  - apply Hset in Hp. lia.
  - apply list_elem_of_singleton in Hp. simpl in Hp. lia.
Qed.

(** C4 (the code at the failing input): with the ceiling at 2, after
    a connect, an open and an unexpected close, let every reconnect
    fail because [new WebSocket(url)] throws.  After any number [n]
    of such failed reconnects the manager has constructed [n + 1]
    sockets in all, its state is RECONNECTING and not FAILED, its
    counter stands at 1, and the next reconnect timer is running:
    [connect] calls [disconnect], which resets the counter, so the
    ceiling is never reached. *)
Theorem reconnect_attempts_unbounded n :
  let w := Nat.iter n retryFails afterUnexpectedClose in
  connectionState w = RECONNECTING
  /\ reconnectAttempts w = 1
  /\ maxReconnectAttempts (config w) = 2
  /\ length (constructed w) = S n
  /\ exists h, reconnectTimer w = Some h /\ timers w = [(h, ReconnectFired)].
Proof.
  cbv zeta.
  assert (H : retrying (Nat.iter n retryFails afterUnexpectedClose)
              /\ length (constructed
                           (Nat.iter n retryFails afterUnexpectedClose))
                 = S n).
  { induction n as [| n [IH1 IH2]].
    - split; [apply retrying_initially | reflexivity].
    - change (Nat.iter (S n) retryFails afterUnexpectedClose)
        with (retryFails (Nat.iter n retryFails afterUnexpectedClose)).
      destruct (retryFails_retrying _ IH1) as [Hs Hc].
      split; [exact Hs |]. rewrite Hc, length_app, IH2. simpl. lia. }
  destruct H as [(H1 & H2 & H3 & H4 & _ & _ & H7 & _) Hlen]. auto.
Qed.

(** ** Association lists *)

Section AssocFacts.
Context {K V : Type} `{EqDecision K}.
Implicit Types (m : list (K * V)) (k : K) (v : V).

Lemma elem_of_assoc_delete k k' v m :
  (k', v) ∈ assoc_delete k m <-> (k', v) ∈ m /\ k' <> k.
Proof.
  induction m as [| [k0 v0] m IH]; simpl.
  - split; [intros H0; inversion H0 | intros [H0 _]; inversion H0].
  - destruct (decide (k = k0)) as [-> | Hne].
    + rewrite IH, elem_of_cons. split.
      * intros [Hin Hk]. split; [right; exact Hin | exact Hk].
      * intros [[Heq | Hin] Hk]; [congruence | auto].
    + rewrite !elem_of_cons, IH. split.
      * intros [Heq | [Hin Hk]]; [| auto].
        inversion Heq; subst. split; [left; reflexivity | congruence].
      * intros [[Heq | Hin] Hk]; [left; exact Heq | right; auto].
Qed.

Lemma assoc_delete_keys k m :
  forall k', k' ∈ (assoc_delete k m).*1 <-> k' ∈ m.*1 /\ k' <> k.
Proof.
  intros k'. rewrite !list_elem_of_fmap. split.
  - intros ([k0 v0] & -> & Hin). apply elem_of_assoc_delete in Hin as [Hin Hk].
    split; [exists (k0, v0); auto | exact Hk].
  - intros (([k0 v0] & -> & Hin) & Hk).
    exists (k0, v0). split; [reflexivity |].
    apply elem_of_assoc_delete. auto.
Qed.

Lemma assoc_delete_nodup k m : NoDup m.*1 -> NoDup (assoc_delete k m).*1.
Proof.
  induction m as [| [k0 v0] m IH]; simpl; [auto |].
  rewrite NoDup_cons. intros [Hnin Hnd].
  destruct (decide (k = k0)); [auto |].
  simpl. apply NoDup_cons. split; [| auto].
  intros Hin. apply assoc_delete_keys in Hin as [Hin _]. contradiction.
Qed.

Lemma assoc_get_elem_of k v m : assoc_get k m = Some v -> (k, v) ∈ m.
Proof.
  induction m as [| [k0 v0] m IH]; simpl; [discriminate |].
  destruct (decide (k = k0)) as [-> | Hne].
  - intros [= ->]. left.
  - intros Hget. right. auto.
Qed.

Lemma assoc_get_None k m : assoc_get k m = None <-> k ∉ m.*1.
Proof.
  induction m as [| [k0 v0] m IH]; simpl.
  - split; [intros _; apply not_elem_of_nil | reflexivity].
  - destruct (decide (k = k0)) as [-> | Hne].
    + split; [discriminate | intros Hnin; exfalso; apply Hnin; left].
    + rewrite IH, not_elem_of_cons. tauto.
Qed.

Lemma assoc_get_unique k v m : NoDup m.*1 -> (k, v) ∈ m -> assoc_get k m = Some v.
Proof.
  induction m as [| [k0 v0] m IH]; simpl; [intros _ H0; inversion H0 |].
  rewrite NoDup_cons, elem_of_cons. intros [Hnin Hnd] [Heq | Hin].
  - inversion Heq; subst. rewrite decide_True by reflexivity. reflexivity.
  - destruct (decide (k = k0)) as [-> | Hne]; [| auto].
    exfalso. apply Hnin. apply list_elem_of_fmap. exists (k0, v). auto.
Qed.

Lemma assoc_set_fresh k v m : k ∉ m.*1 -> assoc_set k v m = m ++ [(k, v)].
Proof.
  induction m as [| [k0 v0] m IH]; simpl; [reflexivity |].
  rewrite not_elem_of_cons. intros [Hne Hnin].
  rewrite decide_False by exact Hne. rewrite IH by exact Hnin. reflexivity.
Qed.

Lemma elem_of_assoc_set k v k' v' m :
  (k', v') ∈ assoc_set k v m -> (k', v') = (k, v) \/ (k', v') ∈ m.
Proof.
  induction m as [| [k0 v0] m IH]; simpl.
  - intros Hin. apply list_elem_of_singleton in Hin. auto.
  - destruct (decide (k = k0)) as [-> | Hne]; rewrite !elem_of_cons.
    + intros [Heq | Hin]; auto.
    + intros [Heq | Hin]; [auto |]. destruct (IH Hin); auto.
Qed.

End AssocFacts.

Lemma elem_of_set_delete {A} `{EqDecision A} (x y : A) l :
  y ∈ set_delete x l -> y ∈ l.
Proof.
  induction l as [| z l IH]; simpl; [auto |].
  destruct (decide (x = z)); rewrite ?elem_of_cons; [auto |].
  intros [Heq | Hin]; auto.
Qed.

Lemma elem_of_set_add {A} `{EqDecision A} (x y : A) l :
  y ∈ set_add x l -> y = x \/ y ∈ l.
Proof.
  unfold set_add. destruct (decide (x ∈ l)); [auto |].
  rewrite elem_of_app, list_elem_of_singleton. tauto.
Qed.

(** ** Steps that leave the bookkeeping alone *)

Lemma calls_app p w extra :
  length (filter (fun x : Promise * Settlement => x.1 = p) (settled w ++ extra))
  = (calls p w + length (filter (fun x : Promise * Settlement => x.1 = p) extra))%nat.
Proof. unfold calls. rewrite filter_app, length_app. reflexivity. Qed.

Lemma filter_none {A} (P : A -> Prop) `{forall x, Decision (P x)} (l : list A) :
  (forall x, x ∈ l -> ~ P x) -> filter P l = [].
Proof.
  induction l as [| a l IH]; intros Hall; [reflexivity |].
  rewrite filter_cons. destruct (decide (P a)) as [Hp | _].
  - exfalso. apply (Hall a); [left | exact Hp].
  - apply IH. intros x Hx. apply Hall. right. exact Hx.
Qed.

Lemma quiet_refl w : quiet w w.
Proof.
  constructor; auto.
  - exists []. rewrite app_nil_r. split; [reflexivity |].
    intros p x Hin. inversion Hin.
  - eauto.
Qed.

Lemma quiet_trans w1 w2 w3 : quiet w1 w2 -> quiet w2 w3 -> quiet w1 w3.
Proof.
  intros [P1 W1 R1 N1 (e1 & S1 & E1) T1 K1 H1] [P2 W2 R2 N2 (e2 & S2 & E2) T2 K2 H2].
  constructor.
  - congruence.
  - congruence.
  - congruence.
  - lia.
  - exists (e1 ++ e2). split; [rewrite S2, S1, app_assoc; reflexivity |].
    intros p x Hin. apply elem_of_app in Hin as [Hin | Hin].
    + destruct (E1 _ _ Hin). split; [lia | auto].
    + destruct (E2 _ _ Hin). rewrite W1 in *. auto.
  - intros h a Hin. destruct (T2 _ _ Hin) as [Hold | [Hr | (p & port & -> & Hp & Hw)]].
    + destruct (T1 _ _ Hold) as [Hold' | [Hr | (p & port & -> & Hp & Hw)]]; auto.
      right. right. exists p, port. split; [reflexivity |]. split; [lia | auto].
    + auto.
    + right. right. exists p, port. rewrite W1 in Hw. auto.
  - intros p Hin. destruct (K2 _ Hin) as [Hold | [Hp Hw]].
    + destruct (K1 _ Hold) as [Hold' | [Hp Hw]]; [auto |].
      right. split; [lia | auto].
    + right. rewrite W1 in Hw. auto.
  - intros ty hs ty' id p Hin Hos.
    destruct (H2 _ _ _ _ _ Hin Hos) as (ty0 & hs0 & Hin0 & Hos0).
    eapply H1; eauto.
Qed.

Lemma consistent_quiet w w' : consistent w -> quiet w w' -> consistent w'.
Proof.
  intros [C1 C2 C3 C4 C5 C6 C7 C8 C9 C10 C11 C12]
         [QP QW QR QN (extra & QS & QE) QT QK QH].
  constructor; rewrite ?QP, ?QW, ?QR.
  - exact C1.
  - exact C2.
  - intros h id ty ms p Hin.
    destruct (QT _ _ Hin) as [Hold | [Hr | (p' & port & Hc & _)]];
      [eauto | discriminate | discriminate].
  - intros p id Hin. specialize (C4 _ _ Hin). lia.
  - intros p x. rewrite QS, elem_of_app. intros [Hin | Hin].
    + specialize (C5 _ _ Hin). lia.
    + apply (QE _ _ Hin).
  - exact C6.
  - exact C7.
  - intros ty hs ty' id p Hin Hos.
    destruct (QH _ _ _ _ _ Hin Hos) as (ty0 & hs0 & Hin0 & Hos0). eauto.
  - intros p Hin. destruct (QK _ Hin) as [Hold | Hnew]; [| exact Hnew].
    destruct (C9 _ Hold). split; [lia | auto].
  - intros h p port Hin.
    destruct (QT _ _ Hin) as [Hold | [Hr | (p' & port' & Hc & Hp & Hw)]].
    + destruct (C10 _ _ _ Hold). split; [lia | auto].
    + discriminate.
    + inversion Hc; subst. auto.
  - exact C11.
  - intros p id Hin. specialize (C12 _ _ Hin).
    assert (Hcalls : calls p w' = calls p w).
    { unfold calls at 1. rewrite QS, calls_app.
      rewrite (filter_none _ extra); [simpl; lia |].
      intros [p' x] Hx Heq. simpl in Heq. subst p'.
      destruct (QE _ _ Hx) as [_ Hw]. apply Hw.
      apply list_elem_of_fmap. exists (p, id). auto. }
    unfold once, removals in *. rewrite QP, QR, Hcalls. exact C12.
Qed.

Ltac quiet_same w :=
  destruct w; constructor; unfold socketPromises; fields;
  [ reflexivity | reflexivity | reflexivity | lia
  | exists []; rewrite app_nil_r; split;
    [reflexivity | intros ? ? Hnil; inversion Hnil]
  | auto | auto | eauto ].

Lemma quiet_set_connectionState v w : quiet w (set_connectionState v w).
Proof. quiet_same w. Qed.

Lemma quiet_set_currentPort v w : quiet w (set_currentPort v w).
Proof. quiet_same w. Qed.

Lemma quiet_set_reconnectAttempts v w : quiet w (set_reconnectAttempts v w).
Proof. quiet_same w. Qed.

Lemma quiet_set_currentConnection v w : quiet w (set_currentConnection v w).
Proof. quiet_same w. Qed.

Lemma quiet_set_awaited v w : quiet w (set_awaited v w).
Proof. quiet_same w. Qed.

Lemma quiet_set_constructed v w : quiet w (set_constructed v w).
Proof. quiet_same w. Qed.

Lemma quiet_set_reconnectTimer v w : quiet w (set_reconnectTimer v w).
Proof. quiet_same w. Qed.

Lemma quiet_timers w w' :
  pendingMessages w' = pendingMessages w ->
  waits w' = waits w ->
  removed w' = removed w ->
  nextPromise w' = nextPromise w ->
  settled w' = settled w ->
  sockets w' = sockets w ->
  messageHandlers w' = messageHandlers w ->
  (forall h a, (h, a) ∈ timers w' ->
     (h, a) ∈ timers w \/ a = ReconnectFired
     \/ exists p port, a = ConnectTimeoutFired p port
          /\ (p < nextPromise w)%nat /\ p ∉ (waits w).*1) ->
  quiet w w'.
Proof.
  intros HP HW HR HN HS HK HH HT. constructor; auto.
  - lia.
  - exists []. rewrite app_nil_r. split; [exact HS |].
    intros ? ? Hnil. inversion Hnil.
  - rewrite HN. exact HT.
  - unfold socketPromises. rewrite HK. auto.
  - rewrite HH. eauto.
Qed.

Lemma quiet_clearTimeout h w : quiet w (clearTimeout h w).
Proof.
  apply quiet_timers; try reflexivity.
  intros h' a Hin. left. unfold clearTimeout in Hin.
  destruct w; fields. revert Hin. cbv [timers set_timers].
  intros Hin. apply elem_of_assoc_delete in Hin as [Hin _]. exact Hin.
Qed.

Lemma quiet_setTimeout_reconnect w : quiet w (setTimeout ReconnectFired w).2.
Proof.
  apply quiet_timers; try reflexivity.
  intros h a. destruct w. unfold setTimeout. fields.
  rewrite elem_of_app, list_elem_of_singleton.
  intros [Hin | [= _ ->]]; auto.
Qed.

Lemma quiet_setTimeout_connect p port w :
  (p < nextPromise w)%nat -> p ∉ (waits w).*1 ->
  quiet w (setTimeout (ConnectTimeoutFired p port) w).2.
Proof.
  intros Hp Hw. apply quiet_timers; try reflexivity.
  intros h a. destruct w. revert Hp Hw. unfold setTimeout. fields.
  intros Hp Hw. rewrite elem_of_app, list_elem_of_singleton.
  intros [Hin | [= _ ->]]; [auto |]. right. right. eauto.
Qed.

Lemma quiet_newPromise w : quiet w (newPromise w).2.
Proof.
  destruct w. unfold newPromise. constructor; unfold socketPromises; fields;
    try reflexivity; eauto.
  - exists []. rewrite app_nil_r. split; [reflexivity |].
    intros ? ? Hnil. inversion Hnil.
Qed.

Lemma quiet_settle p x w :
  (p < nextPromise w)%nat -> p ∉ (waits w).*1 ->
  quiet w (set_settled (settled w ++ [(p, x)]) w).
Proof.
  intros Hp Hw. destruct w. revert Hp Hw.
  constructor; unfold socketPromises; fields; try reflexivity; eauto.
  exists [(p, x)]. split; [reflexivity |].
  intros p' x' Hin. apply list_elem_of_singleton in Hin. inversion Hin; subst.
  revert Hp Hw. fields. auto.
Qed.

Lemma quiet_resolve p v w :
  (p < nextPromise w)%nat -> p ∉ (waits w).*1 -> quiet w (resolve p v w).
Proof. apply quiet_settle. Qed.

Lemma quiet_handleUnexpectedDisconnect w :
  quiet w (handleUnexpectedDisconnect w).
Proof.
  unfold handleUnexpectedDisconnect.
  destruct (reconnectAttempts w >=? maxReconnectAttempts (config w)).
  - apply quiet_set_connectionState.
  - set (w1 := set_reconnectAttempts
                  (reconnectAttempts (set_connectionState RECONNECTING w) + 1)
                  (set_connectionState RECONNECTING w)).
    change (quiet w (set_reconnectTimer
                       (Some (setTimeout ReconnectFired w1).1)
                       (setTimeout ReconnectFired w1).2)).
    eapply quiet_trans; [| apply quiet_set_reconnectTimer].
    eapply quiet_trans; [| apply quiet_setTimeout_reconnect].
    eapply quiet_trans; [| apply quiet_set_reconnectAttempts].
    apply quiet_set_connectionState.
Qed.

Lemma quiet_reject p e w :
  (p < nextPromise w)%nat -> p ∉ (waits w).*1 -> quiet w (reject p e w).
Proof.
  intros Hp Hw. unfold reject. cbv zeta.
  pose proof (quiet_settle p (Rejected e) w Hp Hw) as Hq.
  match goal with |- context [if ?c then _ else _] => destruct c end;
    [| exact Hq].
  eapply quiet_trans; [exact Hq |]. apply quiet_handleUnexpectedDisconnect.
Qed.

Lemma quiet_sockets w so :
  ws_promise <$> so = ws_promise <$> sockets w ->
  quiet w (set_sockets so w).
Proof.
  intros Hso. destruct w. revert Hso.
  constructor; unfold socketPromises; fields; try reflexivity; eauto.
  - exists []. rewrite app_nil_r. split; [reflexivity |].
    intros ? ? Hnil. inversion Hnil.
  - revert Hso. fields. intros ->. auto.
Qed.

Lemma quiet_updateSocket s f w :
  (forall ws, ws_promise (f ws) = ws_promise ws) ->
  quiet w (updateSocket s f w).
Proof.
  intros Hf. unfold updateSocket.
  destruct (sockets w !! s) as [ws |] eqn:Hs; [| apply quiet_refl].
  apply quiet_sockets. rewrite list_fmap_insert, Hf.
  apply list_insert_id. rewrite list_lookup_fmap.
  unfold Socket in *. rewrite Hs. reflexivity.
Qed.

Lemma quiet_close s w : quiet w (close s w).
Proof.
  apply quiet_updateSocket. intros ws. destruct (readyState ws); reflexivity.
Qed.

Lemma quiet_addSocket ws w :
  (ws_promise ws < nextPromise w)%nat -> ws_promise ws ∉ (waits w).*1 ->
  quiet w (set_sockets (sockets w ++ [ws]) w).
Proof.
  intros Hp Hw. destruct w. revert Hp Hw.
  constructor; unfold socketPromises; fields; try reflexivity; eauto.
  - exists []. rewrite app_nil_r. split; [reflexivity |].
    intros ? ? Hnil. inversion Hnil.
  - intros p. rewrite fmap_app, elem_of_app. cbn [fmap list_fmap].
    rewrite list_elem_of_singleton.
    intros [Hin | ->]; [auto |]. right. revert Hp Hw. fields. auto.
Qed.

Lemma quiet_handlers w mh :
  (forall ty hs ty' id p,
     (ty, hs) ∈ mh -> OneShot ty' id p ∈ hs ->
     exists ty0 hs0, (ty0, hs0) ∈ messageHandlers w /\ OneShot ty' id p ∈ hs0) ->
  quiet w (set_messageHandlers mh w).
Proof.
  intros Hmh. destruct w. revert Hmh.
  constructor; unfold socketPromises; fields; try reflexivity; eauto.
  exists []. rewrite app_nil_r. split; [reflexivity |].
  intros ? ? Hnil. inversion Hnil.
Qed.

Lemma quiet_addExternal ty callback w :
  quiet w (addMessageHandler ty (External callback) w).
Proof.
  unfold addMessageHandler. apply quiet_handlers.
  intros ty1 hs ty' id p Hin Hos.
  apply elem_of_assoc_set in Hin as [Heq | Hin]; [| eauto].
  inversion Heq; subst.
  apply elem_of_set_add in Hos as [Hos | Hos]; [discriminate |].
  destruct (assoc_get ty (messageHandlers w)) as [hs0 |] eqn:Hget.
  - exists ty, hs0. split; [apply assoc_get_elem_of; exact Hget | exact Hos].
  - inversion Hos.
Qed.

Lemma quiet_removeMessageHandler ty handler w :
  quiet w (removeMessageHandler ty handler w).
Proof.
  unfold removeMessageHandler.
  destruct (assoc_get ty (messageHandlers w)) as [hs0 |] eqn:Hget;
    [| apply quiet_refl].
  destruct (bool_decide (set_delete handler hs0 = [])).
  - apply quiet_handlers. intros ty1 hs ty' id p Hin Hos.
    apply elem_of_assoc_delete in Hin as [Hin _]. eauto.
  - apply quiet_handlers. intros ty1 hs ty' id p Hin Hos.
    apply elem_of_assoc_set in Hin as [Heq | Hin]; [| eauto].
    inversion Heq; subst. apply elem_of_set_delete in Hos.
    exists ty, hs0. split; [apply assoc_get_elem_of; exact Hget | exact Hos].
Qed.

Lemma quiet_removeAllMessageHandlers ty w :
  quiet w (removeAllMessageHandlers ty w).
Proof.
  unfold removeAllMessageHandlers.
  assert (Hnil : quiet w (set_messageHandlers [] w)).
  { apply quiet_handlers. intros ? ? ? ? ? Hin. inversion Hin. }
  destruct ty as [ty |]; [| exact Hnil].
  destruct (bool_decide (ty = "")); [exact Hnil |].
  apply quiet_handlers. intros ty1 hs ty' id p Hin Hos.
  apply elem_of_assoc_delete in Hin as [Hin _]. eauto.
Qed.

(** ** What [disconnect] does to the bookkeeping *)


Lemma unchanged_refl w : unchanged w w.
Proof. constructor; auto. Qed.

Lemma unchanged_trans w1 w2 w3 :
  unchanged w1 w2 -> unchanged w2 w3 -> unchanged w1 w3.
Proof.
  intros [P1 W1 R1 H1 N1 K1 T1] [P2 W2 R2 H2 N2 K2 T2].
  constructor; try congruence.
  intros h a Hin. destruct (T2 _ _ Hin) as [-> | Hin']; auto.
Qed.

Lemma unchanged_handleUnexpectedDisconnect w :
  unchanged w (handleUnexpectedDisconnect w)
  /\ settled (handleUnexpectedDisconnect w) = settled w.
Proof.
  unfold handleUnexpectedDisconnect.
  destruct (reconnectAttempts w >=? maxReconnectAttempts (config w)).
  - destruct w. split; [constructor |]; unfold socketPromises; fields; auto.
  - destruct w. unfold setTimeout.
    split; [constructor |]; unfold socketPromises; fields; auto.
    intros h a. rewrite elem_of_app, list_elem_of_singleton.
    intros [Hin | [= _ ->]]; auto.
Qed.

Lemma unchanged_reject p e w :
  unchanged w (reject p e w)
  /\ settled (reject p e w) = settled w ++ [(p, Rejected e)].
Proof.
  unfold reject. cbv zeta.
  set (w1 := set_settled (settled w ++ [(p, Rejected e)]) w).
  assert (H1 : unchanged w w1
               /\ settled w1 = settled w ++ [(p, Rejected e)]).
  { subst w1. destruct w.
    split; [constructor |]; unfold socketPromises; fields; auto. }
  match goal with |- context [if ?c then _ else _] => destruct c end;
    [| exact H1].
  destruct H1 as [U1 S1].
  destruct (unchanged_handleUnexpectedDisconnect w1) as [U2 S2].
  split; [eapply unchanged_trans; eauto | congruence].
Qed.

Lemma unchanged_clearTimeout h w :
  unchanged w (clearTimeout h w)
  /\ settled (clearTimeout h w) = settled w
  /\ forall h' a, (h', a) ∈ timers (clearTimeout h w) ->
       (h', a) ∈ timers w /\ h' <> h.
Proof.
  destruct w. unfold clearTimeout.
  split; [constructor | split]; unfold socketPromises; fields; auto.
  - intros h' a Hin. apply elem_of_assoc_delete in Hin as [Hin _]. auto.
  - intros h' a Hin. apply elem_of_assoc_delete in Hin. exact Hin.
Qed.


Lemma rejectAll_fields entries w :
  unchanged w (rejectAll entries w)
  /\ settled (rejectAll entries w) = settled w ++ rejections entries
  /\ forall h a, (h, a) ∈ timers (rejectAll entries w) ->
       a = ReconnectFired
       \/ ((h, a) ∈ timers w /\ forall x, x ∈ entries -> h <> timer x.2).
Proof.
  revert w. induction entries as [| [id entry] entries IH]; intros w.
  - simpl. unfold rejections. rewrite app_nil_r.
    split; [apply unchanged_refl | split; [reflexivity |]].
    intros h a Hin. right. split; [exact Hin |]. intros x Hx. inversion Hx.
  - cbn [rejectAll].
    destruct (unchanged_clearTimeout (timer entry) w) as (U1 & S1 & T1).
    set (w1 := clearTimeout (timer entry) w) in *.
    destruct (unchanged_reject (promise entry) ConnectionClosed w1) as (U2 & S2).
    set (w2 := reject (promise entry) ConnectionClosed w1) in *.
    destruct (IH w2) as (U3 & S3 & T3).
    split; [| split].
    + eapply unchanged_trans; [| exact U3].
      eapply unchanged_trans; eauto.
    + rewrite S3, S2, S1. unfold rejections. rewrite fmap_cons.
      rewrite <- app_assoc. reflexivity.
    + intros h a Hin. destruct (T3 _ _ Hin) as [-> | [Hin2 Hne]]; [auto |].
      destruct (u_timers _ _ U2 _ _ Hin2) as [-> | Hin1]; [auto |].
      destruct (T1 _ _ Hin1) as [Hin0 Hne0].
      right. split; [exact Hin0 |].
      intros x Hx. apply elem_of_cons in Hx as [-> | Hx]; [exact Hne0 | auto].
Qed.


Lemma same_refl w : same w w.
Proof. constructor; reflexivity. Qed.

Lemma same_trans w1 w2 w3 : same w1 w2 -> same w2 w3 -> same w1 w3.
Proof. intros [] []. constructor; congruence. Qed.

Ltac same_fields w := destruct w; constructor; reflexivity.

Lemma same_set_connectionState v w : same w (set_connectionState v w).
Proof. same_fields w. Qed.

Lemma same_set_currentPort v w : same w (set_currentPort v w).
Proof. same_fields w. Qed.

Lemma same_set_reconnectAttempts v w : same w (set_reconnectAttempts v w).
Proof. same_fields w. Qed.

Lemma same_set_currentConnection v w : same w (set_currentConnection v w).
Proof. same_fields w. Qed.

Lemma same_set_reconnectTimer v w : same w (set_reconnectTimer v w).
Proof. same_fields w. Qed.

Lemma same_close s w : same w (close s w).
Proof.
  unfold close, updateSocket.
  destruct (sockets w !! s) as [ws |] eqn:Hs; [| apply same_refl].
  assert (Hp : ws_promise <$> <[s:=match readyState ws with
                                   | WS_CLOSED => ws
                                   | _ => set_readyState WS_CLOSING ws
                                   end]> (sockets w)
               = ws_promise <$> sockets w).
  { rewrite list_fmap_insert.
    replace (ws_promise match readyState ws with
                        | WS_CLOSED => ws
                        | _ => set_readyState WS_CLOSING ws
                        end) with (ws_promise ws)
      by (destruct (readyState ws); reflexivity).
    apply list_insert_id. rewrite list_lookup_fmap.
    unfold Socket in *. rewrite Hs. reflexivity. }
  destruct w. revert Hp. unfold socketPromises. fields. intros Hp.
  constructor; unfold socketPromises; fields; auto.
Qed.

Lemma disconnect_fields w :
  pendingMessages (disconnect w) = []
  /\ waits (disconnect w) = waits w
  /\ removed (disconnect w) = removed w ++ (pendingMessages w).*1
  /\ messageHandlers (disconnect w) = messageHandlers w
  /\ nextPromise (disconnect w) = nextPromise w
  /\ socketPromises (disconnect w) = socketPromises w
  /\ settled (disconnect w) = settled w ++ rejections (pendingMessages w)
  /\ forall h a, (h, a) ∈ timers (disconnect w) ->
       a = ReconnectFired
       \/ ((h, a) ∈ timers w
           /\ forall x, x ∈ pendingMessages w -> h <> timer x.2).
Proof.
  set (w1 := match reconnectTimer w with
             | Some handle => set_reconnectTimer None (clearTimeout handle w)
             | None => w
             end).
  set (w2 := rejectAll (pendingMessages w1) w1).
  set (w3 := set_pendingMessages []
               (set_removed (removed w2 ++ (pendingMessages w2).*1) w2)).
  set (w4 := match currentConnection w3 with
             | Some s =>
                 set_currentConnection None
                   (if bool_decide (readyStateOf s w3 = Some WS_OPEN)
                    then close s w3 else w3)
             | None => w3
             end).
  assert (Heq : disconnect w
                = set_reconnectAttempts 0
                    (set_currentPort None
                       (set_connectionState DISCONNECTED w4)))
    by reflexivity.
  assert (H1 : unchanged w w1 /\ settled w1 = settled w
               /\ forall h a, (h, a) ∈ timers w1 -> (h, a) ∈ timers w).
  { subst w1. destruct (reconnectTimer w) as [handle |].
    - destruct (unchanged_clearTimeout handle w) as (U & S & T).
      destruct (same_set_reconnectTimer None (clearTimeout handle w)).
      destruct U.
      split; [constructor | split]; try congruence.
      + intros h a. rewrite s_timers0. auto.
      + intros h a. rewrite s_timers0. intros Hin.
        apply (T h a Hin).
    - split; [apply unchanged_refl | auto]. }
  destruct H1 as (U1 & S1 & T1).
  destruct (rejectAll_fields (pendingMessages w1) w1) as (U2 & S2 & T2).
  fold w2 in U2, S2, T2.
  assert (H3 : pendingMessages w3 = []
               /\ waits w3 = waits w2
               /\ removed w3 = removed w2 ++ (pendingMessages w2).*1
               /\ messageHandlers w3 = messageHandlers w2
               /\ nextPromise w3 = nextPromise w2
               /\ socketPromises w3 = socketPromises w2
               /\ settled w3 = settled w2
               /\ timers w3 = timers w2).
  { subst w3. destruct w2. unfold socketPromises. fields. repeat split. }
  assert (H4 : same w3 w4).
  { subst w4. destruct (currentConnection w3) as [s |]; [| apply same_refl].
    eapply same_trans; [| apply same_set_currentConnection].
    destruct (bool_decide (readyStateOf s w3 = Some WS_OPEN));
      [apply same_close | apply same_refl]. }
  assert (H5 : same w4 (disconnect w)).
  { rewrite Heq.
    eapply same_trans; [| apply same_set_reconnectAttempts].
    eapply same_trans; [| apply same_set_currentPort].
    apply same_set_connectionState. }
  pose proof (same_trans _ _ _ H4 H5) as [B1 B2 B3 B4 B5 B6 B7 B8].
  clearbody w4 w3 w2 w1. clear Heq H4 H5.
  destruct H3 as (A1 & A2 & A3 & A4 & A5 & A6 & A7 & A8).
  destruct U1 as [P1 W1 R1 M1 N1 K1 _]. destruct U2 as [P2 W2 R2 M2 N2 K2 _].
  repeat split; try congruence.
  intros h a. rewrite B8, A8. intros Hin.
  destruct (T2 _ _ Hin) as [-> | [Hin1 Hne]]; [auto |].
  right. split; [auto |]. rewrite <- P1. exact Hne.
Qed.

Section Counting.
Context {A B : Type}.

Lemma count_ext (P Q : A -> Prop) `{!forall x, Decision (P x)}
    `{!forall x, Decision (Q x)} (l : list A) :
  (forall x, x ∈ l -> P x <-> Q x) ->
  length (filter P l) = length (filter Q l).
Proof.
  induction l as [| a l IH]; intros Hext; [reflexivity |].
  rewrite !filter_cons.
  assert (Ha : P a <-> Q a) by (apply Hext; left).
  assert (Hl : length (filter P l) = length (filter Q l)).
  { apply IH. intros x Hx. apply Hext. right. exact Hx. }
  destruct (decide (P a)), (decide (Q a)); cbn; tauto || lia.
Qed.

Lemma count_none (P : A -> Prop) `{!forall x, Decision (P x)} (l : list A) :
  (forall x, x ∈ l -> ~ P x) -> length (filter P l) = 0%nat.
Proof.
  induction l as [| a l IH]; intros Hn; [reflexivity |].
  rewrite filter_cons. destruct (decide (P a)) as [Hp | _].
  - destruct (Hn a); [left | exact Hp].
  - apply IH. intros x Hx. apply Hn. right. exact Hx.
Qed.

Lemma count_fmap (f : A -> B) (P : B -> Prop) `{!forall y, Decision (P y)}
    (l : list A) :
  length (filter P (f <$> l)) = length (filter (fun x => P (f x)) l).
Proof.
  induction l as [| a l IH]; [reflexivity |].
  rewrite fmap_cons, !filter_cons.
  destruct (decide (P (f a))); cbn; rewrite IH; reflexivity.
Qed.

Lemma count_app (P : A -> Prop) `{!forall x, Decision (P x)} (l k : list A) :
  length (filter P (l ++ k))
  = (length (filter P l) + length (filter P k))%nat.
Proof. rewrite filter_app, length_app. reflexivity. Qed.

End Counting.

Lemma count_key {A B} `{!EqDecision A} (k : A) (l : list (A * B)) :
  NoDup l.*1 -> k ∈ l.*1 ->
  length (filter (fun x => x.1 = k) l) = 1%nat.
Proof.
  induction l as [| [a b] l IH]; intros Hnd Hin.
  - inversion Hin.
  - rewrite fmap_cons in Hnd, Hin. cbn [fst] in Hnd, Hin.
    apply NoDup_cons in Hnd as [Hna Hnd].
    rewrite filter_cons. cbn [fst].
    destruct (decide (a = k)) as [-> | Hne].
    + cbn. f_equal. apply count_none.
      intros [a' b'] Hx Heq. cbn in Heq. subst a'.
      apply Hna. apply list_elem_of_fmap. exists (k, b'). auto.
    + apply IH; [exact Hnd |].
      apply elem_of_cons in Hin as [-> | Hin]; [contradiction | exact Hin].
Qed.

Lemma nodup_fst_unique {A B} (l : list (A * B)) a b1 b2 :
  NoDup l.*1 -> (a, b1) ∈ l -> (a, b2) ∈ l -> b1 = b2.
Proof.
  induction l as [| [a' b'] l IH]; intros Hnd H1 H2; [inversion H1 |].
  rewrite fmap_cons in Hnd. apply NoDup_cons in Hnd as [Hna Hnd].
  cbn [fst] in Hna.
  assert (Hk : forall b, (a, b) ∈ l -> a ∈ l.*1).
  { intros b Hb. apply list_elem_of_fmap. exists (a, b). auto. }
  apply elem_of_cons in H1 as [E1 | H1], H2 as [E2 | H2].
  - congruence.
  - inversion E1; subst. destruct (Hna (Hk _ H2)).
  - inversion E2; subst. destruct (Hna (Hk _ H1)).
  - apply IH; assumption.
Qed.

Lemma nodup_snd_unique {A B} (l : list (A * B)) a1 a2 b :
  NoDup l.*2 -> (a1, b) ∈ l -> (a2, b) ∈ l -> a1 = a2.
Proof.
  induction l as [| [a' b'] l IH]; intros Hnd H1 H2; [inversion H1 |].
  rewrite fmap_cons in Hnd. apply NoDup_cons in Hnd as [Hna Hnd].
  cbn [snd] in Hna.
  assert (Hk : forall a, (a, b) ∈ l -> b ∈ l.*2).
  { intros a Ha. apply list_elem_of_fmap. exists (a, b). auto. }
  apply elem_of_cons in H1 as [E1 | H1], H2 as [E2 | H2].
  - congruence.
  - inversion E1; subst. destruct (Hna (Hk _ H2)).
  - inversion E2; subst. destruct (Hna (Hk _ H1)).
  - apply IH; assumption.
Qed.

Lemma removals_app id w l r :
  removed w = r ++ l ->
  removals id w
  = (length (filter (fun x => x = id) r)
     + length (filter (fun x => x = id) l))%nat.
Proof. unfold removals. intros ->. apply count_app. Qed.

Lemma disconnect_consistent w : consistent w -> consistent (disconnect w).
Proof.
  intros C.
  destruct (disconnect_fields w) as (P & W & R & M & N & K & S & T).
  constructor.
  - rewrite P. constructor.
  - rewrite P. intros id e Hin. inversion Hin.
  - intros h id ty ms p Hin. exfalso.
    destruct (T _ _ Hin) as [Hr | [Hin' Hne]]; [discriminate |].
    apply (timer_pending w C) in Hin'.
    apply (Hne _ Hin'). reflexivity.
  - rewrite W, N. apply (waits_allocated w C).
  - rewrite S, N. intros p x Hin.
    apply elem_of_app in Hin as [Hin | Hin].
    + apply (settled_allocated w C p x Hin).
    + unfold rejections in Hin.
      apply list_elem_of_fmap in Hin as ([id e] & Heq & Hin).
      cbn in Heq. inversion Heq; subst.
      apply (waits_allocated w C (promise e) id).
      apply (pending_waits w C). exact Hin.
  - rewrite W. apply (waits_promises_nodup w C).
  - rewrite W. apply (waits_ids_nodup w C).
  - rewrite W, M. apply (handlers_waits w C).
  - rewrite W, N, K. apply (sockets_promises w C).
  - rewrite W, N. intros h p port Hin.
    destruct (T _ _ Hin) as [Hr | [Hin' _]]; [discriminate |].
    apply (connect_timers w C h p port Hin').
  - rewrite W, R. intros id Hin.
    apply elem_of_app in Hin as [Hin | Hin].
    + apply (removed_waits w C id Hin).
    + apply list_elem_of_fmap in Hin as ([id' e] & -> & Hin). cbn.
      apply list_elem_of_fmap. exists (promise e, id'). split; [reflexivity |].
      apply (pending_waits w C). exact Hin.
  - rewrite W. intros p id Hw. right. rewrite P.
    split; [intros Hnil; inversion Hnil |].
    assert (Hcalls : calls p (disconnect w)
                     = (calls p w
                        + length (filter (fun x => x.1 = id)
                                    (pendingMessages w)))%nat).
    { unfold calls. rewrite S, count_app. f_equal.
      unfold rejections. rewrite count_fmap. cbn [fst].
      apply count_ext. intros [id' e] Hin. cbn [fst snd]. split.
      - intros <-. apply (pending_waits w C) in Hin.
        apply (nodup_fst_unique _ _ _ _ (waits_promises_nodup w C) Hin Hw).
      - intros ->. apply (pending_waits w C) in Hin.
        apply (nodup_snd_unique _ _ _ _ (waits_ids_nodup w C) Hin Hw). }
    assert (Hrem : removals id (disconnect w)
                   = (removals id w
                      + length (filter (fun x => x.1 = id)
                                  (pendingMessages w)))%nat).
    { rewrite (removals_app id _ _ _ R). unfold removals. f_equal.
      rewrite count_fmap. reflexivity. }
    rewrite Hcalls, Hrem.
    destruct (waits_once w C p id Hw) as [(Hin & Hr & Hc) | (Hnin & Hr & Hc)].
    + rewrite Hr, Hc, (count_key id _ (pending_nodup w C) Hin). auto.
    + rewrite Hr, Hc, count_none; [auto |].
      intros [id' e] Hin Heq. cbn in Heq. subst id'.
      apply Hnin. apply list_elem_of_fmap. exists (id, e). auto.
Qed.

(** ** The steps that keep the bookkeeping *)

Lemma quiet_keeps w w' :
  quiet w w' -> consistent w -> consistent w' /\ waits w' = waits w.
Proof.
  intros Q C. split; [apply (consistent_quiet w w' C Q) | apply (q_waits _ _ Q)].
Qed.

Lemma fresh_promise w :
  consistent w -> nextPromise w ∉ (waits w).*1.
Proof.
  intros C Hin. apply list_elem_of_fmap in Hin as ([p id] & Heq & Hin).
  apply (waits_allocated w C) in Hin. cbn in Heq. lia.
Qed.

Lemma connect_tail_quiet port constructs w0 :
  nextPromise w0 ∉ (waits w0).*1 ->
  quiet w0
    (let w := set_currentPort (Some port) w0 in
     let w := set_connectionState CONNECTING w in
     let '(p, w) := newPromise w in
     let '(connectTimeout, w) := setTimeout (ConnectTimeoutFired p port) w in
     let w := set_constructed (constructed w ++ [(port, constructs)]) w in
     if constructs then
       let s := length (sockets w) in
       let w := set_sockets
                  (sockets w ++ [{| readyState := WS_CONNECTING;
                                    ws_port := port;
                                    ws_timer := connectTimeout;
                                    ws_promise := p;
                                    listening := false;
                                    closeFired := false |}]) w in
       let w := set_currentConnection (Some s) w in
       (Attempt p, w)
     else
       let w := clearTimeout connectTimeout w in
       let w := set_connectionState FAILED w in
       let w := reject p (ConstructFailure port) w in
       (Attempt p, w)).2.
Proof.
  intros Hfresh.
  set (w1 := set_connectionState CONNECTING (set_currentPort (Some port) w0)).
  assert (Q1 : quiet w0 w1).
  { eapply quiet_trans; [apply quiet_set_currentPort |].
    apply quiet_set_connectionState. }
  set (p := nextPromise w1).
  set (w2 := (newPromise w1).2).
  assert (Q2 : quiet w1 w2) by apply quiet_newPromise.
  assert (Hp : (p < nextPromise w2)%nat).
  { subst p w2. destruct w1. unfold newPromise. fields. lia. }
  assert (Hw : p ∉ (waits w2).*1).
  { rewrite (q_waits _ _ Q2), (q_waits _ _ Q1). subst p w1.
    destruct w0. revert Hfresh. fields. auto. }
  set (h := (setTimeout (ConnectTimeoutFired p port) w2).1).
  set (w3 := (setTimeout (ConnectTimeoutFired p port) w2).2).
  assert (Q3 : quiet w2 w3) by (apply quiet_setTimeout_connect; assumption).
  set (w4 := set_constructed (constructed w3 ++ [(port, constructs)]) w3).
  assert (Q4 : quiet w3 w4) by apply quiet_set_constructed.
  assert (Q : quiet w0 w4).
  { eapply quiet_trans; [exact Q1 |]. eapply quiet_trans; [exact Q2 |].
    eapply quiet_trans; [exact Q3 | exact Q4]. }
  assert (Hp4 : (p < nextPromise w4)%nat).
  { pose proof (q_next _ _ Q3). pose proof (q_next _ _ Q4). lia. }
  assert (Hw4 : p ∉ (waits w4).*1).
  { rewrite (q_waits _ _ Q4), (q_waits _ _ Q3). exact Hw. }
  destruct constructs.
  - change (quiet w0
              (set_currentConnection (Some (length (sockets w4)))
                 (set_sockets
                    (sockets w4 ++ [{| readyState := WS_CONNECTING;
                                       ws_port := port;
                                       ws_timer := h;
                                       ws_promise := p;
                                       listening := false;
                                       closeFired := false |}]) w4))).
    clearbody w4 w3 w2 w1 h p.
    eapply quiet_trans; [exact Q |].
    eapply quiet_trans; [| apply quiet_set_currentConnection].
    apply quiet_addSocket; assumption.
  - change (quiet w0
              (reject p (ConstructFailure port)
                 (set_connectionState FAILED (clearTimeout h w4)))).
    clearbody w4 w3 w2 w1 h p.
    eapply quiet_trans; [exact Q |].
    assert (Q5 : quiet w4 (set_connectionState FAILED (clearTimeout h w4))).
    { eapply quiet_trans; [apply quiet_clearTimeout |].
      apply quiet_set_connectionState. }
    eapply quiet_trans; [exact Q5 |].
    apply quiet_reject.
    + pose proof (q_next _ _ Q5). lia.
    + rewrite (q_waits _ _ Q5). exact Hw4.
Qed.

Lemma connect_keeps port constructs w :
  consistent w ->
  consistent (connect port constructs w).2
  /\ waits (connect port constructs w).2 = waits w.
Proof.
  intros C. unfold connect.
  destruct (if isConnected w && bool_decide (currentPort w = Some port)
            then currentConnection w else None) as [s |]; [auto |].
  pose proof (disconnect_consistent w C) as C'.
  destruct (disconnect_fields w) as (_ & W & _).
  rewrite <- W. revert C'. generalize (disconnect w). intros d C'.
  apply quiet_keeps; [| exact C'].
  apply (connect_tail_quiet port constructs d (fresh_promise _ C')).
Qed.

Lemma destroy_keeps w :
  consistent w -> consistent (destroy w) /\ waits (destroy w) = waits w.
Proof.
  intros C. unfold destroy.
  pose proof (disconnect_consistent w C) as C'.
  destruct (disconnect_fields w) as (_ & W & _).
  rewrite <- W. apply quiet_keeps; [| exact C'].
  apply quiet_removeAllMessageHandlers.
Qed.

Lemma reconnectCallback_keeps constructs w :
  consistent w ->
  consistent (reconnectCallback constructs w)
  /\ waits (reconnectCallback constructs w) = waits w.
Proof.
  intros C. unfold reconnectCallback.
  destruct (truthy_num (currentPort w)
            && bool_decide (connectionState w = RECONNECTING)); [| auto].
  destruct (currentPort w) as [port |]; [| auto].
  destruct (connect_keeps port constructs w C) as [C' W].
  destruct (connect port constructs w) as [r w']. cbn [snd] in C', W.
  destruct r as [s | p]; [auto |].
  rewrite <- W.
  destruct (isSettled p w').
  - apply quiet_keeps; [apply quiet_handleUnexpectedDisconnect | exact C'].
  - apply quiet_keeps; [apply quiet_set_awaited | exact C'].
Qed.

Lemma socket_promise s ws w :
  consistent w -> sockets w !! s = Some ws ->
  (ws_promise ws < nextPromise w)%nat /\ ws_promise ws ∉ (waits w).*1.
Proof.
  intros C Hs. apply (sockets_promises w C). unfold socketPromises.
  apply list_elem_of_fmap. exists ws. split; [reflexivity |].
  eapply list_elem_of_lookup_2. exact Hs.
Qed.

Lemma quiet_onopen s ws w :
  (ws_promise ws < nextPromise w)%nat -> ws_promise ws ∉ (waits w).*1 ->
  quiet w (onopen s ws w).
Proof.
  intros Hp Hw. unfold onopen. cbv zeta.
  set (w1 := updateSocket s (set_listening true)
               (set_reconnectAttempts 0
                  (set_connectionState CONNECTED
                     (clearTimeout (ws_timer ws) w)))).
  assert (Q : quiet w w1).
  { eapply quiet_trans; [apply quiet_clearTimeout |].
    eapply quiet_trans; [apply quiet_set_connectionState |].
    eapply quiet_trans; [apply quiet_set_reconnectAttempts |].
    apply quiet_updateSocket. intros []; reflexivity. }
  eapply quiet_trans; [exact Q |].
  apply quiet_resolve.
  - pose proof (q_next _ _ Q). lia.
  - rewrite (q_waits _ _ Q). exact Hw.
Qed.

Lemma quiet_onerror ws w :
  (ws_promise ws < nextPromise w)%nat -> ws_promise ws ∉ (waits w).*1 ->
  quiet w (onerror ws w).
Proof.
  intros Hp Hw. unfold onerror. cbv zeta.
  set (w1 := set_connectionState FAILED (clearTimeout (ws_timer ws) w)).
  assert (Q : quiet w w1).
  { eapply quiet_trans; [apply quiet_clearTimeout |].
    apply quiet_set_connectionState. }
  eapply quiet_trans; [exact Q |].
  apply quiet_reject.
  - pose proof (q_next _ _ Q). lia.
  - rewrite (q_waits _ _ Q). exact Hw.
Qed.

Lemma quiet_onclose ws w : quiet w (onclose ws w).
Proof.
  unfold onclose. cbv zeta.
  eapply quiet_trans; [apply quiet_clearTimeout |].
  destruct (bool_decide
              (connectionState (clearTimeout (ws_timer ws) w) = CONNECTED)).
  - apply quiet_handleUnexpectedDisconnect.
  - apply quiet_set_connectionState.
Qed.

Lemma quiet_connectTimeout p port constructs w :
  (p < nextPromise w)%nat -> p ∉ (waits w).*1 ->
  quiet w (fire (ConnectTimeoutFired p port) constructs w).
Proof.
  intros Hp Hw. unfold fire. cbv zeta.
  set (w1 := set_connectionState FAILED
               match currentConnection w with
               | Some s => close s w
               | None => w
               end).
  assert (Q : quiet w w1).
  { subst w1. eapply quiet_trans; [| apply quiet_set_connectionState].
    destruct (currentConnection w); [apply quiet_close | apply quiet_refl]. }
  eapply quiet_trans; [exact Q |].
  apply quiet_reject.
  - pose proof (q_next _ _ Q). lia.
  - rewrite (q_waits _ _ Q). exact Hw.
Qed.

(** ** The end of one [waitForMessage]: its timer fires or its message
    arrives *)

Lemma calls_snoc p q x w w' :
  settled w' = settled w ++ [(q, x)] ->
  calls p w' = (calls p w + if decide (q = p) then 1 else 0)%nat.
Proof.
  unfold calls. intros ->. rewrite count_app. f_equal.
  rewrite filter_cons, filter_nil. cbn [fst].
  destruct (decide (q = p)); reflexivity.
Qed.

Lemma removals_snoc id id0 w w' :
  removed w' = removed w ++ [id0] ->
  removals id w' = (removals id w + if decide (id0 = id) then 1 else 0)%nat.
Proof.
  unfold removals. intros ->. rewrite count_app. f_equal.
  rewrite filter_cons, filter_nil.
  destruct (decide (id0 = id)); reflexivity.
Qed.

Lemma retire w w' id e x :
  consistent w -> (id, e) ∈ pendingMessages w ->
  pendingMessages w' = assoc_delete id (pendingMessages w) ->
  waits w' = waits w ->
  removed w' = removed w ++ [id] ->
  nextPromise w' = nextPromise w ->
  settled w' = settled w ++ [(promise e, x)] ->
  (forall h a, (h, a) ∈ timers w' ->
     a = ReconnectFired \/ ((h, a) ∈ timers w /\ h <> timer e)) ->
  socketPromises w' = socketPromises w ->
  (forall ty hs ty' id p,
     (ty, hs) ∈ messageHandlers w' -> OneShot ty' id p ∈ hs ->
     exists ty0 hs0,
       (ty0, hs0) ∈ messageHandlers w /\ OneShot ty' id p ∈ hs0) ->
  consistent w'.
Proof.
  intros C He P W R N S T K M.
  pose proof (pending_waits w C id e He) as Hw.
  constructor.
  - rewrite P. apply assoc_delete_nodup, (pending_nodup w C).
  - rewrite P, W. intros id' e' Hin.
    apply elem_of_assoc_delete in Hin as [Hin _].
    apply (pending_waits w C id' e' Hin).
  - rewrite P. intros h id' ty ms p Hin.
    destruct (T _ _ Hin) as [Hr | [Hin' Hne]]; [discriminate |].
    apply (timer_pending w C) in Hin'.
    apply elem_of_assoc_delete. split; [exact Hin' |].
    intros ->.
    pose proof (nodup_fst_unique _ _ _ _ (pending_nodup w C) He Hin') as ->.
    apply Hne. reflexivity.
  - rewrite W, N. apply (waits_allocated w C).
  - rewrite S, N. intros p y Hin.
    apply elem_of_app in Hin as [Hin | Hin].
    + apply (settled_allocated w C p y Hin).
    + apply list_elem_of_singleton in Hin. inversion Hin; subst.
      apply (waits_allocated w C _ _ Hw).
  - rewrite W. apply (waits_promises_nodup w C).
  - rewrite W. apply (waits_ids_nodup w C).
  - rewrite W. intros ty hs ty' id' p Hin Hos.
    destruct (M _ _ _ _ _ Hin Hos) as (ty0 & hs0 & Hin0 & Hos0).
    apply (handlers_waits w C _ _ _ _ _ Hin0 Hos0).
  - rewrite W, N, K. apply (sockets_promises w C).
  - rewrite W, N. intros h p port Hin.
    destruct (T _ _ Hin) as [Hr | [Hin' _]]; [discriminate |].
    apply (connect_timers w C h p port Hin').
  - rewrite W, R. intros id' Hin.
    apply elem_of_app in Hin as [Hin | Hin].
    + apply (removed_waits w C id' Hin).
    + apply list_elem_of_singleton in Hin. subst id'.
      apply list_elem_of_fmap. exists (promise e, id). auto.
  - rewrite W. intros p id' Hin. unfold once.
    rewrite (calls_snoc p _ _ _ _ S), (removals_snoc id' _ _ _ R), P.
    rewrite assoc_delete_keys.
    destruct (waits_once w C p id' Hin) as [(Hp & Hr & Hc) | (Hp & Hr & Hc)];
      rewrite Hr, Hc.
    + destruct (decide (id = id')) as [<- | Hne].
      * pose proof (nodup_snd_unique _ _ _ _ (waits_ids_nodup w C) Hin Hw)
          as ->.
        destruct (decide (promise e = promise e)); [| contradiction].
        right. split; [intros [_ Hn]; apply Hn; reflexivity | auto].
      * destruct (decide (promise e = p)) as [<- | Hnp].
        { destruct Hne.
          apply (nodup_fst_unique _ _ _ _ (waits_promises_nodup w C) Hw Hin). }
        left. split; [split; [exact Hp | auto] | auto].
    + assert (Hne : id <> id').
      { intros <-. apply Hp. apply list_elem_of_fmap. exists (id, e). auto. }
      destruct (decide (id = id')); [contradiction |].
      destruct (decide (promise e = p)) as [<- | Hnp].
      { destruct Hne.
        apply (nodup_fst_unique _ _ _ _ (waits_promises_nodup w C) Hw Hin). }
      right. split; [intros [Hp' _]; apply Hp; exact Hp' | auto].
Qed.

Lemma retire_fields r m w :
  pendingMessages (set_removed r (set_pendingMessages m w)) = m
  /\ waits (set_removed r (set_pendingMessages m w)) = waits w
  /\ removed (set_removed r (set_pendingMessages m w)) = r
  /\ nextPromise (set_removed r (set_pendingMessages m w)) = nextPromise w
  /\ settled (set_removed r (set_pendingMessages m w)) = settled w
  /\ timers (set_removed r (set_pendingMessages m w)) = timers w
  /\ socketPromises (set_removed r (set_pendingMessages m w))
     = socketPromises w
  /\ messageHandlers (set_removed r (set_pendingMessages m w))
     = messageHandlers w.
Proof. destruct w. repeat split. Qed.

Lemma timeout_keeps handle id ty ms p constructs w :
  consistent w ->
  (handle, MessageTimeoutFired id ty ms p) ∈ timers w ->
  consistent (fire (MessageTimeoutFired id ty ms p) constructs
                (clearTimeout handle w))
  /\ waits (fire (MessageTimeoutFired id ty ms p) constructs
              (clearTimeout handle w)) = waits w.
Proof.
  intros C Hin.
  pose proof (timer_pending w C _ _ _ _ _ Hin) as He.
  destruct (unchanged_clearTimeout handle w) as ([P0 W0 R0 M0 N0 K0 _] & S0 & T0).
  set (w0 := clearTimeout handle w) in *.
  unfold fire.
  rewrite P0, (assoc_get_unique _ _ _ (pending_nodup w C) He).
  set (w1 := set_removed (removed w0 ++ [id])
               (set_pendingMessages (assoc_delete id (pendingMessages w)) w0)).
  destruct (retire_fields (removed w0 ++ [id])
              (assoc_delete id (pendingMessages w)) w0)
    as (P1 & W1 & R1 & N1 & S1 & T1 & K1 & M1).
  fold w1 in P1, W1, R1, N1, S1, T1, K1, M1.
  destruct (unchanged_reject p (MessageTimeout ty ms) w1)
    as ([P2 W2 R2 M2 N2 K2 T2] & S2).
  clearbody w1 w0.
  split; [| congruence].
  apply (retire w _ id {| promise := p; timer := handle |}
           (Rejected (MessageTimeout ty ms)) C He); try congruence.
  - cbn [promise]. congruence.
  - intros h a Ha. destruct (T2 _ _ Ha) as [-> | Ha']; [auto |].
    right. rewrite T1 in Ha'. apply T0. exact Ha'.
  - rewrite M2, M1, M0. eauto.
Qed.

Lemma removeMessageHandler_same ty handler w :
  pendingMessages (removeMessageHandler ty handler w) = pendingMessages w
  /\ waits (removeMessageHandler ty handler w) = waits w
  /\ removed (removeMessageHandler ty handler w) = removed w
  /\ nextPromise (removeMessageHandler ty handler w) = nextPromise w
  /\ settled (removeMessageHandler ty handler w) = settled w
  /\ timers (removeMessageHandler ty handler w) = timers w
  /\ socketPromises (removeMessageHandler ty handler w) = socketPromises w.
Proof.
  unfold removeMessageHandler.
  destruct (assoc_get ty (messageHandlers w)); [| repeat split].
  destruct (bool_decide (set_delete handler l = [])); destruct w;
    repeat split.
Qed.

Lemma resolve_fields p v w :
  pendingMessages (resolve p v w) = pendingMessages w
  /\ waits (resolve p v w) = waits w
  /\ removed (resolve p v w) = removed w
  /\ nextPromise (resolve p v w) = nextPromise w
  /\ settled (resolve p v w) = settled w ++ [(p, v)]
  /\ timers (resolve p v w) = timers w
  /\ socketPromises (resolve p v w) = socketPromises w
  /\ messageHandlers (resolve p v w) = messageHandlers w.
Proof. destruct w. repeat split. Qed.

Lemma invoke_keeps message handler w :
  consistent w ->
  (forall ty id p, handler = OneShot ty id p -> (p, id) ∈ waits w) ->
  consistent (invoke message handler w)
  /\ waits (invoke message handler w) = waits w.
Proof.
  intros C Hh. destruct handler as [ty id p | n]; [| auto].
  specialize (Hh ty id p eq_refl). unfold invoke.
  destruct (type_is message ty); [| auto].
  destruct (assoc_get id (pendingMessages w)) as [e |] eqn:Hget; [| auto].
  apply assoc_get_elem_of in Hget.
  pose proof (pending_waits w C id e Hget) as Hw.
  pose proof (nodup_snd_unique _ _ _ _ (waits_ids_nodup w C) Hw Hh) as Hp.
  destruct (unchanged_clearTimeout (timer e) w)
    as ([P0 W0 R0 M0 N0 K0 _] & S0 & T0).
  set (w0 := clearTimeout (timer e) w) in *.
  cbv zeta.
  set (w1 := set_removed
               (removed (set_pendingMessages
                           (assoc_delete id (pendingMessages w0)) w0) ++ [id])
               (set_pendingMessages (assoc_delete id (pendingMessages w0)) w0)).
  assert (R1' : removed (set_pendingMessages
                           (assoc_delete id (pendingMessages w0)) w0)
                = removed w0) by (destruct w0; reflexivity).
  destruct (retire_fields
              (removed (set_pendingMessages
                          (assoc_delete id (pendingMessages w0)) w0) ++ [id])
              (assoc_delete id (pendingMessages w0)) w0)
    as (P1 & W1 & R1 & N1 & S1 & T1 & K1 & M1).
  fold w1 in P1, W1, R1, N1, S1, T1, K1, M1.
  rewrite R1' in R1.
  pose proof (quiet_removeMessageHandler ty (OneShot ty id p) w1) as Q.
  destruct (removeMessageHandler_same ty (OneShot ty id p) w1)
    as (P2 & W2 & R2 & N2 & S2 & T2 & K2).
  set (w2 := removeMessageHandler ty (OneShot ty id p) w1) in *.
  destruct (resolve_fields p (ResolvedMessage message) w2)
    as (P3 & W3 & R3 & N3 & S3 & T3 & K3 & M3).
  clearbody w2 w1 w0.
  split; [| congruence].
  apply (retire w _ id e (ResolvedMessage message) C Hget); try congruence.
  - intros h a Ha. right. rewrite T3, T2, T1 in Ha. apply T0. exact Ha.
  - rewrite M3. intros ty1 hs ty' id' p' Hin Hos.
    destruct (q_handlers _ _ Q _ _ _ _ _ Hin Hos) as (ty0 & hs0 & Hin0 & Hos0).
    rewrite M1, M0 in Hin0. eauto.
Qed.

Lemma foldl_invoke_keeps message handlers :
  forall w,
    consistent w ->
    (forall ty id p, OneShot ty id p ∈ handlers -> (p, id) ∈ waits w) ->
    consistent (foldl (fun w h => invoke message h w) w handlers)
    /\ waits (foldl (fun w h => invoke message h w) w handlers) = waits w.
Proof.
  induction handlers as [| h handlers IH]; intros w C Hh; [auto |].
  cbn [foldl].
  destruct (invoke_keeps message h w C) as [C1 W1].
  { intros ty id p ->. apply (Hh ty). left. }
  destruct (IH (invoke message h w) C1) as [C2 W2].
  { rewrite W1. intros ty id p Hin. apply (Hh ty). right. exact Hin. }
  split; [exact C2 | congruence].
Qed.

Lemma handleMessage_keeps message w :
  consistent w ->
  consistent (handleMessage message w)
  /\ waits (handleMessage message w) = waits w.
Proof.
  intros C. unfold handleMessage.
  destruct (prop "type" message) as [messageType | ?]; [| auto].
  destruct (truthy messageType); [| auto].
  destruct messageType as [[| | | ty | |] |]; auto.
  destruct (assoc_get ty (messageHandlers w)) as [handlers |] eqn:Hget;
    [| auto].
  apply assoc_get_elem_of in Hget.
  apply foldl_invoke_keeps; [exact C |].
  intros ty' id p Hin. apply (handlers_waits w C _ _ _ _ _ Hget Hin).
Qed.

Lemma waitForMessage_fields ty timeout now random w :
  let id : MessageId := (ty, now, random) in
  let p := nextPromise w in
  let h := nextTimer w in
  let ms := or_num timeout (messageTimeout (config w)) in
  let w' := (waitForMessage ty timeout now random w).2 in
  pendingMessages w'
  = assoc_set id {| promise := p; timer := h |} (pendingMessages w)
  /\ waits w' = waits w ++ [(p, id)]
  /\ removed w' = removed w
  /\ nextPromise w' = S p
  /\ settled w' = settled w
  /\ timers w' = timers w ++ [(h, MessageTimeoutFired id ty ms p)]
  /\ socketPromises w' = socketPromises w
  /\ messageHandlers w'
     = assoc_set ty
         (set_add (OneShot ty id p)
            (default [] (assoc_get ty (messageHandlers w))))
         (messageHandlers w).
Proof. destruct w. repeat split. Qed.

Lemma pending_keys_waits w id :
  consistent w -> id ∈ (pendingMessages w).*1 -> id ∈ (waits w).*2.
Proof.
  intros C Hin. apply list_elem_of_fmap in Hin as ([id' e] & -> & Hin).
  apply (pending_waits w C) in Hin.
  apply list_elem_of_fmap. exists (promise e, id'). auto.
Qed.

Lemma waitForMessage_keeps ty timeout now random w :
  consistent w -> (ty, now, random) ∉ (waits w).*2 ->
  consistent (waitForMessage ty timeout now random w).2
  /\ waits (waitForMessage ty timeout now random w).2
     = waits w ++ [(nextPromise w, (ty, now, random))].
Proof.
  intros C Hfresh.
  destruct (waitForMessage_fields ty timeout now random w)
    as (P & W & R & N & S & T & K & M).
  cbv zeta in P, W, R, N, S, T, K, M.
  set (w' := (waitForMessage ty timeout now random w).2) in *.
  set (id := (ty, now, random)) in *.
  set (p := nextPromise w) in *.
  set (h := nextTimer w) in *.
  clearbody w'.
  assert (Hnp : id ∉ (pendingMessages w).*1).
  { intros Hin. apply Hfresh. apply (pending_keys_waits w id C Hin). }
  rewrite (assoc_set_fresh _ _ _ Hnp) in P.
  split; [| exact W].
  constructor.
  - rewrite P, fmap_app. apply NoDup_app. split; [apply (pending_nodup w C) |].
    split; [| apply NoDup_singleton].
    intros x Hx Hx'. apply list_elem_of_singleton in Hx'. subst x.
    exact (Hnp Hx).
  - rewrite P, W. intros id' e Hin. rewrite elem_of_app.
    apply elem_of_app in Hin as [Hin | Hin].
    + left. apply (pending_waits w C _ _ Hin).
    + right. apply list_elem_of_singleton in Hin. inversion Hin; subst.
      apply list_elem_of_singleton. reflexivity.
  - rewrite P, T. intros h' id' ty' ms' p' Hin. rewrite elem_of_app.
    apply elem_of_app in Hin as [Hin | Hin].
    + left. apply (timer_pending w C _ _ _ _ _ Hin).
    + right. apply list_elem_of_singleton in Hin. inversion Hin; subst.
      apply list_elem_of_singleton. reflexivity.
  - rewrite W, N. intros p' id' Hin.
    apply elem_of_app in Hin as [Hin | Hin].
    + pose proof (waits_allocated w C _ _ Hin). unfold p. lia.
    + apply list_elem_of_singleton in Hin. inversion Hin; subst. lia.
  - rewrite S, N. intros p' x Hin.
    pose proof (settled_allocated w C _ _ Hin). unfold p. lia.
  - rewrite W, fmap_app. apply NoDup_app.
    split; [apply (waits_promises_nodup w C) |].
    split; [| apply NoDup_singleton].
    intros x Hx Hx'. apply list_elem_of_singleton in Hx'. cbn in Hx'. subst x.
    exact (fresh_promise w C Hx).
  - rewrite W, fmap_app. apply NoDup_app.
    split; [apply (waits_ids_nodup w C) |].
    split; [| apply NoDup_singleton].
    intros x Hx Hx'. apply list_elem_of_singleton in Hx'. cbn in Hx'. subst x.
    exact (Hfresh Hx).
  - rewrite W, M. intros ty1 hs ty' id' p' Hin Hos. rewrite elem_of_app.
    apply elem_of_assoc_set in Hin as [Heq | Hin].
    + inversion Heq; subst ty1 hs.
      apply elem_of_set_add in Hos as [Hos | Hos].
      * right. inversion Hos; subst. apply list_elem_of_singleton. reflexivity.
      * left. destruct (assoc_get ty (messageHandlers w)) as [hs0 |] eqn:Hget;
          [| inversion Hos].
        apply assoc_get_elem_of in Hget.
        apply (handlers_waits w C _ _ _ _ _ Hget Hos).
    + left. apply (handlers_waits w C _ _ _ _ _ Hin Hos).
  - rewrite W, N, K. intros p' Hin.
    destruct (sockets_promises w C p' Hin) as [Hlt Hnw].
    split; [lia |]. rewrite fmap_app, elem_of_app. intros [Hw | Hw];
      [exact (Hnw Hw) |].
    apply list_elem_of_singleton in Hw. cbn in Hw. unfold p in Hw. lia.
  - rewrite W, N, T. intros h' p' port Hin.
    apply elem_of_app in Hin as [Hin | Hin];
      [| apply list_elem_of_singleton in Hin; discriminate].
    destruct (connect_timers w C _ _ _ Hin) as [Hlt Hnw].
    split; [lia |]. rewrite fmap_app, elem_of_app. intros [Hw | Hw];
      [exact (Hnw Hw) |].
    apply list_elem_of_singleton in Hw. cbn in Hw. unfold p in Hw. lia.
  - rewrite W, R, fmap_app. intros id' Hin. apply elem_of_app. left.
    apply (removed_waits w C _ Hin).
  - rewrite W. intros p' id' Hin. unfold once, calls, removals.
    rewrite P, R, S, fmap_app.
    apply elem_of_app in Hin as [Hin | Hin].
    + assert (Hne : id' <> id).
      { intros ->. apply Hfresh. apply list_elem_of_fmap.
        exists (p', id). auto. }
      destruct (waits_once w C _ _ Hin) as [(Hp & Hr & Hc) | (Hp & Hr & Hc)].
      * left. split; [apply elem_of_app; auto | auto].
      * right. split; [| auto]. rewrite elem_of_app. intros [Hp' | Hp'];
          [exact (Hp Hp') |].
        apply list_elem_of_singleton in Hp'. exact (Hne Hp').
    + apply list_elem_of_singleton in Hin. inversion Hin; subst p' id'.
      left. split; [| split].
      * apply elem_of_app. right. apply list_elem_of_singleton. reflexivity.
      * apply count_none. intros x Hx ->. apply Hfresh.
        apply (removed_waits w C _ Hx).
      * apply count_none. intros [q x] Hx Hq. cbn in Hq. subst q.
        pose proof (settled_allocated w C _ _ Hx). unfold p in *. lia.
Qed.

(** ** Every step of a manager *)

Lemma create_consistent c : consistent (create c).
Proof.
  constructor; cbn; try (intros; exfalso; eapply not_elem_of_nil; eassumption);
    try apply NoDup_nil_2.
Qed.

Lemma elem_of_timers h a w : assoc_get h (timers w) = Some a -> (h, a) ∈ timers w.
Proof. apply assoc_get_elem_of. Qed.

Lemma timerFires_keeps handle constructs w :
  consistent w ->
  consistent (step w (TimerFires handle constructs))
  /\ waits (step w (TimerFires handle constructs)) = waits w.
Proof.
  intros C. cbn [step].
  destruct (assoc_get handle (timers w)) as [action |] eqn:Hget; [| auto].
  apply elem_of_timers in Hget.
  destruct action as [p port | id ty ms p |].
  - destruct (connect_timers w C _ _ _ Hget) as [Hp Hw].
    pose proof (quiet_clearTimeout handle w) as Q0.
    apply quiet_keeps; [| exact C].
    eapply quiet_trans; [exact Q0 |].
    apply quiet_connectTimeout.
    + pose proof (q_next _ _ Q0). lia.
    + rewrite (q_waits _ _ Q0). exact Hw.
  - apply timeout_keeps; assumption.
  - destruct (quiet_keeps _ _ (quiet_clearTimeout handle w) C) as [C0 W0].
    rewrite <- W0. apply (reconnectCallback_keeps constructs _ C0).
Qed.

Lemma step_keeps w ev :
  consistent w ->
  (forall id, id ∈ messageIds [ev] -> id ∉ (waits w).*2) ->
  consistent (step w ev)
  /\ (waits (step w ev)).*2 = (waits w).*2 ++ messageIds [ev].
Proof.
  intros C Hfresh.
  assert (Hq : forall w', messageIds [ev] = [] ->
                 consistent w' /\ waits w' = waits w ->
                 consistent w'
                 /\ (waits w').*2 = (waits w).*2 ++ messageIds [ev]).
  { intros w' -> [C' ->]. rewrite app_nil_r. auto. }
  destruct ev as [port constructs | | ty timeout now random | ty callback
                 | ty callback | ty | | handle constructs | s | s | s
                 | s data].
  - apply Hq; [reflexivity |]. apply connect_keeps, C.
  - apply Hq; [reflexivity |]. split; [apply disconnect_consistent, C |].
    apply (disconnect_fields w).
  - destruct (waitForMessage_keeps ty timeout now random w C) as [C' W'].
    { apply Hfresh. left. }
    split; [exact C' |]. cbn [step]. rewrite W', fmap_app. reflexivity.
  - apply Hq; [reflexivity |]. apply quiet_keeps; [| exact C].
    apply quiet_addExternal.
  - apply Hq; [reflexivity |]. apply quiet_keeps; [| exact C].
    apply quiet_removeMessageHandler.
  - apply Hq; [reflexivity |]. apply quiet_keeps; [| exact C].
    apply quiet_removeAllMessageHandlers.
  - apply Hq; [reflexivity |]. apply destroy_keeps, C.
  - apply Hq; [reflexivity |]. apply timerFires_keeps, C.
  - apply Hq; [reflexivity |]. cbn [step].
    destruct (sockets w !! s) as [ws |] eqn:Hs; [| auto].
    destruct (bool_decide (readyState ws = WS_CONNECTING)); [| auto].
    destruct (socket_promise s ws w C Hs) as [Hp Hw].
    pose proof (quiet_updateSocket s (set_readyState WS_OPEN) w
                  (fun ws => eq_refl)) as Q0.
    apply quiet_keeps; [| exact C].
    eapply quiet_trans; [exact Q0 |].
    apply quiet_onopen.
    + pose proof (q_next _ _ Q0). lia.
    + rewrite (q_waits _ _ Q0). exact Hw.
  - apply Hq; [reflexivity |]. cbn [step].
    destruct (sockets w !! s) as [ws |] eqn:Hs; [| auto].
    destruct (closeFired ws); [auto |].
    destruct (socket_promise s ws w C Hs) as [Hp Hw].
    pose proof (quiet_updateSocket s (set_readyState WS_CLOSED) w
                  (fun ws => eq_refl)) as Q0.
    apply quiet_keeps; [| exact C].
    eapply quiet_trans; [exact Q0 |].
    apply quiet_onerror.
    + pose proof (q_next _ _ Q0). lia.
    + rewrite (q_waits _ _ Q0). exact Hw.
  - apply Hq; [reflexivity |]. cbn [step].
    destruct (sockets w !! s) as [ws |] eqn:Hs; [| auto].
    destruct (closeFired ws); [auto |].
    apply quiet_keeps; [| exact C].
    eapply quiet_trans; [| apply quiet_onclose].
    apply quiet_updateSocket. intros ws'. reflexivity.
  - apply Hq; [reflexivity |]. cbn [step].
    destruct (sockets w !! s) as [ws |] eqn:Hs; [| auto].
    destruct (bool_decide (readyState ws = WS_OPEN) && listening ws);
      [| auto].
    destruct data as [message |]; [| auto].
    apply handleMessage_keeps, C.
Qed.

Lemma messageIds_cons ev evs :
  messageIds (ev :: evs) = messageIds [ev] ++ messageIds evs.
Proof. unfold messageIds. cbn [omap list_omap]. destruct ev; reflexivity. Qed.

Lemma run_keeps evs :
  forall w,
    consistent w ->
    NoDup ((waits w).*2 ++ messageIds evs) ->
    consistent (run w evs)
    /\ (waits (run w evs)).*2 = (waits w).*2 ++ messageIds evs.
Proof.
  induction evs as [| ev evs IH]; intros w C Hnd.
  - cbn. rewrite app_nil_r. auto.
  - rewrite messageIds_cons in Hnd |- *.
    destruct (step_keeps w ev C) as [C1 W1].
    { intros id Hin Hw. apply NoDup_app in Hnd as (_ & Hd & _).
      apply (Hd id Hw). apply elem_of_app. auto. }
    change (run w (ev :: evs)) with (run (step w ev) evs).
    destruct (IH (step w ev) C1) as [C2 W2].
    { rewrite W1, <- app_assoc. exact Hnd. }
    split; [exact C2 |]. rewrite W2, W1, <- app_assoc. reflexivity.
Qed.

Lemma reachable_consistent c evs :
  NoDup (messageIds evs) ->
  consistent (run (create c) evs)
  /\ (waits (run (create c) evs)).*2 = messageIds evs.
Proof.
  intros Hnd. apply (run_keeps evs (create c) (create_consistent c)). exact Hnd.
Qed.

Lemma disconnect_rejects w id e :
  consistent w -> (id, e) ∈ pendingMessages w ->
  (promise e, Rejected ConnectionClosed) ∈ settled (disconnect w)
  /\ removals id (disconnect w) = 1%nat
  /\ calls (promise e) (disconnect w) = 1%nat.
Proof.
  intros C He.
  destruct (disconnect_fields w) as (P & W & _ & _ & _ & _ & S & _).
  pose proof (disconnect_consistent w C) as C'.
  split.
  - rewrite S. apply elem_of_app. right. unfold rejections.
    apply list_elem_of_fmap. exists (id, e). auto.
  - pose proof (pending_waits w C id e He) as Hw. rewrite <- W in Hw.
    destruct (waits_once _ C' _ _ Hw) as [(Hin & _) | (_ & Hr & Hc)]; [| auto].
    rewrite P in Hin. inversion Hin.
Qed.

(** X1: In every history of a manager whose [waitForMessage] keys are
    pairwise distinct (a key is made of the type, [Date.now()] and
    [Math.random()]), the [waitForMessage] calls made are those of the
    history, every entry of [pendingMessages] belongs to one of them,
    and every call is either still pending, its entry never deleted
    and its promise never settled, or over, its entry deleted exactly
    once and its [resolve] and [reject] called exactly once in all:
    the timeout, the matching message and [disconnect()] exclude one
    another.  [disconnect()] empties the map, and for every entry that
    was pending it makes the one deletion and the one settlement, a
    rejection with the connection-closed error. *)
Theorem pending_entry_removed_once c evs :
  NoDup (messageIds evs) ->
  let w := run (create c) evs in
  (waits w).*2 = messageIds evs
  /\ (forall id e, (id, e) ∈ pendingMessages w -> (promise e, id) ∈ waits w)
  /\ (forall p id, (p, id) ∈ waits w -> once p id w)
  /\ pendingMessages (disconnect w) = []
  /\ (forall id e, (id, e) ∈ pendingMessages w ->
        (promise e, Rejected ConnectionClosed) ∈ settled (disconnect w)
        /\ removals id (disconnect w) = 1%nat
        /\ calls (promise e) (disconnect w) = 1%nat).
Proof.
  intros Hnd w. destruct (reachable_consistent c evs Hnd) as [C W].
  fold w in C, W.
  split; [exact W |]. split; [apply (pending_waits w C) |].
  split; [apply (waits_once w C) |].
  split; [apply (disconnect_fields w) |].
  intros id e He. apply (disconnect_rejects w id e C He).
Qed.


Lemma pending_entry_removed_once_witness :
  NoDup (messageIds threeWaits)
  /\ let w := run (create DEFAULT_CONFIG) threeWaits in
     (waits w).*2 = messageIds threeWaits
     /\ (forall id e, (id, e) ∈ pendingMessages w -> (promise e, id) ∈ waits w)
     /\ (forall p id, (p, id) ∈ waits w -> once p id w)
     /\ pendingMessages (disconnect w) = []
     /\ (forall id e, (id, e) ∈ pendingMessages w ->
           (promise e, Rejected ConnectionClosed) ∈ settled (disconnect w)
           /\ removals id (disconnect w) = 1%nat
           /\ calls (promise e) (disconnect w) = 1%nat).
Proof.
  assert (Hnd : NoDup (messageIds threeWaits)).
  { apply (bool_decide_unpack _). vm_compute. exact I. }
  split; [exact Hnd |].
  apply (pending_entry_removed_once DEFAULT_CONFIG threeWaits Hnd).
Defined.

(** ** What [disconnect] and [destroy] leave behind *)

Lemma disconnect_control w :
  connectionState (disconnect w) = DISCONNECTED
  /\ currentPort (disconnect w) = None
  /\ reconnectAttempts (disconnect w) = 0
  /\ currentConnection (disconnect w) = None.
Proof.
  set (w1 := match reconnectTimer w with
             | Some handle => set_reconnectTimer None (clearTimeout handle w)
             | None => w
             end).
  set (w2 := rejectAll (pendingMessages w1) w1).
  set (w3 := set_pendingMessages []
               (set_removed (removed w2 ++ (pendingMessages w2).*1) w2)).
  set (w4 := match currentConnection w3 with
             | Some s =>
                 set_currentConnection None
                   (if bool_decide (readyStateOf s w3 = Some WS_OPEN)
                    then close s w3 else w3)
             | None => w3
             end).
  assert (Heq : disconnect w
                = set_reconnectAttempts 0
                    (set_currentPort None
                       (set_connectionState DISCONNECTED w4)))
    by reflexivity.
  assert (H4 : currentConnection w4 = None).
  { subst w4. destruct (currentConnection w3) as [s |] eqn:Hs; [| exact Hs].
    destruct (bool_decide (readyStateOf s w3 = Some WS_OPEN));
      [destruct (close s w3) | destruct w3]; reflexivity. }
  clearbody w4. rewrite Heq. destruct w4. revert H4. fields. auto.
Qed.

(** X2: After [disconnect()] the manager is DISCONNECTED, with no port,
    no socket, no pending message and a reconnect counter of 0;
    [isConnected()] is false and [sendMessage] rejects. *)
Theorem disconnect_postcondition w :
  connectionState (disconnect w) = DISCONNECTED
  /\ currentPort (disconnect w) = None
  /\ reconnectAttempts (disconnect w) = 0
  /\ currentConnection (disconnect w) = None
  /\ pendingMessages (disconnect w) = []
  /\ isConnected (disconnect w) = false
  /\ forall message sends,
       sendMessage message sends (disconnect w) = Some Unavailable.
Proof.
  destruct (disconnect_control w) as (S & P & A & K).
  destruct (disconnect_fields w) as (E & _).
  assert (Hc : isConnected (disconnect w) = false).
  { unfold isConnected. rewrite S. reflexivity. }
  split; [exact S |]. split; [exact P |]. split; [exact A |].
  split; [exact K |]. split; [exact E |]. split; [exact Hc |].
  intros message sends. unfold sendMessage. rewrite Hc. reflexivity.
Qed.

(** X3: After [destroy()] nothing is registered and nothing is pending:
    every handler is gone, the one-shot handlers that timed-out
    [waitForMessage] calls left behind included. *)
Theorem destroy_postcondition w :
  messageHandlers (destroy w) = []
  /\ pendingMessages (destroy w) = []
  /\ connectionState (destroy w) = DISCONNECTED
  /\ isConnected (destroy w) = false
  /\ messageHandlerCount (getConnectionStats (destroy w)) = 0%nat
  /\ pendingMessageCount (getConnectionStats (destroy w)) = 0%nat.
Proof.
  destruct (disconnect_control w) as (S & _).
  destruct (disconnect_fields w) as (E & _).
  unfold destroy, removeAllMessageHandlers, getConnectionStats, isConnected.
  revert S E. generalize (disconnect w). intros d S E.
  destruct d. revert S E. fields. cbn [messageHandlerCount pendingMessageCount].
  intros -> ->. repeat split.
Qed.

(** ** The timeout of a [waitForMessage] *)



Lemma elem_of_set_add_new {A} `{EqDecision A} (x : A) l : x ∈ set_add x l.
Proof.
  unfold set_add. destruct (decide (x ∈ l)); [assumption |].
  apply elem_of_app. right. apply list_elem_of_singleton. reflexivity.
Qed.



(** ** The reply to a [waitForMessage] *)













(** ** The reconnect counter and the handler registry *)

Lemma gentle_refl w : gentle w w.
Proof. constructor; auto. Qed.

Lemma gentle_trans w1 w2 w3 : gentle w1 w2 -> gentle w2 w3 -> gentle w1 w3.
Proof.
  intros [C1 B1 T1 F1] [C2 B2 T2 F2].
  constructor; [congruence | auto | auto | auto].
Qed.

Ltac gentle_same w :=
  destruct w; constructor; unfold bounded, fresh; fields; auto.

Lemma gentle_set_connectionState v w :
  v <> CONNECTED -> gentle w (set_connectionState v w).
Proof. intros Hv. gentle_same w. intros _ E. contradiction. Qed.

Lemma gentle_connected w :
  gentle w (set_reconnectAttempts 0 (set_connectionState CONNECTED w)).
Proof. gentle_same w. intros _. lia. Qed.

Lemma gentle_set_currentPort v w : gentle w (set_currentPort v w).
Proof. gentle_same w. Qed.

Lemma gentle_set_currentConnection v w : gentle w (set_currentConnection v w).
Proof. gentle_same w. Qed.

Lemma gentle_set_reconnectTimer v w : gentle w (set_reconnectTimer v w).
Proof. gentle_same w. Qed.

Lemma gentle_set_pendingMessages v w : gentle w (set_pendingMessages v w).
Proof. gentle_same w. Qed.

Lemma gentle_set_removed v w : gentle w (set_removed v w).
Proof. gentle_same w. Qed.

Lemma gentle_set_waits v w : gentle w (set_waits v w).
Proof. gentle_same w. Qed.

Lemma gentle_set_awaited v w : gentle w (set_awaited v w).
Proof. gentle_same w. Qed.

Lemma gentle_set_constructed v w : gentle w (set_constructed v w).
Proof. gentle_same w. Qed.

Lemma gentle_set_sockets v w : gentle w (set_sockets v w).
Proof. gentle_same w. Qed.

Lemma gentle_set_settled v w : gentle w (set_settled v w).
Proof. gentle_same w. Qed.

Lemma gentle_reset_counter w : gentle w (set_reconnectAttempts 0 w).
Proof. gentle_same w. intros _. lia. Qed.

Lemma gentle_setTimeout action w : gentle w (setTimeout action w).2.
Proof. unfold setTimeout. gentle_same w. Qed.

Lemma gentle_clearTimeout handle w : gentle w (clearTimeout handle w).
Proof. unfold clearTimeout. gentle_same w. Qed.

Lemma gentle_newPromise w : gentle w (newPromise w).2.
Proof. unfold newPromise. gentle_same w. Qed.

Lemma gentle_resolve p v w : gentle w (resolve p v w).
Proof. apply gentle_set_settled. Qed.

Lemma gentle_updateSocket s f w : gentle w (updateSocket s f w).
Proof.
  unfold updateSocket. destruct (sockets w !! s);
    [apply gentle_set_sockets | apply gentle_refl].
Qed.

Lemma gentle_close s w : gentle w (close s w).
Proof. apply gentle_updateSocket. Qed.

Lemma gentle_handleUnexpectedDisconnect w :
  gentle w (handleUnexpectedDisconnect w).
Proof.
  unfold handleUnexpectedDisconnect.
  destruct (reconnectAttempts w >=? maxReconnectAttempts (config w)) eqn:Hge.
  - (apply gentle_set_connectionState; discriminate).
  - assert (Hlt : reconnectAttempts w < maxReconnectAttempts (config w)).
    { rewrite Z.geb_leb in Hge. apply Z.leb_gt in Hge. exact Hge. }
    destruct w. revert Hlt. unfold setTimeout.
    constructor; unfold bounded, fresh; fields; auto;
      try (intros; discriminate).
    revert Hlt. fields. lia.
Qed.

Lemma gentle_reject p e w : gentle w (reject p e w).
Proof.
  unfold reject. cbv zeta.
  match goal with |- context [if ?c then _ else _] => destruct c end.
  - eapply gentle_trans; [apply gentle_set_settled |].
    apply gentle_handleUnexpectedDisconnect.
  - apply gentle_set_settled.
Qed.

Lemma gentle_rejectAll entries : forall w, gentle w (rejectAll entries w).
Proof.
  induction entries as [| [id entry] entries IH]; intros w;
    [apply gentle_refl |].
  cbn [rejectAll]. cbv zeta.
  eapply gentle_trans; [| apply IH].
  eapply gentle_trans; [apply gentle_clearTimeout | apply gentle_reject].
Qed.

Lemma gentle_disconnect w : gentle w (disconnect w) .
Proof.
  set (w1 := match reconnectTimer w with
             | Some handle => set_reconnectTimer None (clearTimeout handle w)
             | None => w
             end).
  set (w2 := rejectAll (pendingMessages w1) w1).
  set (w3 := set_pendingMessages []
               (set_removed (removed w2 ++ (pendingMessages w2).*1) w2)).
  set (w4 := match currentConnection w3 with
             | Some s =>
                 set_currentConnection None
                   (if bool_decide (readyStateOf s w3 = Some WS_OPEN)
                    then close s w3 else w3)
             | None => w3
             end).
  assert (Heq : disconnect w
                = set_reconnectAttempts 0
                    (set_currentPort None
                       (set_connectionState DISCONNECTED w4)))
    by reflexivity.
  assert (G1 : gentle w w1).
  { subst w1. destruct (reconnectTimer w); [| apply gentle_refl].
    eapply gentle_trans; [apply gentle_clearTimeout |].
    apply gentle_set_reconnectTimer. }
  assert (G2 : gentle w1 w2) by apply gentle_rejectAll.
  assert (G3 : gentle w2 w3).
  { eapply gentle_trans; [apply gentle_set_removed |].
    apply gentle_set_pendingMessages. }
  assert (G4 : gentle w3 w4).
  { subst w4. destruct (currentConnection w3) as [s |]; [| apply gentle_refl].
    eapply gentle_trans; [| apply gentle_set_currentConnection].
    destruct (bool_decide (readyStateOf s w3 = Some WS_OPEN));
      [apply gentle_close | apply gentle_refl]. }
  rewrite Heq. clearbody w4 w3 w2 w1.
  eapply gentle_trans; [exact G1 |]. eapply gentle_trans; [exact G2 |].
  eapply gentle_trans; [exact G3 |]. eapply gentle_trans; [exact G4 |].
  eapply gentle_trans;
    [apply (gentle_set_connectionState DISCONNECTED); discriminate |].
  eapply gentle_trans; [apply gentle_set_currentPort |].
  apply gentle_reset_counter.
Qed.

Lemma gentle_connect_tail port constructs w0 :
  gentle w0
    (let w := set_currentPort (Some port) w0 in
     let w := set_connectionState CONNECTING w in
     let '(p, w) := newPromise w in
     let '(connectTimeout, w) := setTimeout (ConnectTimeoutFired p port) w in
     let w := set_constructed (constructed w ++ [(port, constructs)]) w in
     if constructs then
       let s := length (sockets w) in
       let w := set_sockets
                  (sockets w ++ [{| readyState := WS_CONNECTING;
                                    ws_port := port;
                                    ws_timer := connectTimeout;
                                    ws_promise := p;
                                    listening := false;
                                    closeFired := false |}]) w in
       let w := set_currentConnection (Some s) w in
       (Attempt p, w)
     else
       let w := clearTimeout connectTimeout w in
       let w := set_connectionState FAILED w in
       let w := reject p (ConstructFailure port) w in
       (Attempt p, w)).2.
Proof.
  set (w1 := set_connectionState CONNECTING (set_currentPort (Some port) w0)).
  assert (G1 : gentle w0 w1).
  { eapply gentle_trans; [apply gentle_set_currentPort |].
    (apply gentle_set_connectionState; discriminate). }
  set (p := nextPromise w1).
  set (w2 := (newPromise w1).2).
  assert (G2 : gentle w1 w2) by apply gentle_newPromise.
  set (h := (setTimeout (ConnectTimeoutFired p port) w2).1).
  set (w3 := (setTimeout (ConnectTimeoutFired p port) w2).2).
  assert (G3 : gentle w2 w3) by apply gentle_setTimeout.
  set (w4 := set_constructed (constructed w3 ++ [(port, constructs)]) w3).
  assert (G4 : gentle w3 w4) by apply gentle_set_constructed.
  assert (G : gentle w0 w4).
  { eapply gentle_trans; [exact G1 |]. eapply gentle_trans; [exact G2 |].
    eapply gentle_trans; [exact G3 | exact G4]. }
  destruct constructs.
  - change (gentle w0
              (set_currentConnection (Some (length (sockets w4)))
                 (set_sockets
                    (sockets w4 ++ [{| readyState := WS_CONNECTING;
                                       ws_port := port;
                                       ws_timer := h;
                                       ws_promise := p;
                                       listening := false;
                                       closeFired := false |}]) w4))).
    clearbody w4 w3 w2 w1 h p.
    eapply gentle_trans; [exact G |].
    eapply gentle_trans; [apply gentle_set_sockets |].
    apply gentle_set_currentConnection.
  - change (gentle w0
              (reject p (ConstructFailure port)
                 (set_connectionState FAILED (clearTimeout h w4)))).
    clearbody w4 w3 w2 w1 h p.
    eapply gentle_trans; [exact G |].
    eapply gentle_trans; [apply gentle_clearTimeout |].
    eapply gentle_trans;
    [apply (gentle_set_connectionState FAILED); discriminate |].
    apply gentle_reject.
Qed.

Lemma gentle_connect port constructs w :
  gentle w (connect port constructs w).2.
Proof.
  unfold connect.
  destruct (if isConnected w && bool_decide (currentPort w = Some port)
            then currentConnection w else None) as [s |];
    [apply gentle_refl |].
  eapply gentle_trans; [apply gentle_disconnect |].
  generalize (disconnect w). intros d.
  apply (gentle_connect_tail port constructs d).
Qed.

Lemma gentle_reconnectCallback constructs w :
  gentle w (reconnectCallback constructs w).
Proof.
  unfold reconnectCallback.
  destruct (truthy_num (currentPort w)
            && bool_decide (connectionState w = RECONNECTING));
    [| apply gentle_refl].
  destruct (currentPort w) as [port |]; [| apply gentle_refl].
  pose proof (gentle_connect port constructs w) as G.
  destruct (connect port constructs w) as [r w']. cbn [snd] in G.
  destruct r as [s | p]; [exact G |].
  eapply gentle_trans; [exact G |].
  destruct (isSettled p w');
    [apply gentle_handleUnexpectedDisconnect | apply gentle_set_awaited].
Qed.

Lemma gentle_onopen s ws w : gentle w (onopen s ws w).
Proof.
  unfold onopen. cbv zeta.
  eapply gentle_trans; [apply gentle_clearTimeout |].
  eapply gentle_trans; [apply gentle_connected |].
  eapply gentle_trans; [apply gentle_updateSocket |].
  apply gentle_resolve.
Qed.

Lemma gentle_onerror ws w : gentle w (onerror ws w).
Proof.
  unfold onerror. cbv zeta.
  eapply gentle_trans; [apply gentle_clearTimeout |].
  eapply gentle_trans;
    [apply (gentle_set_connectionState FAILED); discriminate |].
  apply gentle_reject.
Qed.

Lemma gentle_onclose ws w : gentle w (onclose ws w).
Proof.
  unfold onclose. cbv zeta.
  eapply gentle_trans; [apply gentle_clearTimeout |].
  destruct (bool_decide
              (connectionState (clearTimeout (ws_timer ws) w) = CONNECTED));
    [apply gentle_handleUnexpectedDisconnect
    | apply gentle_set_connectionState; discriminate].
Qed.

(** *** The handler registry *)

Lemma assoc_set_keys {K V} `{EqDecision K} (k k' : K) (v : V) m :
  k' ∈ (assoc_set k v m).*1 -> k' = k \/ k' ∈ m.*1.
Proof.
  intros Hin. apply list_elem_of_fmap in Hin as ([k1 v1] & -> & Hin).
  apply elem_of_assoc_set in Hin as [[= -> ->] | Hin]; [auto |].
  right. apply list_elem_of_fmap. exists (k1, v1). auto.
Qed.

Lemma assoc_set_nodup {K V} `{EqDecision K} (k : K) (v : V) m :
  NoDup m.*1 -> NoDup (assoc_set k v m).*1.
Proof.
  induction m as [| [k0 v0] m IH]; cbn [assoc_set].
  - intros _. apply NoDup_singleton.
  - rewrite fmap_cons. cbn [fst]. rewrite NoDup_cons. intros [Hnin Hnd].
    destruct (decide (k = k0)) as [-> | Hne].
    + rewrite fmap_cons. cbn [fst]. apply NoDup_cons. auto.
    + rewrite fmap_cons. cbn [fst]. apply NoDup_cons. split; [| auto].
      intros Hin. apply assoc_set_keys in Hin as [-> | Hin]; contradiction.
Qed.

Lemma set_add_nodup {A} `{EqDecision A} (x : A) l :
  NoDup l -> NoDup (set_add x l).
Proof.
  intros Hnd. unfold set_add. destruct (decide (x ∈ l)) as [_ | Hnin];
    [exact Hnd |].
  apply NoDup_app. split; [exact Hnd |]. split; [| apply NoDup_singleton].
  intros y Hy Hy'. apply list_elem_of_singleton in Hy'. subst y. exact (Hnin Hy).
Qed.

Lemma set_delete_nodup {A} `{EqDecision A} (x : A) l :
  NoDup l -> NoDup (set_delete x l).
Proof.
  induction l as [| y l IH]; simpl; [auto |].
  rewrite NoDup_cons. intros [Hnin Hnd].
  destruct (decide (x = y)); [auto |].
  apply NoDup_cons. split; [| auto].
  intros Hin. apply Hnin. apply (elem_of_set_delete _ _ _ Hin).
Qed.

Lemma tidy_nil : tidy [].
Proof. split; [apply NoDup_nil_2 | intros ty hs Hin; inversion Hin]. Qed.

Lemma tidy_delete ty handlers : tidy handlers -> tidy (assoc_delete ty handlers).
Proof.
  intros [Hk Hs]. split; [apply assoc_delete_nodup, Hk |].
  intros ty' hs Hin. apply elem_of_assoc_delete in Hin as [Hin _]. eauto.
Qed.

Lemma tidy_set ty hs handlers :
  hs <> [] -> NoDup hs -> tidy handlers -> tidy (assoc_set ty hs handlers).
Proof.
  intros Hne Hnd [Hk Hs]. split; [apply assoc_set_nodup, Hk |].
  intros ty' hs' Hin. apply elem_of_assoc_set in Hin as [[= -> ->] | Hin]; eauto.
Qed.

Lemma gentle_handlers handlers w :
  (tidy (messageHandlers w) -> tidy handlers) ->
  gentle w (set_messageHandlers handlers w).
Proof. intros Ht. destruct w. revert Ht. constructor; auto. Qed.

Lemma gentle_addMessageHandler ty handler w :
  gentle w (addMessageHandler ty handler w).
Proof.
  unfold addMessageHandler. apply gentle_handlers. intros Ht.
  apply tidy_set; [| | exact Ht].
  - intros Hnil. pose proof (elem_of_set_add_new handler
                    (default [] (assoc_get ty (messageHandlers w)))) as Hin.
    rewrite Hnil in Hin. inversion Hin.
  - apply set_add_nodup.
    destruct (assoc_get ty (messageHandlers w)) as [hs |] eqn:Hget;
      [| apply NoDup_nil_2].
    apply assoc_get_elem_of in Hget. apply (proj2 Ht _ _ Hget).
Qed.

Lemma gentle_removeMessageHandler ty handler w :
  gentle w (removeMessageHandler ty handler w).
Proof.
  unfold removeMessageHandler.
  destruct (assoc_get ty (messageHandlers w)) as [hs |] eqn:Hget;
    [| apply gentle_refl].
  apply assoc_get_elem_of in Hget.
  destruct (bool_decide (set_delete handler hs = [])) eqn:Hempty.
  - apply gentle_handlers. apply tidy_delete.
  - apply gentle_handlers. intros Ht. apply tidy_set; [| | exact Ht].
    + apply bool_decide_eq_false_1 in Hempty. exact Hempty.
    + apply set_delete_nodup. apply (proj2 Ht _ _ Hget).
Qed.

Lemma gentle_removeAllMessageHandlers ty w :
  gentle w (removeAllMessageHandlers ty w).
Proof.
  unfold removeAllMessageHandlers.
  assert (Hnil : gentle w (set_messageHandlers [] w)).
  { apply gentle_handlers. intros _. apply tidy_nil. }
  destruct ty as [ty |]; [| exact Hnil].
  destruct (bool_decide (ty = "")); [exact Hnil |].
  apply gentle_handlers. apply tidy_delete.
Qed.

Lemma gentle_destroy w : gentle w (destroy w).
Proof.
  unfold destroy. eapply gentle_trans; [apply gentle_disconnect |].
  apply gentle_removeAllMessageHandlers.
Qed.

Lemma gentle_waitForMessage ty timeout now random w :
  gentle w (waitForMessage ty timeout now random w).2.
Proof.
  set (ms := or_num timeout (messageTimeout (config w))).
  set (p := nextPromise w).
  set (w1 := (newPromise w).2).
  set (id := (ty, now, random)).
  set (h := (setTimeout (MessageTimeoutFired id ty ms p) w1).1).
  set (w2 := (setTimeout (MessageTimeoutFired id ty ms p) w1).2).
  set (w3 := set_waits (waits (set_pendingMessages
                                 (assoc_set id {| promise := p; timer := h |}
                                    (pendingMessages w2)) w2) ++ [(p, id)])
               (set_pendingMessages
                  (assoc_set id {| promise := p; timer := h |}
                     (pendingMessages w2)) w2)).
  change (gentle w (addMessageHandler ty (OneShot ty id p) w3)).
  eapply gentle_trans; [apply gentle_newPromise |]. fold w1.
  eapply gentle_trans; [apply gentle_setTimeout |]. fold w2.
  eapply gentle_trans; [apply gentle_set_pendingMessages |].
  eapply gentle_trans; [apply gentle_set_waits |].
  apply gentle_addMessageHandler.
Qed.

Lemma gentle_invoke message handler w : gentle w (invoke message handler w).
Proof.
  destruct handler as [ty id p | n]; [| apply gentle_refl].
  unfold invoke.
  destruct (type_is message ty); [| apply gentle_refl].
  destruct (assoc_get id (pendingMessages w)) as [e |]; [| apply gentle_refl].
  cbv zeta.
  eapply gentle_trans; [apply gentle_clearTimeout |].
  eapply gentle_trans; [apply gentle_set_pendingMessages |].
  eapply gentle_trans; [apply gentle_set_removed |].
  eapply gentle_trans; [apply gentle_removeMessageHandler |].
  apply gentle_resolve.
Qed.

Lemma gentle_handleMessage message w : gentle w (handleMessage message w).
Proof.
  unfold handleMessage.
  destruct (prop "type" message) as [messageType | ?]; [| apply gentle_refl].
  destruct (truthy messageType); [| apply gentle_refl].
  destruct messageType as [[| | | ty | |] |]; try apply gentle_refl.
  destruct (assoc_get ty (messageHandlers w)) as [handlers |];
    [| apply gentle_refl].
  generalize w. induction handlers as [| h handlers IH]; intros w0;
    [apply gentle_refl |].
  cbn [foldl]. eapply gentle_trans; [apply gentle_invoke | apply IH].
Qed.

Lemma gentle_fire action constructs w : gentle w (fire action constructs w).
Proof.
  destruct action as [p port | id ty ms p |]; unfold fire; cbv zeta.
  - eapply gentle_trans; [| apply gentle_reject].
    eapply gentle_trans; [| (apply gentle_set_connectionState; discriminate)].
    destruct (currentConnection w); [apply gentle_close | apply gentle_refl].
  - eapply gentle_trans; [| apply gentle_reject].
    destruct (assoc_get id (pendingMessages w)); [| apply gentle_refl].
    eapply gentle_trans; [apply gentle_set_pendingMessages |].
    apply gentle_set_removed.
  - apply gentle_reconnectCallback.
Qed.

Lemma gentle_step w ev : gentle w (step w ev).
Proof.
  destruct ev as [port constructs | | ty timeout now random | ty callback
                 | ty callback | ty | | handle constructs | s | s | s
                 | s data]; cbn [step].
  - apply gentle_connect.
  - apply gentle_disconnect.
  - apply gentle_waitForMessage.
  - apply gentle_addMessageHandler.
  - apply gentle_removeMessageHandler.
  - apply gentle_removeAllMessageHandlers.
  - apply gentle_destroy.
  - destruct (assoc_get handle (timers w)); [| apply gentle_refl].
    eapply gentle_trans; [apply gentle_clearTimeout | apply gentle_fire].
  - destruct (sockets w !! s) as [ws |]; [| apply gentle_refl].
    destruct (bool_decide (readyState ws = WS_CONNECTING));
      [| apply gentle_refl].
    eapply gentle_trans; [apply gentle_updateSocket | apply gentle_onopen].
  - destruct (sockets w !! s) as [ws |]; [| apply gentle_refl].
    destruct (closeFired ws); [apply gentle_refl |].
    eapply gentle_trans; [apply gentle_updateSocket | apply gentle_onerror].
  - destruct (sockets w !! s) as [ws |]; [| apply gentle_refl].
    destruct (closeFired ws); [apply gentle_refl |].
    eapply gentle_trans; [apply gentle_updateSocket | apply gentle_onclose].
  - destruct (sockets w !! s) as [ws |]; [| apply gentle_refl].
    destruct (bool_decide (readyState ws = WS_OPEN) && listening ws);
      [| apply gentle_refl].
    destruct data as [message |]; [| apply gentle_refl].
    apply gentle_handleMessage.
Qed.

Lemma gentle_run evs : forall w, gentle w (run w evs).
Proof.
  induction evs as [| ev evs IH]; intros w; [apply gentle_refl |].
  change (run w (ev :: evs)) with (run (step w ev) evs).
  eapply gentle_trans; [apply gentle_step | apply IH].
Qed.

(** X6: Through every history of calls, timer firings and socket events
    the configuration stays as given to the constructor and the
    reconnect counter stays between 0 and [maxReconnectAttempts]. *)
Theorem reconnectAttempts_bounded c evs :
  config (run (create c) evs) = c
  /\ 0 <= reconnectAttempts (run (create c) evs)
       <= Z.max 0 (maxReconnectAttempts c).
Proof.
  destruct (gentle_run evs (create c)) as [C B _ _].
  split; [exact C |].
  assert (B0 : bounded (create c)) by (unfold bounded; cbn; lia).
  specialize (B B0). unfold bounded in B. rewrite C in B. exact B.
Qed.

(** X7: Through every history the handler registry has one entry per
    type, and every entry holds at least one handler and no handler
    twice: [removeMessageHandler] drops a type with its last handler. *)
Theorem messageHandlers_tidy c evs :
  NoDup (messageHandlers (run (create c) evs)).*1
  /\ forall ty hs,
       (ty, hs) ∈ messageHandlers (run (create c) evs) ->
       hs <> [] /\ NoDup hs.
Proof.
  destruct (gentle_run evs (create c)) as [_ _ T _]. apply T. apply tidy_nil.
Qed.

(** X30: In every state the manager reaches, CONNECTED comes with a
    reconnect counter of 0: only [ws.onopen] enters the state, and it
    resets the counter.  So with a positive [maxReconnectAttempts] a
    close event that finds the manager CONNECTED never meets the
    ceiling: the manager goes to RECONNECTING with the counter at 1. *)
Theorem connected_counter_zero c evs s ws :
  let w := run (create c) evs in
  connectionState w = CONNECTED ->
  reconnectAttempts w = 0
  /\ (0 < maxReconnectAttempts c ->
      sockets w !! s = Some ws ->
      closeFired ws = false ->
      connectionState (step w (SocketCloses s)) = RECONNECTING
      /\ reconnectAttempts (step w (SocketCloses s)) = 1).
Proof.
  cbv zeta. intros Hst.
  destruct (gentle_run evs (create c)) as [C _ _ F].
  change (config (run (create c) evs) = c) in C.
  assert (H0 : reconnectAttempts (run (create c) evs) = 0).
  { apply F; [| exact Hst]. intros _. reflexivity. }
  split; [exact H0 |].
  revert C H0 Hst. generalize (run (create c) evs). intros w C H0 Hst Hmax Hs Hcf.
  cbn [step]. rewrite Hs, Hcf.
  unfold onclose, updateSocket. rewrite Hs. unfold clearTimeout.
  unfold handleUnexpectedDisconnect, setTimeout.
  destruct w. revert Hs Hst C H0. fields. intros Hs -> -> ->.
  rewrite bool_decide_eq_true_2 by reflexivity.
  destruct (0 >=? maxReconnectAttempts c) eqn:Hge.
  - rewrite Z.geb_leb in Hge. apply Z.leb_le in Hge. lia.
  - fields. split; reflexivity.
Qed.

Lemma connected_counter_zero_witness :
  let w := run (create DEFAULT_CONFIG) [Connect 9999 true; SocketOpens 0%nat] in
  reconnectAttempts w = 0
  /\ connectionState (step w (SocketCloses 0%nat)) = RECONNECTING
  /\ reconnectAttempts (step w (SocketCloses 0%nat)) = 1.
Proof.
  cbv zeta.
  destruct (connected_counter_zero DEFAULT_CONFIG
              [Connect 9999 true; SocketOpens 0%nat] 0%nat
              {| readyState := WS_OPEN; ws_port := 9999; ws_timer := 0%nat;
                 ws_promise := 0%nat; listening := true;
                 closeFired := false |} eq_refl) as [H0 Hclose].
  split; [exact H0 |].
  apply Hclose; [reflexivity | reflexivity | reflexivity].
Defined.

(** ** Timers and sockets *)

(** X8: In every history with pairwise distinct keys, a running
    [waitForMessage] timer belongs to an entry that is still pending,
    with that timer and that promise: once an entry has left the map
    (reply, timeout or [disconnect()]) its timer is not running. *)
Theorem running_timer_has_entry c evs h id ty ms p :
  NoDup (messageIds evs) ->
  (h, MessageTimeoutFired id ty ms p) ∈ timers (run (create c) evs) ->
  (id, {| promise := p; timer := h |}) ∈ pendingMessages (run (create c) evs).
Proof.
  intros Hnd Hin. destruct (reachable_consistent c evs Hnd) as [C _].
  apply (timer_pending _ C _ _ _ _ _ Hin).
Qed.

Lemma running_timer_has_entry_witness :
  (("ack", 1000, 2), {| promise := 2%nat; timer := 2%nat |})
  ∈ pendingMessages
      (run (create DEFAULT_CONFIG)
         [Connect 9999 true; SocketOpens 0%nat;
          WaitForMessage "pong" None 1000 1;
          WaitForMessage "ack" (Some 50) 1000 2;
          TimerFires 1%nat true]).
Proof.
  apply (running_timer_has_entry DEFAULT_CONFIG
           [Connect 9999 true; SocketOpens 0%nat;
            WaitForMessage "pong" None 1000 1;
            WaitForMessage "ack" (Some 50) 1000 2;
            TimerFires 1%nat true]
           2%nat ("ack", 1000, 2) "ack" 50 2%nat).
  - apply (bool_decide_unpack _). vm_compute. exact I.
  - vm_compute. apply list_elem_of_In. left. reflexivity.
Defined.

(** X9: A close event on any socket, the current one or one that
    [disconnect()] or a later [connect()] has replaced, while the
    manager is CONNECTED counts as an unexpected disconnect: below
    the ceiling the manager goes to RECONNECTING, counts the attempt
    and starts the reconnect timer; at the ceiling it goes to FAILED
    and starts no timer. *)
Theorem close_while_connected w s ws :
  sockets w !! s = Some ws ->
  closeFired ws = false ->
  connectionState w = CONNECTED ->
  let w' := step w (SocketCloses s) in
  if reconnectAttempts w >=? maxReconnectAttempts (config w) then
    connectionState w' = FAILED
    /\ reconnectAttempts w' = reconnectAttempts w
    /\ reconnectTimer w' = reconnectTimer w
    /\ (forall h, (h, ReconnectFired) ∈ timers w' -> (h, ReconnectFired) ∈ timers w)
  else
    connectionState w' = RECONNECTING
    /\ reconnectAttempts w' = reconnectAttempts w + 1
    /\ reconnectTimer w' = Some (nextTimer w)
    /\ (nextTimer w, ReconnectFired) ∈ timers w'.
Proof.
  intros Hs Hcf Hst. cbv zeta. cbn [step]. rewrite Hs, Hcf.
  unfold onclose, updateSocket. rewrite Hs. unfold clearTimeout.
  unfold handleUnexpectedDisconnect, setTimeout.
  destruct w. revert Hs Hst. fields. intros Hs ->.
  rewrite bool_decide_eq_true_2 by reflexivity.
  destruct (reconnectAttempts0 >=? maxReconnectAttempts config0); fields.
  - repeat split. intros h Hin. apply elem_of_assoc_delete in Hin as [Hin _].
    exact Hin.
  - repeat split. apply elem_of_app. right. apply list_elem_of_singleton.
    reflexivity.
Qed.

Lemma close_while_connected_witness :
  let w := run (create DEFAULT_CONFIG) portSwitch in
  let w' := step w (SocketCloses 0%nat) in
  currentPort w = Some 8888
  /\ isConnected w = true
  /\ connectionState w' = RECONNECTING
  /\ reconnectAttempts w' = reconnectAttempts w + 1
  /\ reconnectTimer w' = Some (nextTimer w)
  /\ (nextTimer w, ReconnectFired) ∈ timers w'.
Proof.
  split; [reflexivity |]. split; [reflexivity |].
  apply (close_while_connected (run (create DEFAULT_CONFIG) portSwitch) 0%nat
           {| readyState := WS_CLOSING; ws_port := 9999; ws_timer := 0%nat;
              ws_promise := 0%nat; listening := true; closeFired := false |});
    reflexivity.
Defined.

Lemma connect_tail_fields port d :
  let w' :=
    (let w := set_currentPort (Some port) d in
     let w := set_connectionState CONNECTING w in
     let '(p, w) := newPromise w in
     let '(connectTimeout, w) := setTimeout (ConnectTimeoutFired p port) w in
     let w := set_constructed (constructed w ++ [(port, true)]) w in
     let s := length (sockets w) in
     let w := set_sockets
                (sockets w ++ [{| readyState := WS_CONNECTING;
                                  ws_port := port;
                                  ws_timer := connectTimeout;
                                  ws_promise := p;
                                  listening := false;
                                  closeFired := false |}]) w in
     let w := set_currentConnection (Some s) w in
     (Attempt p, w)) in
  w'.1 = Attempt (nextPromise d)
  /\ connectionState w'.2 = CONNECTING
  /\ currentPort w'.2 = Some port
  /\ reconnectAttempts w'.2 = reconnectAttempts d
  /\ pendingMessages w'.2 = pendingMessages d
  /\ settled w'.2 = settled d
  /\ currentConnection w'.2 = Some (length (sockets d))
  /\ sockets w'.2
     = sockets d ++ [{| readyState := WS_CONNECTING; ws_port := port;
                        ws_timer := nextTimer d; ws_promise := nextPromise d;
                        listening := false; closeFired := false |}]
  /\ timers w'.2
     = timers d ++ [(nextTimer d, ConnectTimeoutFired (nextPromise d) port)]
  /\ constructed w'.2 = constructed d ++ [(port, true)].
Proof. destruct d. repeat split. Qed.

(** X10: [connect(port)] on a manager that is not already connected to
    that port: the previous connection is given up, every pending
    [waitForMessage] is rejected with the connection-closed error,
    and a new socket for [port] is the current connection, in state
    CONNECTING with its connect timeout running; what is returned is
    the promise of that attempt. *)
Theorem connect_replaces_connection port w :
  isConnected w && bool_decide (currentPort w = Some port) = false ->
  let w' := (connect port true w).2 in
  connectionState w' = CONNECTING
  /\ currentPort w' = Some port
  /\ reconnectAttempts w' = 0
  /\ pendingMessages w' = []
  /\ (forall id e, (id, e) ∈ pendingMessages w ->
        (promise e, Rejected ConnectionClosed) ∈ settled w')
  /\ exists s ws,
       currentConnection w' = Some s
       /\ sockets w' !! s = Some ws
       /\ readyState ws = WS_CONNECTING
       /\ ws_port ws = port
       /\ (connect port true w).1 = Attempt (ws_promise ws)
       /\ (ws_timer ws, ConnectTimeoutFired (ws_promise ws) port) ∈ timers w'.
Proof.
  intros Hcond. cbv zeta. unfold connect. rewrite Hcond.
  destruct (disconnect_control w) as (_ & _ & A & _).
  destruct (disconnect_fields w) as (P & _ & _ & _ & _ & _ & S & _).
  revert A P S. generalize (disconnect w). intros d A P S.
  destruct (connect_tail_fields port d)
    as (R1 & R2 & R3 & R4 & R5 & R6 & R7 & R8 & R9 & R10).
  cbv zeta in R1, R2, R3, R4, R5, R6, R7, R8, R9, R10.
  split; [exact R2 |]. split; [exact R3 |].
  split; [rewrite R4; exact A |]. split; [rewrite R5; exact P |].
  split.
  - intros id e Hin. rewrite R6, S. apply elem_of_app. right.
    unfold rejections. apply list_elem_of_fmap. exists (id, e). auto.
  - eexists _, _. split; [exact R7 |].
    split; [rewrite R8; apply list_lookup_middle; reflexivity |].
    split; [reflexivity |]. split; [reflexivity |].
    split; [exact R1 |].
    rewrite R9. apply elem_of_app. right. apply list_elem_of_singleton.
    reflexivity.
Qed.

Lemma connect_replaces_connection_witness :
  let w := run (create DEFAULT_CONFIG)
             [Connect 9999 true; SocketOpens 0%nat;
              WaitForMessage "pong" None 1000 1] in
  let w' := (connect 8888 true w).2 in
  connectionState w' = CONNECTING
  /\ currentPort w' = Some 8888
  /\ reconnectAttempts w' = 0
  /\ pendingMessages w' = []
  /\ (forall id e, (id, e) ∈ pendingMessages w ->
        (promise e, Rejected ConnectionClosed) ∈ settled w')
  /\ exists s ws,
       currentConnection w' = Some s
       /\ sockets w' !! s = Some ws
       /\ readyState ws = WS_CONNECTING
       /\ ws_port ws = 8888
       /\ (connect 8888 true w).1 = Attempt (ws_promise ws)
       /\ (ws_timer ws, ConnectTimeoutFired (ws_promise ws) 8888) ∈ timers w'.
Proof.
  apply (connect_replaces_connection 8888
           (run (create DEFAULT_CONFIG)
              [Connect 9999 true; SocketOpens 0%nat;
               WaitForMessage "pong" None 1000 1])).
  reflexivity.
Defined.

(** X11: The [open] event of the current socket: the manager is
    connected, the reconnect counter is back at 0, the connect
    timeout is cleared, the socket delivers messages from now on and
    the promise of [connect] is resolved with it. *)
Theorem open_connects w s ws :
  sockets w !! s = Some ws ->
  readyState ws = WS_CONNECTING ->
  currentConnection w = Some s ->
  let w' := step w (SocketOpens s) in
  isConnected w' = true
  /\ reconnectAttempts w' = 0
  /\ (ws_promise ws, ResolvedSocket s) ∈ settled w'
  /\ (ws_timer ws ∉ (timers w').*1)
  /\ exists ws', sockets w' !! s = Some ws' /\ listening ws' = true.
Proof.
  intros Hs Hrs Hcur. cbv zeta. cbn [step]. rewrite Hs, Hrs.
  rewrite bool_decide_eq_true_2 by reflexivity.
  assert (Hlen : (s < length (sockets w))%nat)
    by (apply lookup_lt_is_Some; eauto).
  unfold onopen, isConnected, readyStateOf, updateSocket, clearTimeout, resolve.
  rewrite Hs. destruct w. revert Hs Hcur Hlen. fields. intros Hs -> Hlen.
  unfold Socket in *.
  rewrite list_lookup_insert_eq by exact Hlen. fields.
  rewrite list_lookup_insert_eq
    by (rewrite length_insert; exact Hlen).
  cbn [fmap option_fmap option_map readyState set_listening set_readyState].
  rewrite !bool_decide_eq_true_2 by reflexivity.
  split; [reflexivity |]. split; [reflexivity |].
  split; [apply elem_of_app; right; apply list_elem_of_singleton; reflexivity |].
  split.
  - intros Hin. apply assoc_delete_keys in Hin as [_ Hne]. apply Hne. reflexivity.
  - eexists. split; reflexivity.
Qed.

Lemma open_connects_witness :
  let w := run (create DEFAULT_CONFIG) [Connect 9999 true] in
  let w' := step w (SocketOpens 0%nat) in
  isConnected w' = true
  /\ reconnectAttempts w' = 0
  /\ (0%nat, ResolvedSocket 0%nat) ∈ settled w'
  /\ (0%nat ∉ (timers w').*1)
  /\ exists ws', sockets w' !! 0%nat = Some ws' /\ listening ws' = true.
Proof.
  apply (open_connects (run (create DEFAULT_CONFIG) [Connect 9999 true]) 0%nat
           {| readyState := WS_CONNECTING; ws_port := 9999; ws_timer := 0%nat;
              ws_promise := 0%nat; listening := false; closeFired := false |});
    reflexivity.
Defined.

(** X12: When a connect timeout fires, for an attempt that the reconnect
    callback is not waiting for: the attempt's promise is rejected
    with the timeout error, the manager is FAILED and not connected,
    and the socket that is current at that moment, be it the one of
    the attempt or one that a later [connect()] installed, is closed
    if it was open or connecting. *)
Theorem connect_timeout_fails w h p port constructs :
  assoc_get h (timers w) = Some (ConnectTimeoutFired p port) ->
  p ∉ awaited w ->
  let w' := step w (TimerFires h constructs) in
  connectionState w' = FAILED
  /\ isConnected w' = false
  /\ (p, Rejected (ConnectTimeout port (connectTimeout (config w)))) ∈ settled w'
  /\ currentConnection w' = currentConnection w
  /\ forall s ws,
       currentConnection w = Some s -> sockets w !! s = Some ws ->
       readyState ws <> WS_CLOSED ->
       readyStateOf s w' = Some WS_CLOSING.
Proof.
  intros Hget Hnot. cbv zeta. cbn [step]. rewrite Hget.
  unfold fire, reject, isSettled, isConnected. cbv zeta.
  assert (Haw : forall w0, awaited w0 = awaited w ->
                  bool_decide (p ∈ awaited w0) = false).
  { intros w0 ->. apply bool_decide_eq_false_2. exact Hnot. }
  destruct (currentConnection w) as [s |] eqn:Hcur.
  - assert (Hc : currentConnection (clearTimeout h w) = Some s)
      by (destruct w; exact Hcur).
    rewrite Hc. unfold close, updateSocket, readyStateOf.
    assert (Hso : sockets (clearTimeout h w) = sockets w)
      by (destruct w; reflexivity).
    rewrite Hso.
    destruct (sockets w !! s) as [ws |] eqn:Hs.
    + rewrite Haw by (destruct w; reflexivity). rewrite andb_false_r.
      assert (Hlen : (s < length (sockets w))%nat)
        by (apply lookup_lt_is_Some; eauto).
      destruct w. revert Hcur Hs Hlen. unfold clearTimeout. fields.
      intros -> Hs Hlen.
      split; [reflexivity |]. split; [reflexivity |].
      split; [apply elem_of_app; right; apply list_elem_of_singleton;
              reflexivity |].
      split; [reflexivity |].
      intros s0 ws0 [= <-] Hs0 Hnc. unfold Socket in *.
      rewrite Hs in Hs0. injection Hs0 as <-.
      rewrite list_lookup_insert_eq by exact Hlen.
      destruct (readyState ws); try reflexivity. contradiction.
    + rewrite Haw by (destruct w; reflexivity). rewrite andb_false_r.
      destruct w. revert Hcur Hs. unfold clearTimeout. fields.
      intros -> Hs.
      split; [reflexivity |]. split; [reflexivity |].
      split; [apply elem_of_app; right; apply list_elem_of_singleton;
              reflexivity |].
      split; [reflexivity |].
      intros s0 ws0 [= <-] Hs0. unfold Socket in *. congruence.
  - assert (Hc : currentConnection (clearTimeout h w) = None)
      by (destruct w; exact Hcur).
    rewrite Hc. rewrite Haw by (destruct w; reflexivity).
    rewrite andb_false_r.
    destruct w. revert Hcur. unfold clearTimeout. fields. intros ->.
    split; [reflexivity |]. split; [reflexivity |].
    split; [apply elem_of_app; right; apply list_elem_of_singleton;
            reflexivity |].
    split; [reflexivity |]. intros s0 ws0 Hn. discriminate.
Qed.

Lemma connect_timeout_fails_witness :
  let w := run (create DEFAULT_CONFIG) overlappingConnects in
  let w' := step w (TimerFires 0%nat true) in
  (currentPort w = Some 8888 /\ isConnected w = true)
  /\ connectionState w' = FAILED
  /\ isConnected w' = false
  /\ (0%nat, Rejected (ConnectTimeout 9999 (connectTimeout (config w))))
     ∈ settled w'
  /\ currentConnection w' = currentConnection w
  /\ forall s ws,
       currentConnection w = Some s -> sockets w !! s = Some ws ->
       readyState ws <> WS_CLOSED ->
       readyStateOf s w' = Some WS_CLOSING.
Proof.
  split; [split; reflexivity |].
  apply (connect_timeout_fails
           (run (create DEFAULT_CONFIG) overlappingConnects) 0%nat 0%nat 9999
           true).
  - reflexivity.
  - vm_compute. apply not_elem_of_nil.
Defined.

(** ** The URL of a connection *)

Lemma substring_prefix (sub post : string) :
  String.substring 0 (String.length sub) (sub +:+ post) = sub.
Proof.
  induction sub as [| a sub IH].
  - destruct post; reflexivity.
  - change (String a (String.substring 0 (String.length sub) (sub +:+ post))
            = String a sub).
    f_equal. exact IH.
Qed.

Lemma substring_middle (pre sub post : string) :
  String.substring (String.length pre) (String.length sub)
    (pre +:+ sub +:+ post) = sub.
Proof.
  induction pre as [| a pre IH]; [exact (substring_prefix sub post) | exact IH].
Qed.

Lemma includes_middle (pre sub post : string) :
  sub <> "" -> includes sub (pre +:+ sub +:+ post) = true.
Proof.
  intros Hne. unfold includes.
  destruct (String.index 0 sub (pre +:+ sub +:+ post)) eqn:Hidx;
    [reflexivity |].
  exfalso.
  apply (String.index_correct3 0 (String.length pre) sub
           (pre +:+ sub +:+ post) Hidx Hne); [lia |].
  apply substring_middle.
Qed.

(** X13: [buildWebSocketUrl] returns the saved URL whenever the text
    [":<port>"] occurs anywhere in it, whatever precedes and follows:
    the page's protocol and host name are not consulted, and the
    saved URL is also taken when more digits follow, that is when it
    names another port of which [port] is a prefix. *)
Theorem buildWebSocketUrl_saved pre post pageProtocol hostname port :
  buildWebSocketUrl (Some (pre +:+ (":" +:+ pretty port) +:+ post))
    pageProtocol hostname port
  = pre +:+ (":" +:+ pretty port) +:+ post.
Proof.
  unfold buildWebSocketUrl. cbv zeta.
  rewrite includes_middle; [reflexivity |]. discriminate.
Qed.

End ConnectionManagerProofs.

Module ConnectionManagerSingletonProofs.
Import JS ConnectionManagerSingleton.

Lemma initialized_step s op :
  isInitialized s = hasInstance s ->
  isInitialized (step s op) = hasInstance (step s op).
Proof.
  unfold hasInstance. intros Hinv.
  destruct op as [config | | | ev]; cbn [step];
    unfold reset, destroy, getInstance;
    destruct (instance s) as [manager |] eqn:Hi; cbn; try rewrite Hi;
    auto.
Qed.

Lemma initialized_run ops :
  isInitialized (run ops) = hasInstance (run ops).
Proof.
  unfold run. induction ops as [| op ops IH] using rev_ind; [reflexivity |].
  rewrite foldl_app. cbn [foldl]. apply initialized_step, IH.
Qed.

(** X14: The singleton in every state the application can bring it to:
    [isInitialized] is true exactly when there is an instance;
    [getInstance] with an instance in place returns that instance and
    changes nothing, whatever configuration is passed; without one
    it creates a disconnected manager whose configuration is the
    singleton defaults overridden by the properties passed, and a
    second call returns the same manager, ignoring its own
    configuration; after [destroy()] or [reset()] there is no
    instance, and the manager that was held is left destroyed. *)
Theorem getInstance_shared ops config config' :
  let s := run ops in
  isInitialized s = hasInstance s
  /\ (forall manager,
        instance s = Some manager -> getInstance config s = (manager, s))
  /\ (instance s = None ->
        ConnectionManager.config (getInstance config s).1
        = spread DEFAULT_SINGLETON_CONFIG config
        /\ ConnectionManager.connectionState (getInstance config s).1
           = ConnectionManager.DISCONNECTED)
  /\ getInstance config' (getInstance config s).2
     = ((getInstance config s).1, (getInstance config s).2)
  /\ hasInstance (destroy s).2 = false
  /\ (reset s = destroy s)
  /\ (forall manager,
        instance s = Some manager ->
        (destroy s).1 = Some (ConnectionManager.destroy manager)).
Proof.
  intros s. split; [apply initialized_run |].
  generalize s. clear s. intros s.
  unfold getInstance, destroy, reset, hasInstance.
  split; [intros manager ->; reflexivity |].
  split.
  { intros ->. split; [| reflexivity]. destruct config as [[] |]; reflexivity. }
  split; [destruct (instance s) as [manager |] eqn:Hi; cbn;
          try rewrite Hi; reflexivity |].
  split; [destruct (instance s) as [manager |] eqn:Hi; cbn;
          try rewrite Hi; reflexivity |].
  split; [reflexivity |].
  intros manager ->. reflexivity.
Qed.

End ConnectionManagerSingletonProofs.

Module WebServerProofs.
Import JS WebServer.

(** X21: [verifyServiceRestart] against the [/api/health] handler of the
    server.  The [timestamp] of the response is the time of the
    response, not the start time of the server; so, for a server
    that answers (no fresh cache entry, valid dates), the result
    does not depend on [serverStartTime]: it is true when the
    response was produced after the baseline, whether the server has
    restarted since or not, and otherwise decided by the uptime. *)
Theorem verifyServiceRestart_against_server server health oldTimestamp port0
    now later hc :
  HealthChecker.fresh_cached hc port0 now = None ->
  - max_time_value <= oldTimestamp <= max_time_value ->
  0 < clock server <= max_time_value ->
  fst (HealthChecker.verifyServiceRestart oldTimestamp port0 now
         {| HealthChecker.fetched :=
              HealthChecker.FetchResolves
                (healthEndpoint server (Normal health));
            HealthChecker.completed := later |} later hc)
  = Normal ((clock server >? oldTimestamp)
            || (later - uptimeSeconds server * 1000 >? oldTimestamp)).
Proof.
  intros Hmiss Hold Hclock.
  unfold HealthChecker.verifyServiceRestart, toISOString.
  assert (Hp : (- max_time_value <=? oldTimestamp)
               && (oldTimestamp <=? max_time_value) = true)
    by (apply andb_true_iff; split; apply Z.leb_le; lia).
  assert (Ht : (- max_time_value <=? clock server)
               && (clock server <=? max_time_value) = true)
    by (apply andb_true_iff; split; apply Z.leb_le; unfold max_time_value in *;
        lia).
  assert (Hz : (clock server =? 0) = false) by (apply Z.eqb_neq; lia).
  rewrite Hp.
  unfold mbind, eff_bind, mret, eff_ret, bind, ret, throw, try_catch.
  rewrite (HealthCheckerProofs.getHealthStatus_miss _ _ _ _ Hmiss).
  unfold HealthChecker.liveCheck, HealthChecker.fetch, HealthChecker.json,
    HealthChecker.cacheSet, truthy_num, or_num, healthEndpoint.
  unfold mbind, eff_bind, mret, eff_ret, bind, ret, throw, try_catch, get,
    modify.
  cbn. rewrite Hz. cbn. rewrite Hz.
  destruct (clock server >? oldTimestamp); cbn.
  - rewrite Ht. reflexivity.
  - destruct (later - uptimeSeconds server * 1000 >? oldTimestamp);
      reflexivity.
Qed.

Lemma verifyServiceRestart_against_server_witness :
  let baseline := clock upForAnHour - 10000 in
  (serverStartTime upForAnHour <? baseline) = true
  /\ fst (HealthChecker.verifyServiceRestart baseline 9999
            (clock upForAnHour)
            {| HealthChecker.fetched :=
                 HealthChecker.FetchResolves
                   (healthEndpoint upForAnHour
                      (Normal {| webServer := true; websocket := true;
                                 mcpConnection := false |}));
               HealthChecker.completed := clock upForAnHour |}
            (clock upForAnHour)
            (HealthChecker.create HealthChecker.DEFAULT_CONFIG))
     = Normal true.
Proof.
  split; [reflexivity |].
  apply (verifyServiceRestart_against_server upForAnHour
           {| webServer := true; websocket := true; mcpConnection := false |}
           (clock upForAnHour - 10000) 9999 (clock upForAnHour)
           (clock upForAnHour)
           (HealthChecker.create HealthChecker.DEFAULT_CONFIG)).
  - reflexivity.
  - vm_compute. split; discriminate.
  - vm_compute. split; [reflexivity | discriminate].
Defined.

(** X22: The verification response of the server confirms the restart to
    the Verifying phase exactly when the server started after the
    [timestamp] of the request, which the state machine sets to the
    start time of the restart; a request without [timestamp], and a
    failing health check, are answered with [restarted: false]. *)
Theorem verification_confirms_iff_restarted server timestamp health :
  RestartStateMachine.remoteConfirms
    (Normal (Some (restartVerificationResponse server timestamp health)))
  = match health, timestamp with
    | Normal _, Some ts => serverStartTime server >? ts
    | _, _ => false
    end.
Proof. destruct health as [h | e], timestamp as [ts |]; reflexivity. Qed.

End WebServerProofs.
